(** * VCET AI Chatbot: request orchestration, storage adapter and query function

  A shallow embedding of the JavaScript sources

  - [static/js/services/storage.js]  (class [StorageService]),
  - [static/js/services/api.js]      (class [ApiService]),
  - the main browser script          (state, [sendQuery], [sendMessage],
                                      [startLoadingProcess], rate limiting,
                                      chat history),
  - [netlify/functions/query.js]     (the serverless [/api/query] handler),
  - [netlify/functions/health.js] and [netlify/functions/suggestions.js]
                                     (the health and suggestions handlers),
  - the DOM utility helpers          ([truncateText], [debounce], [throttle]),

  together with the properties of the specification that are about them,
  and further properties of the code.

  Conventions.  A JavaScript string is a [string]: the characters are the
  code units below 256 (Latin-1), for which [toLowerCase] and [trim] are
  written out below.  A JavaScript exception or a rejected promise is the
  [Throw] case of [Completion].  Whatever the browser or the network
  decides (a storage access that is denied, a quota that is exceeded, the
  outcome of a [fetch], the value of [Date.now()]) is an explicit argument
  or a field of the modelled store. *)

From Stdlib Require Import ZArith List Ascii String Bool Lia.
From stdpp Require Import base gmap strings list.
Import ListNotations.
Local Open Scope string_scope.
Local Open Scope list_scope.
Local Open Scope Z_scope.
Set Warnings "-register-all".

(* ===================================================================== *)
(** * JavaScript values, strings and completions *)
(* ===================================================================== *)

Module Js.

(** ** Strings *)

(** [WhiteSpace] and [LineTerminator] code units below 256:
    TAB, LF, VT, FF, CR, SP and NBSP. *)
Definition isWhiteSpace (c : ascii) : bool :=
  let n := nat_of_ascii c in
  (Nat.eqb n 9 || Nat.eqb n 10 || Nat.eqb n 11 || Nat.eqb n 12
     || Nat.eqb n 13 || Nat.eqb n 32 || Nat.eqb n 160)%bool.

Fixpoint trimStart (s : string) : string :=
  match s with
  | EmptyString => EmptyString
  | String c s' => if isWhiteSpace c then trimStart s' else s
  end.

Fixpoint trimEnd (s : string) : string :=
  match s with
  | EmptyString => EmptyString
  | String c s' =>
      match trimEnd s' with
      | EmptyString => if isWhiteSpace c then EmptyString else String c EmptyString
      | t => String c t
      end
  end.

(** [String.prototype.trim] *)
Definition trim (s : string) : string := trimEnd (trimStart s).

(** Upper-case letters below 256: A-Z, and U+00C0-U+00DE except the
    multiplication sign U+00D7; each has its lower case 32 above. *)
Definition isUpper (c : ascii) : bool :=
  let n := nat_of_ascii c in
  ((Nat.leb 65 n && Nat.leb n 90)
     || (Nat.leb 192 n && Nat.leb n 222 && negb (Nat.eqb n 215)))%bool.

Definition lowerChar (c : ascii) : ascii :=
  if isUpper c then ascii_of_nat (nat_of_ascii c + 32) else c.

(** [String.prototype.toLowerCase] *)
Fixpoint toLowerCase (s : string) : string :=
  match s with
  | EmptyString => EmptyString
  | String c s' => String (lowerChar c) (toLowerCase s')
  end.

(** [String.prototype.startsWith] *)
Fixpoint startsWith (s p : string) : bool :=
  match p, s with
  | EmptyString, _ => true
  | String a p', String b s' => if Ascii.eqb a b then startsWith s' p' else false
  | String _ _, EmptyString => false
  end.

(** [c.repeat(n)] for a one-character string *)
Fixpoint repeatChar (c : ascii) (n : nat) : string :=
  match n with
  | O => EmptyString
  | S n' => String c (repeatChar c n')
  end.

(** a text between double quotes *)
Definition quoted (s : string) : string :=
  String (ascii_of_nat 34) (s +:+ String (ascii_of_nat 34) EmptyString).

(** a string is truthy when it is not empty *)
Definition nonEmpty (s : string) : bool :=
  match s with EmptyString => false | String _ _ => true end.

(** [s.substring(0, n)] for [n] already clamped to a natural number *)
Fixpoint substring0 (n : nat) (s : string) : string :=
  match n, s with
  | O, _ => EmptyString
  | S n', String c s' => String c (substring0 n' s')
  | S _, EmptyString => EmptyString
  end.

(** the value of a character as a digit, for radices up to 36 *)
Definition digitValue (c : ascii) : option nat :=
  let n := nat_of_ascii c in
  if (Nat.leb 48 n && Nat.leb n 57)%bool then Some (n - 48)%nat
  else if (Nat.leb 97 n && Nat.leb n 122)%bool then Some (n - 87)%nat
  else if (Nat.leb 65 n && Nat.leb n 90)%bool then Some (n - 55)%nat
  else None.

(** the longest prefix of digits of the radix, as a number; [None] when
    there is no digit *)
Fixpoint parseDigits (radix : nat) (acc : option Z) (s : string) : option Z :=
  match s with
  | EmptyString => acc
  | String c s' =>
      match digitValue c with
      | Some d =>
          if (d <? radix)%nat then
            parseDigits radix
              (Some (match acc with
                     | Some a => a * Z.of_nat radix + Z.of_nat d
                     | None => Z.of_nat d
                     end)) s'
          else acc
      | None => acc
      end
  end.

(** [parseInt(s)] without a radix argument: leading white space, a sign, a
    [0x] prefix, then digits; [None] is [NaN].  The result is the integer
    the digits denote (the code below only compares it with small numbers
    and clamps it, where the rounding of a double makes no difference). *)
Definition parseInt (s : string) : option Z :=
  let s1 := trimStart s in
  let '(negative, s2) :=
    match s1 with
    | String "-" r => (true, r)
    | String "+" r => (false, r)
    | _ => (false, s1)
    end in
  let '(radix, s3) :=
    match s2 with
    | String "0" (String "x" r) => (16%nat, r)
    | String "0" (String "X" r) => (16%nat, r)
    | _ => (10%nat, s2)
    end in
  match parseDigits radix None s3 with
  | Some n => Some (if negative then - n else n)
  | None => None
  end.

(** ** JSON values *)

Inductive JsonValue : Type :=
  | JNull
  | JBool (b : bool)
  | JNum (n : Z)
  | JStr (s : string)
  | JArr (elems : list JsonValue)
  | JObj (fields : list (string * JsonValue)).

(** A JavaScript value read out of parsed JSON: [None] is [undefined]. *)
Definition JsVal : Type := option JsonValue.

(** Own property of a parsed object; with duplicate keys [JSON.parse]
    keeps the last one. *)
Fixpoint lookupField (k : string) (fields : list (string * JsonValue)) : JsVal :=
  match fields with
  | [] => None
  | (k', v) :: rest =>
      match lookupField k rest with
      | Some w => Some w
      | None => if String.eqb k k' then Some v else None
      end
  end.

(** ToBoolean *)
Definition truthy (v : JsVal) : bool :=
  match v with
  | None => false
  | Some JNull => false
  | Some (JBool b) => b
  | Some (JNum n) => negb (n =? 0)
  | Some (JStr s) => nonEmpty s
  | Some (JArr _) => true
  | Some (JObj _) => true
  end.

(** ** Errors and completions *)

(** The text of an error message: a literal, the text of a value that the
    code passed to [Error(...)], or the template [`HTTP ${status}`]. *)
Inductive Message : Type :=
  | Text (s : string)
  | TextOf (v : JsonValue)
  | HttpStatusLine (status : Z)
  | ApiStatusLine (status : Z).

Record JsError : Type := mkError {
  name : string;
  message : Message;
  status : option Z;
  data : JsVal
  }.

Definition Error (m : Message) : JsError :=
  {| name := "Error"; message := m; status := None; data := None |}.
Definition TypeError (m : string) : JsError :=
  {| name := "TypeError"; message := Text m; status := None; data := None |}.
Definition SyntaxError (m : string) : JsError :=
  {| name := "SyntaxError"; message := Text m; status := None; data := None |}.
Definition SecurityError : JsError :=
  {| name := "SecurityError"; message := Text "The operation is insecure.";
     status := None; data := None |}.
Definition QuotaExceededError : JsError :=
  {| name := "QuotaExceededError"; message := Text "The quota has been exceeded.";
     status := None; data := None |}.
Definition AbortError : JsError :=
  {| name := "AbortError"; message := Text "The operation was aborted.";
     status := None; data := None |}.

Inductive Completion (A : Type) : Type :=
  | Normal (a : A)
  | Throw (e : JsError).
Arguments Normal {A} a.
Arguments Throw {A} e.

Definition throws {A} (c : Completion A) : bool :=
  match c with Normal _ => false | Throw _ => true end.

(** [v.k]: reading a property of [null] or [undefined] is a TypeError; a
    parsed object has its fields; the other JSON values have none of the
    names used here. *)
Definition getProp (v : JsVal) (k : string) : Completion JsVal :=
  match v with
  | None => Throw (TypeError "Cannot read properties of undefined")
  | Some JNull => Throw (TypeError "Cannot read properties of null")
  | Some (JObj fields) => Normal (lookupField k fields)
  | Some _ => Normal None
  end.

End Js.

(* ===================================================================== *)
(** * The browser's [localStorage] *)
(* ===================================================================== *)

Module Browser.
Import Js.

(** The stored items, and what the browser currently does with an access:
    with [accessDenied] every use of [localStorage] throws (storage
    disabled by the privacy settings); with [quotaExceeded] a write
    throws. *)
Record LocalStorage : Type := mkStore {
  items : gmap string string;
  accessDenied : bool;
  quotaExceeded : bool
  }.

Definition withItems (ls : LocalStorage) (m : gmap string string) : LocalStorage :=
  {| items := m; accessDenied := accessDenied ls; quotaExceeded := quotaExceeded ls |}.

Definition getItem (ls : LocalStorage) (key : string) : Completion (option string) :=
  if accessDenied ls then Throw SecurityError else Normal (items ls !! key).

Definition setItem (ls : LocalStorage) (key value : string) : Completion LocalStorage :=
  if accessDenied ls then Throw SecurityError
  else if quotaExceeded ls then Throw QuotaExceededError
  else Normal (withItems ls (<[key := value]> (items ls))).

Definition removeItem (ls : LocalStorage) (key : string) : Completion LocalStorage :=
  if accessDenied ls then Throw SecurityError
  else Normal (withItems ls (delete key (items ls))).

Definition clearItems (ls : LocalStorage) : Completion LocalStorage :=
  if accessDenied ls then Throw SecurityError
  else Normal (withItems ls ∅).

End Browser.

(* ===================================================================== *)
(** * [static/js/services/storage.js]: the key-value store adapter *)
(* ===================================================================== *)

Module StorageService.
Import Js Browser.

(** [StorageKeys] *)
Definition API_KEY : string := "vcet_groq_api_key".
Definition THEME : string := "theme".
Definition CHAT_HISTORY : string := "chatHistory".
Definition USER_PREFERENCES : string := "vcet_preferences".
Definition LAST_VISIT : string := "vcet_last_visit".

(** The object: its only field is set once, by the constructor. *)
Record t : Type := mkService { isAvailable : bool }.

(** [checkAvailability()]: writes and removes a probe key inside a
    [try]; the store it leaves behind is returned with the answer. *)
Definition checkAvailability (ls : LocalStorage) : bool * LocalStorage :=
  let test := "__storage_test__" in
  match setItem ls test test with
  | Throw _ => (false, ls)
  | Normal ls1 =>
      match removeItem ls1 test with
      | Throw _ => (false, ls1)
      | Normal ls2 => (true, ls2)
      end
  end.

(** [constructor()] *)
Definition new (ls : LocalStorage) : t * LocalStorage :=
  let '(ok, ls') := checkAvailability ls in ({| isAvailable := ok |}, ls').

(** [getRaw(key, defaultValue = '')]: guarded by [isAvailable] only; the
    call of [localStorage.getItem] is not inside a [try]. *)
Definition getRaw (this : t) (ls : LocalStorage) (key : string) (defaultValue : string)
  : Completion string :=
  if negb (isAvailable this) then Normal defaultValue
  else
    match getItem ls key with
    | Throw e => Throw e
    | Normal (Some v) => Normal (if nonEmpty v then v else defaultValue)
    | Normal None => Normal defaultValue
    end.

(** [setRaw(key, value)] *)
Definition setRaw (this : t) (ls : LocalStorage) (key value : string)
  : Completion bool * LocalStorage :=
  if negb (isAvailable this) then (Normal false, ls)
  else
    match setItem ls key value with
    | Normal ls' => (Normal true, ls')
    | Throw _ => (Normal false, ls)
    end.

(** [remove(key)] *)
Definition remove (this : t) (ls : LocalStorage) (key : string)
  : Completion bool * LocalStorage :=
  if negb (isAvailable this) then (Normal false, ls)
  else
    match removeItem ls key with
    | Normal ls' => (Normal true, ls')
    | Throw _ => (Normal false, ls)
    end.

(** [has(key)]: like [getRaw], no [try] around the access. *)
Definition has (this : t) (ls : LocalStorage) (key : string) : Completion bool :=
  if negb (isAvailable this) then Normal false
  else
    match getItem ls key with
    | Throw e => Throw e
    | Normal (Some _) => Normal true
    | Normal None => Normal false
    end.

(** [clear()] *)
Definition clear (this : t) (ls : LocalStorage) : Completion bool * LocalStorage :=
  if negb (isAvailable this) then (Normal false, ls)
  else
    match clearItems ls with
    | Normal ls' => (Normal true, ls')
    | Throw _ => (Normal false, ls)
    end.

Section Serialized.
(** [JSON.stringify] and [JSON.parse] on the values the callers store;
      both can throw (a cyclic value, a malformed text). *)
Context {V : Type}.
Variable JSON_stringify : V -> Completion string.
Variable JSON_parse : string -> Completion V.

(** [set(key, value)] *)
Definition set (this : t) (ls : LocalStorage) (key : string) (value : V)
    : Completion bool * LocalStorage :=
    if negb (isAvailable this) then (Normal false, ls)
    else
      match JSON_stringify value with
      | Throw _ => (Normal false, ls)
      | Normal serialized =>
          match setItem ls key serialized with
          | Normal ls' => (Normal true, ls')
          | Throw _ => (Normal false, ls)
          end
      end.

(** [get(key, defaultValue = null)] *)
Definition get (this : t) (ls : LocalStorage) (key : string) (defaultValue : V)
    : Completion V :=
    if negb (isAvailable this) then Normal defaultValue
    else
      match getItem ls key with
      | Throw _ => Normal defaultValue
      | Normal None => Normal defaultValue
      | Normal (Some item) =>
          match JSON_parse item with
          | Normal v => Normal v
          | Throw _ => Normal defaultValue
          end
      end.

(** [saveChatHistory(history)]: stores what it is given. *)
Definition saveChatHistory (this : t) (ls : LocalStorage) (history : V) : LocalStorage :=
    snd (set this ls CHAT_HISTORY history).

(** [clearChatHistory()] *)
Definition clearChatHistory (this : t) (ls : LocalStorage) : LocalStorage :=
    snd (remove this ls CHAT_HISTORY).
End Serialized.

(** [getTheme()] and [setTheme(theme)] *)
Definition getTheme (this : t) (ls : LocalStorage) : Completion string :=
  getRaw this ls THEME "light".
Definition setTheme (this : t) (ls : LocalStorage) (theme : string) : LocalStorage :=
  snd (setRaw this ls THEME theme).

(** [getApiKey()]: [key || null] *)
Definition getApiKey (this : t) (ls : LocalStorage) : Completion (option string) :=
  match getRaw this ls API_KEY "" with
  | Throw e => Throw e
  | Normal key => Normal (if nonEmpty key then Some key else None)
  end.

(** [setApiKey(key)]: a falsy key removes the entry. *)
Definition setApiKey (this : t) (ls : LocalStorage) (key : string) : LocalStorage :=
  if nonEmpty key then snd (setRaw this ls API_KEY key)
  else snd (remove this ls API_KEY).

End StorageService.

(* ===================================================================== *)
(** * [static/js/services/api.js]: the HTTP client *)
(* ===================================================================== *)

Module ApiService.
Import Js Browser.

Record Config : Type := mkConfig {
  cfg_baseUrl : string;
  cfg_timeout : Z;
  cfg_retryAttempts : Z;
  cfg_retryDelay : Z
}.

(** [API_CONFIG]; [getBackendUrl()] reads [window.location], so the URL it
    returns is an argument. *)
Definition API_CONFIG (backendUrl : string) : Config :=
  {| cfg_baseUrl := backendUrl;
     cfg_timeout := 60000;
     cfg_retryAttempts := 3;
     cfg_retryDelay := 1000 |}.

(** [API_ENDPOINTS] *)
Definition endpoint_query : string := "/api/query".
Definition endpoint_stats : string := "/api/stats".
Definition endpoint_suggestions : string := "/api/suggestions".
Definition endpoint_health : string := "/api/health".
Definition endpoint_clearCache : string := "/api/clear-cache".

(** [STORAGE_KEYS.apiKey] *)
Definition STORAGE_KEYS_apiKey : string := "vcet_groq_api_key".

Record t : Type := mkApi { baseUrl : string; timeout : Z }.

(** [constructor()] *)
Definition new (backendUrl : string) : t :=
  {| baseUrl := cfg_baseUrl (API_CONFIG backendUrl);
     timeout := cfg_timeout (API_CONFIG backendUrl) |}.

(** [getApiKey()] *)
Definition getApiKey (ls : LocalStorage) : Completion (option string) :=
  getItem ls STORAGE_KEYS_apiKey.

(** [setApiKey(key)] *)
Definition setApiKey (ls : LocalStorage) (key : string) : Completion LocalStorage :=
  if nonEmpty key then setItem ls STORAGE_KEYS_apiKey key
  else removeItem ls STORAGE_KEYS_apiKey.

(** [buildHeaders(additionalHeaders = {})]: the spread comes after the
    content type, so a caller's header of that name wins. *)
Definition buildHeaders (ls : LocalStorage) (additionalHeaders : gmap string string)
  : Completion (gmap string string) :=
  let headers := additionalHeaders ∪ {[ "Content-Type" := "application/json" ]} in
  match getApiKey ls with
  | Throw e => Throw e
  | Normal (Some apiKey) =>
      Normal (if nonEmpty apiKey then <[ "X-Groq-Api-Key" := apiKey ]> headers else headers)
  | Normal None => Normal headers
  end.

(** The options given to [fetch]; a body is the JSON text of a value. *)
Record RequestInit : Type := mkInit {
  method : option string;
  reqBody : option JsonValue;
  reqHeaders : gmap string string
}.

(** ** The network, as seen by one call *)

(** What [response.json()] does: the parsed body, a SyntaxError, or a body
    that never arrives. *)
Inductive BodyRead : Type :=
| BodyJson (v : JsonValue)
| BodyMalformed
| BodyStalls.

Record Response : Type := mkResponse { respStatus : Z; respBody : BodyRead }.

(** [response.ok] *)
Definition ok (r : Response) : bool := (200 <=? respStatus r) && (respStatus r <=? 299).

(** What the pending [fetch] does when nobody aborts it: it resolves with a
    response or rejects with an error, so many milliseconds after the
    call, or it stays pending. *)
Inductive FetchBehaviour : Type :=
| Responds (after_ms : Z) (r : Response)
| Fails (after_ms : Z) (e : JsError)
| Hangs.

(** whether [fetch] settles before a timer of [ms] milliseconds fires *)
Definition settlesBefore (b : FetchBehaviour) (ms : Z) : bool :=
  match b with
  | Responds t _ => t <? ms
  | Fails t _ => t <? ms
  | Hangs => false
  end.

(** The state of the promise an [async] method returns. *)
Inductive Settled (A : Type) : Type :=
| Fulfilled (a : A)
| Rejected (e : JsError)
| Pending.
Arguments Fulfilled {A} a.
Arguments Rejected {A} e.
Arguments Pending {A}.

Inductive Effect : Type :=
| SetTimeout (ms : Z)
| Fetch (url : string) (init : RequestInit)
| ClearTimeout
| Abort.

Definition timeoutError : JsError :=
  {| name := "Error"; message := Text "Request timeout"; status := Some 408; data := None |}.

(** the text [Error(v)] gets from a value *)
Definition messageOf (v : JsonValue) : Message :=
  match v with JStr s => Text s | _ => TextOf v end.

(** the [catch] block of [request] *)
Definition request_catch (error : JsError) : list Effect * Settled JsonValue :=
  ([ClearTimeout],
   if String.eqb (name error) "AbortError" then Rejected timeoutError else Rejected error).

(** the [!response.ok] branch of [request] *)
Definition request_notOk (r : Response) : list Effect * Settled JsonValue :=
  let raise (errorData : JsonValue) :=
    match getProp (Some errorData) "message" with
    | Throw e => request_catch e
    | Normal m =>
        let msg := if truthy m then
                     match m with Some v => messageOf v | None => HttpStatusLine (respStatus r) end
                   else HttpStatusLine (respStatus r) in
        request_catch {| name := "Error"; message := msg;
                         status := Some (respStatus r); data := Some errorData |}
    end in
  match respBody r with
  | BodyJson v => raise v
  | BodyMalformed => raise (JObj [])
  | BodyStalls => ([], Pending)
  end.

(** [request(endpoint, options = {})] *)
Definition request (this : t) (ls : LocalStorage) (endpoint : string)
  (options : RequestInit) (net : FetchBehaviour) : list Effect * Settled JsonValue :=
  let url := baseUrl this +:+ endpoint in
  let armed := [SetTimeout (timeout this)] in
  match buildHeaders ls (reqHeaders options) with
  | Throw e => let '(fx, r) := request_catch e in (armed ++ fx, r)
  | Normal headers =>
      let sent := armed ++ [Fetch url {| method := method options;
                                         reqBody := reqBody options;
                                         reqHeaders := headers |}] in
      if settlesBefore net (timeout this) then
        match net with
        | Responds _ response =>
            if negb (ok response) then
              let '(fx, r) := request_notOk response in (sent ++ ClearTimeout :: fx, r)
            else
              match respBody response with
              | BodyJson v => (sent ++ [ClearTimeout], Fulfilled v)
              | BodyMalformed =>
                  let '(fx, r) := request_catch (SyntaxError "Unexpected token") in
                  (sent ++ ClearTimeout :: fx, r)
              | BodyStalls => (sent ++ [ClearTimeout], Pending)
              end
        | Fails _ e => let '(fx, r) := request_catch e in (sent ++ fx, r)
        | Hangs => (sent, Pending)
        end
      else
        (* the timer fires first: [controller.abort()] rejects the fetch *)
        let '(fx, r) := request_catch AbortError in (sent ++ Abort :: fx, r)
  end.

(** [get(endpoint)] and [post(endpoint, data)] *)
Definition get (this : t) (ls : LocalStorage) (endpoint : string) (net : FetchBehaviour) :=
  request this ls endpoint {| method := Some "GET"; reqBody := None; reqHeaders := ∅ |} net.

Definition post (this : t) (ls : LocalStorage) (endpoint : string) (data : JsonValue)
  (net : FetchBehaviour) :=
  request this ls endpoint {| method := Some "POST"; reqBody := Some data; reqHeaders := ∅ |} net.

(** [sendQuery(query)] *)
Definition sendQuery (this : t) (ls : LocalStorage) (query : string) (net : FetchBehaviour) :=
  post this ls endpoint_query (JObj [("query", JStr query)]) net.

(** The object [checkHealth()] resolves with. *)
Record HealthStatus : Type := mkHealthStatus {
  success : bool;
  ragInitialized : JsVal;
  healthStatus : JsVal;
  healthError : option Message
}.

Definition healthFailure (e : JsError) : HealthStatus :=
  {| success := false; ragInitialized := None; healthStatus := None;
     healthError := Some (message e) |}.

(** [checkHealth()]: whatever the request throws is caught. *)
Definition checkHealth (this : t) (ls : LocalStorage) (net : FetchBehaviour)
  : list Effect * Settled HealthStatus :=
  match get this ls endpoint_health net with
  | (fx, Fulfilled data) =>
      (fx,
       match getProp (Some data) "rag_initialized", getProp (Some data) "status" with
       | Normal r, Normal st =>
           Fulfilled {| success := true; ragInitialized := r; healthStatus := st;
                        healthError := None |}
       | Throw e, _ => Fulfilled (healthFailure e)
       | _, Throw e => Fulfilled (healthFailure e)
       end)
  | (fx, Rejected e) => (fx, Fulfilled (healthFailure e))
  | (fx, Pending) => (fx, Pending)
  end.

End ApiService.

(* ===================================================================== *)
(** * Code that changes a state, logs what it does to the outside, and
      may throw *)
(* ===================================================================== *)

Module Eff.
Import Js.

Section Monad.
Context {S E : Type}.

(** A computation: from a state to a completion, the state it leaves and
    the effects it had on the outside, in order. *)
Definition M (A : Type) : Type := S -> Completion A * S * list E.

Definition ret {A} (a : A) : M A := fun s => (Normal a, s, []).

Definition bind {A B} (m : M A) (k : A -> M B) : M B :=
  fun s =>
    match m s with
    | (Normal a, s1, t1) => let '(r, s2, t2) := k a s1 in (r, s2, t1 ++ t2)
    | (Throw e, s1, t1) => (Throw e, s1, t1)
    end.

Definition throw {A} (e : JsError) : M A := fun s => (Throw e, s, []).

(** [try { m } catch (e) { h e }] *)
Definition tryCatch {A} (m : M A) (h : JsError -> M A) : M A :=
  fun s =>
    match m s with
    | (Normal a, s1, t1) => (Normal a, s1, t1)
    | (Throw e, s1, t1) => let '(r, s2, t2) := h e s1 in (r, s2, t1 ++ t2)
    end.

(** [try { m } finally { f }] *)
Definition finally {A} (m : M A) (f : M unit) : M A :=
  fun s =>
    let '(r, s1, t1) := m s in
    match f s1 with
    | (Normal _, s2, t2) => (r, s2, t1 ++ t2)
    | (Throw e, s2, t2) => (Throw e, s2, t1 ++ t2)
    end.

Definition gets {A} (f : S -> A) : M A := fun s => (Normal (f s), s, []).
Definition modify (f : S -> S) : M unit := fun s => (Normal tt, f s, []).
Definition emit (e : E) : M unit := fun s => (Normal tt, s, [e]).

(** a completion computed without the state *)
Definition lift {A} (c : Completion A) : M A := fun s => (c, s, []).

(** [if (c) { m }] *)
Definition when (c : bool) (m : M unit) : M unit := if c then m else ret tt.

End Monad.

(** The notations [x ← m; k] and [m ;; k] sequence two computations. *)
#[global] Instance M_ret {S E} : MRet (@M S E) := @ret S E.
#[global] Instance M_bind {S E} : MBind (@M S E) := fun A B k m => bind m k.

Definition stateOf {S E A} (r : Completion A * S * list E) : S := snd (fst r).
Definition resultOf {S E A} (r : Completion A * S * list E) : Completion A := fst (fst r).
Definition effectsOf {S E A} (r : Completion A * S * list E) : list E := snd r.

(** [m] keeps the property [P] of the state, however it ends. *)
Definition preserves {S E A} (P : S -> Prop) (m : @M S E A) : Prop :=
  forall s, P s -> P (stateOf (m s)).

(** every effect of [m] satisfies [Q] *)
Definition emitsOnly {S E A} (Q : E -> Prop) (m : @M S E A) : Prop :=
  forall s, Forall Q (effectsOf (m s)).

End Eff.

(* ===================================================================== *)
(** * The main browser script: state, queries, rate limiting, history *)
(* ===================================================================== *)

Module Main.
Import Js Browser Eff.

(** [endpoints] and [storageKeys]: the objects [api.js] put on [window]. *)
Definition endpoints_query : string := ApiService.endpoint_query.
Definition endpoints_health : string := ApiService.endpoint_health.
Definition endpoints_suggestions : string := ApiService.endpoint_suggestions.
Definition storageKeys_apiKey : string := ApiService.STORAGE_KEYS_apiKey.

Definition MAX_CONSECUTIVE_FAILURES : nat := 3.
Definition LOADING_WARNING_TIME : Z := 5 * 60 * 1000.
Definition LOADING_TIMEOUT_TIME : Z := 30 * 60 * 1000.

(** The [options] object of a message. *)
Record MsgOptions : Type := mkOptions {
  cached : JsVal;
  responseTime : JsVal;
  isError : bool
}.
Definition noOptions : MsgOptions :=
  {| cached := None; responseTime := None; isError := false |}.

(** An element of [chatHistory]. *)
Record ChatEntry : Type := mkEntry {
  content : JsVal;
  sender : string;
  timestamp : string;
  options : MsgOptions
}.

(** The script's variables, the store, and the parts of the page that the
    modelled functions read or switch. *)
Record AppState : Type := mkState {
  chatHistory : list ChatEntry;
  isProcessing : bool;
  isRateLimited : bool;
  consecutiveFailures : nat;
  localStorage : LocalStorage;
  messageInput : string;          (* elements.messageInput.value *)
  apiKeyInput : string;           (* elements.apiKeyInput.value *)
  messageInputDisabled : bool;    (* elements.messageInput.disabled *)
  sendBtnDisabled : bool;         (* elements.sendBtn.disabled *)
  settingsModalActive : bool;
  rateLimitPopupActive : bool;
  rateLimitBannerVisible : bool
}.

(** What a function does to the outside: the network and the visible page. *)
Inductive Effect : Type :=
| Fetch (url method : string) (headers : gmap string string) (body : JsonValue)
| ShowToast (msg : Message) (type : string)
| RenderMessage (content : JsVal) (sender : string)
| ClearMessages
| TypingIndicator (shown : bool)
| ApiUsageDisplay (remaining : JsonValue)
| ApiKeyValidation (type msg : string)
| LogError (what : string).

Definition isFetch (e : Effect) : bool :=
  match e with Fetch _ _ _ _ => true | _ => false end.

(** the number of network calls among the effects *)
Definition networkCalls (t : list Effect) : nat := List.length (List.filter isFetch t).

Abbreviation Act := (@M AppState Effect).

(** ** Field updates *)

Definition set_chatHistory (h : list ChatEntry) (s : AppState) : AppState :=
  mkState h (isProcessing s) (isRateLimited s) (consecutiveFailures s) (localStorage s)
    (messageInput s) (apiKeyInput s) (messageInputDisabled s) (sendBtnDisabled s)
    (settingsModalActive s) (rateLimitPopupActive s) (rateLimitBannerVisible s).
Definition set_isProcessing (b : bool) (s : AppState) : AppState :=
  mkState (chatHistory s) b (isRateLimited s) (consecutiveFailures s) (localStorage s)
    (messageInput s) (apiKeyInput s) (messageInputDisabled s) (sendBtnDisabled s)
    (settingsModalActive s) (rateLimitPopupActive s) (rateLimitBannerVisible s).
Definition set_isRateLimited (b : bool) (s : AppState) : AppState :=
  mkState (chatHistory s) (isProcessing s) b (consecutiveFailures s) (localStorage s)
    (messageInput s) (apiKeyInput s) (messageInputDisabled s) (sendBtnDisabled s)
    (settingsModalActive s) (rateLimitPopupActive s) (rateLimitBannerVisible s).
Definition set_consecutiveFailures (n : nat) (s : AppState) : AppState :=
  mkState (chatHistory s) (isProcessing s) (isRateLimited s) n (localStorage s)
    (messageInput s) (apiKeyInput s) (messageInputDisabled s) (sendBtnDisabled s)
    (settingsModalActive s) (rateLimitPopupActive s) (rateLimitBannerVisible s).
Definition set_localStorage (ls : LocalStorage) (s : AppState) : AppState :=
  mkState (chatHistory s) (isProcessing s) (isRateLimited s) (consecutiveFailures s) ls
    (messageInput s) (apiKeyInput s) (messageInputDisabled s) (sendBtnDisabled s)
    (settingsModalActive s) (rateLimitPopupActive s) (rateLimitBannerVisible s).
Definition set_messageInput (v : string) (s : AppState) : AppState :=
  mkState (chatHistory s) (isProcessing s) (isRateLimited s) (consecutiveFailures s)
    (localStorage s) v (apiKeyInput s) (messageInputDisabled s) (sendBtnDisabled s)
    (settingsModalActive s) (rateLimitPopupActive s) (rateLimitBannerVisible s).
Definition set_apiKeyInput (v : string) (s : AppState) : AppState :=
  mkState (chatHistory s) (isProcessing s) (isRateLimited s) (consecutiveFailures s)
    (localStorage s) (messageInput s) v (messageInputDisabled s) (sendBtnDisabled s)
    (settingsModalActive s) (rateLimitPopupActive s) (rateLimitBannerVisible s).
Definition set_messageInputDisabled (b : bool) (s : AppState) : AppState :=
  mkState (chatHistory s) (isProcessing s) (isRateLimited s) (consecutiveFailures s)
    (localStorage s) (messageInput s) (apiKeyInput s) b (sendBtnDisabled s)
    (settingsModalActive s) (rateLimitPopupActive s) (rateLimitBannerVisible s).
Definition set_sendBtnDisabled (b : bool) (s : AppState) : AppState :=
  mkState (chatHistory s) (isProcessing s) (isRateLimited s) (consecutiveFailures s)
    (localStorage s) (messageInput s) (apiKeyInput s) (messageInputDisabled s) b
    (settingsModalActive s) (rateLimitPopupActive s) (rateLimitBannerVisible s).
Definition set_settingsModalActive (b : bool) (s : AppState) : AppState :=
  mkState (chatHistory s) (isProcessing s) (isRateLimited s) (consecutiveFailures s)
    (localStorage s) (messageInput s) (apiKeyInput s) (messageInputDisabled s)
    (sendBtnDisabled s) b (rateLimitPopupActive s) (rateLimitBannerVisible s).
Definition set_rateLimitPopupActive (b : bool) (s : AppState) : AppState :=
  mkState (chatHistory s) (isProcessing s) (isRateLimited s) (consecutiveFailures s)
    (localStorage s) (messageInput s) (apiKeyInput s) (messageInputDisabled s)
    (sendBtnDisabled s) (settingsModalActive s) b (rateLimitBannerVisible s).
Definition set_rateLimitBannerVisible (b : bool) (s : AppState) : AppState :=
  mkState (chatHistory s) (isProcessing s) (isRateLimited s) (consecutiveFailures s)
    (localStorage s) (messageInput s) (apiKeyInput s) (messageInputDisabled s)
    (sendBtnDisabled s) (settingsModalActive s) (rateLimitPopupActive s) b.

(** ** The monad's operations at the script's state *)

Definition read {A} (f : AppState -> A) : Act A := gets f.
Definition update (f : AppState -> AppState) : Act unit := modify f.
Definition effect (e : Effect) : Act unit := emit e.
Definition raise {A} (e : JsError) : Act A := throw e.
Definition pure {A} (a : A) : Act A := ret a.

(** ** [localStorage] from the script *)

Definition ls_getItem (key : string) : Act (option string) :=
  ls ← read localStorage; lift (getItem ls key).

Definition ls_setItem (key value : string) : Act unit :=
  ls ← read localStorage;
  ls' ← lift (setItem ls key value);
  update (set_localStorage ls').

Definition ls_removeItem (key : string) : Act unit :=
  ls ← read localStorage;
  ls' ← lift (removeItem ls key);
  update (set_localStorage ls').

(** ** The network *)

(** What one [fetch] of the script and the [response.json()] after it
    give: the fetch rejects, or there is a response with a status and a
    body that parses ([Some]) or does not ([None]). *)
Inductive FetchOutcome : Type :=
| NetworkError (e : JsError)
| HttpResponse (status : Z) (body : option JsonValue).

Record Response : Type := mkResponse { respStatus : Z; respBody : option JsonValue }.

(** [response.ok] *)
Definition ok (r : Response) : bool := (200 <=? respStatus r) && (respStatus r <=? 299).

(** [await fetch(url, {method, headers, body})] *)
Definition fetch (url method : string) (headers : gmap string string) (body : JsonValue)
  (net : FetchOutcome) : Act Response :=
  effect (Fetch url method headers body) ;;
  match net with
  | NetworkError e => raise e
  | HttpResponse st b => pure {| respStatus := st; respBody := b |}
  end.

(** [await response.json()] *)
Definition response_json (r : Response) : Act JsonValue :=
  match respBody r with
  | Some v => pure v
  | None => raise (SyntaxError "Unexpected token")
  end.

(** ** Page helpers *)

Definition showToast (msg : Message) (type : string) : Act unit := effect (ShowToast msg type).

Definition showApiKeyValidation (type msg : string) : Act unit :=
  effect (ApiKeyValidation type msg).

(** [updateCharCount()] *)
Definition updateCharCount : Act unit :=
  update (fun s => set_sendBtnDisabled (negb (nonEmpty (messageInput s)) || isProcessing s) s).

(** [openSettingsModal()] *)
Definition openSettingsModal : Act unit :=
  update (set_settingsModalActive true) ;;
  savedKey ← ls_getItem storageKeys_apiKey;
  match savedKey with
  | Some k => when (nonEmpty k) (update (set_apiKeyInput k))
  | None => pure tt
  end.

(** [closeSettingsModal()] *)
Definition closeSettingsModal : Act unit := update (set_settingsModalActive false).

(** [disableMessageInput()] and [enableMessageInput()] *)
Definition disableMessageInput : Act unit :=
  update (set_messageInputDisabled true) ;; update (set_sendBtnDisabled true).

Definition enableMessageInput : Act unit :=
  update (set_messageInputDisabled false) ;; updateCharCount.

(** ** Rate limiting *)

(** [handleRateLimitExceeded()] *)
Definition handleRateLimitExceeded : Act unit :=
  update (set_isRateLimited true) ;;
  update (set_rateLimitPopupActive true) ;;
  update (set_rateLimitBannerVisible true) ;;
  disableMessageInput.

(** [dismissRateLimitPopup()] *)
Definition dismissRateLimitPopup : Act unit := update (set_rateLimitPopupActive false).

(** [resetRateLimitState()] *)
Definition resetRateLimitState : Act unit :=
  update (set_isRateLimited false) ;;
  update (set_consecutiveFailures 0%nat) ;;
  dismissRateLimitPopup ;;
  update (set_rateLimitBannerVisible false) ;;
  enableMessageInput.

(** [updateApiUsageDisplay(remaining)]: only the usage bar changes. *)
Definition updateApiUsageDisplay (remaining : JsonValue) : Act unit :=
  effect (ApiUsageDisplay remaining).

(** ** Queries *)

(** [error.message || fallback] *)
Definition messageOr (m : Message) (fallback : string) : Message :=
  match m with
  | Text "" => Text fallback
  | _ => m
  end.

(** the [headers] object [sendQuery] builds: the content type, and the
    saved API key when there is one *)
Definition queryHeaders (savedApiKey : option string) : gmap string string :=
  let headers : gmap string string := {[ "Content-Type" := "application/json" ]} in
  match savedApiKey with
  | Some k => if nonEmpty k then <[ "X-Groq-Api-Key" := k ]> headers else headers
  | None => headers
  end.

(** the request [sendQuery] makes *)
Definition queryRequest (savedApiKey : option string) (query : string) : Effect :=
  Fetch endpoints_query "POST" (queryHeaders savedApiKey) (JObj [("query", JStr query)]).

(** [sendQuery(query)] *)
Definition sendQuery (query : string) (net : FetchOutcome) : Act JsonValue :=
  tryCatch
    (savedApiKey ← ls_getItem storageKeys_apiKey;
     let headers := queryHeaders savedApiKey in
     response ← fetch endpoints_query "POST" headers (JObj [("query", JStr query)]) net;
     data ← response_json response;
     if respStatus response =? 429 then
       handleRateLimitExceeded ;;
       raise (Error (Text "Rate limit exceeded"))
     else if negb (ok response) then
       update (fun s => set_consecutiveFailures (S (consecutiveFailures s)) s) ;;
       n ← read consecutiveFailures;
       when (MAX_CONSECUTIVE_FAILURES <=? n)%nat handleRateLimitExceeded ;;
       m ← lift (getProp (Some data) "message");
       raise (Error (match m with
                     | Some v => if truthy m then ApiService.messageOf v
                                 else Text "Failed to get response"
                     | None => Text "Failed to get response"
                     end))
     else
       update (set_consecutiveFailures 0%nat) ;;
       remaining ← lift (getProp (Some data) "remaining_requests");
       match remaining with
       | Some r => updateApiUsageDisplay r
       | None => pure tt
       end ;;
       pure data)
    (fun error => raise error).

(** the state after a sequence of calls of [sendQuery], each with its text
    and with what the network did *)
Definition afterQueries (s : AppState) (l : list (string * FetchOutcome)) : AppState :=
  fold_left (fun s' c => stateOf (sendQuery (fst c) (snd c) s')) l s.

(** whether every call of such a sequence ends rejected *)
Fixpoint allRejected (s : AppState) (l : list (string * FetchOutcome)) : bool :=
  match l with
  | [] => true
  | c :: rest =>
      let r := sendQuery (fst c) (snd c) s in
      throws (resultOf r) && allRejected (stateOf r) rest
  end.

(** a response arrived, its body parsed, and its status is not 2xx *)
Definition isHttpFailure (net : FetchOutcome) : bool :=
  match net with
  | HttpResponse st (Some v) => negb (ok {| respStatus := st; respBody := Some v |})
  | _ => false
  end.

(** [addMessage(content, sender, options = {})]; [now] is the time stamp
    [new Date().toISOString()] gives. *)
Definition addMessage (content : JsVal) (sender : string) (options : MsgOptions)
  (now : string) : Act unit :=
  effect (RenderMessage content sender) ;;
  update (fun s => set_chatHistory (chatHistory s ++ [mkEntry content sender now options]) s).

(** [Array.prototype.slice(start)] *)
Definition slice {A} (start : Z) (l : list A) : list A :=
  let len := Z.of_nat (length l) in
  let k := if start <? 0 then Z.max (len + start) 0 else Z.min start len in
  drop (Z.to_nat k) l.

(** the entry [addMessage] pushes when a stored entry is shown again at
    the time [now] *)
Definition shownAgain (now : string) (msg : ChatEntry) : ChatEntry :=
  {| content := content msg; sender := sender msg; timestamp := now;
     options := options msg |}.

Section History.
(** [JSON.stringify] and [JSON.parse] on a chat history. *)
Variable JSON_stringify : list ChatEntry -> string.
Variable JSON_parse : string -> Completion (list ChatEntry).

(** [saveChatHistory()] *)
Definition saveChatHistory : Act unit :=
  tryCatch
    (h ← read chatHistory;
     ls_setItem "chatHistory" (JSON_stringify (slice (-50) h)))
    (fun error => effect (LogError "Failed to save chat history")).

(** [loadChatHistory()]: [forEach] visits the entries the array had when it
    started, and every [addMessage] pushes one more. *)
Definition loadChatHistory (now : string) : Act unit :=
  tryCatch
    (saved ← ls_getItem "chatHistory";
     match saved with
     | Some text =>
         if nonEmpty text then
           h ← lift (JSON_parse text);
           update (set_chatHistory h) ;;
           fold_right (fun msg rest => addMessage (content msg) (sender msg) (options msg) now ;; rest)
                      (pure tt) h
         else pure tt
     | None => pure tt
     end)
    (fun error =>
       effect (LogError "Failed to load chat history") ;;
       ls_removeItem "chatHistory").

(** [sendMessage()]; [tUser] and [tBot] are the time stamps of the two
    messages it adds. *)
Definition sendMessage (net : FetchOutcome) (tUser tBot : string) : Act unit :=
  message ← read (fun s => trim (messageInput s));
  processing ← read isProcessing;
  if negb (nonEmpty message) || processing then pure tt
  else
    limited ← read isRateLimited;
    if (limited : bool) then
      showToast (Text "Cannot send message - API rate limit exceeded. Please add your API key in Settings.") "error" ;;
      openSettingsModal
    else
      update (set_isProcessing true) ;;
      update (set_sendBtnDisabled true) ;;
      addMessage (Some (JStr message)) "user" noOptions tUser ;;
      update (set_messageInput "") ;;
      updateCharCount ;;
      effect (TypingIndicator true) ;;
      finally
        (tryCatch
           (response ← sendQuery message net;
            effect (TypingIndicator false) ;;
            text ← lift (getProp (Some response) "response");
            c ← lift (getProp (Some response) "cached");
            rt ← lift (getProp (Some response) "response_time");
            addMessage text "bot" {| cached := c; responseTime := rt; isError := false |} tBot ;;
            saveChatHistory)
           (fun error =>
              effect (TypingIndicator false) ;;
              addMessage (Some (JStr "I apologize, but I encountered an error. Please try again."))
                "bot" {| cached := None; responseTime := None; isError := true |} tBot ;;
              showToast (messageOr (Js.message error) "Failed to get response") "error"))
        (update (set_isProcessing false) ;; update (set_sendBtnDisabled false)).

(** [clearChat()]; [confirmed] is the answer to the [confirm] dialog. *)
Definition clearChat (confirmed : bool) : Act unit :=
  when confirmed
    (effect ClearMessages ;;
     update (set_chatHistory []) ;;
     ls_removeItem "chatHistory" ;;
     showToast (Text "Chat cleared successfully!") "success").

(** [saveApiKey()] *)
Definition saveApiKey : Act unit :=
  apiKey ← read (fun s => trim (apiKeyInput s));
  if negb (nonEmpty apiKey) then
    showApiKeyValidation "invalid" "Please enter an API key"
  else if negb (startsWith apiKey "gsk_") then
    showApiKeyValidation "invalid"
      ("Invalid API key format. Should start with " +:+ quoted "gsk_")
  else
    tryCatch
      (ls_setItem storageKeys_apiKey apiKey ;;
       showApiKeyValidation "valid" "API key saved successfully" ;;
       showToast (Text "API key saved! Rate limit has been reset.") "success" ;;
       resetRateLimitState)
      (fun error =>
         effect (LogError "Failed to save API key") ;;
         showApiKeyValidation "invalid" "Failed to save API key").

(** [clearApiKey()] *)
Definition clearApiKey (confirmed : bool) : Act unit :=
  when confirmed
    (ls_removeItem storageKeys_apiKey ;;
     update (set_apiKeyInput "") ;;
     showApiKeyValidation "" "" ;;
     showToast (Text "API key cleared") "success").

(** ** What the user and the page can make the script do *)

Inductive Action : Type :=
| TypeMessage (text : string)             (* the user edits the message box *)
| TypeApiKey (text : string)              (* the user edits the key field *)
| SendMessage (net : FetchOutcome) (tUser tBot : string)
| SendQuery (query : string) (net : FetchOutcome)
| SaveApiKey
| ClearApiKey (confirmed : bool)
| ClearChat (confirmed : bool)
| SaveChatHistory
| LoadChatHistory (now : string)
| OpenSettingsModal
| CloseSettingsModal
| DismissRateLimitPopup
| ResetRateLimitState.

Definition perform (a : Action) : Act unit :=
  match a with
  | TypeMessage text => update (set_messageInput text) ;; updateCharCount
  | TypeApiKey text => update (set_apiKeyInput text)
  | SendMessage net tUser tBot => sendMessage net tUser tBot
  | SendQuery query net => sendQuery query net ;; pure tt
  | SaveApiKey => saveApiKey
  | ClearApiKey confirmed => clearApiKey confirmed
  | ClearChat confirmed => clearChat confirmed
  | SaveChatHistory => saveChatHistory
  | LoadChatHistory now => loadChatHistory now
  | OpenSettingsModal => openSettingsModal
  | CloseSettingsModal => closeSettingsModal
  | DismissRateLimitPopup => dismissRateLimitPopup
  | ResetRateLimitState => resetRateLimitState
  end.

(** the state after an action, whether it ended normally or threw *)
Definition step (s : AppState) (a : Action) : AppState := stateOf (perform a s).

(** the state after a list of actions *)
Definition run (s : AppState) (l : list Action) : AppState := fold_left step l s.

End History.

(** the input is blocked *)
Definition blocked (s : AppState) : Prop := isRateLimited s = true.

(** The state when the script has just been loaded. *)
Definition initialState (ls : LocalStorage) : AppState :=
  {| chatHistory := [];
     isProcessing := false;
     isRateLimited := false;
     consecutiveFailures := 0%nat;
     localStorage := ls;
     messageInput := "";
     apiKeyInput := "";
     messageInputDisabled := false;
     sendBtnDisabled := true;
     settingsModalActive := false;
     rateLimitPopupActive := false;
     rateLimitBannerVisible := false |}.

End Main.

(* ===================================================================== *)
(** * The main browser script: the loading sequence *)
(* ===================================================================== *)

Module Loading.
Import Js.

(** The object [checkHealth()] returns; after a failed check it has no
    [ragInitialized] property, which reads as false. *)
Record HealthResult : Type := mkHealth { success : bool; ragInitialized : bool }.

(** The backend and the clock as one run of the sequence meets them: the
    first health check, the check of each iteration of the polling loop,
    and [Date.now() - loadingStartTime] as each iteration reads it. *)
Record Backend : Type := mkBackend {
  firstCheck : HealthResult;
  pollCheck : nat -> HealthResult;
  elapsedAt : nat -> Z
}.

Inductive LoadStep : Type := server | model | vectorStore | ready.

Inductive LoadEvent : Type :=
| Status (step : LoadStep) (state : string)     (* updateLoadingStatus *)
| Progress (percent : Z)                        (* updateLoadingProgress, literal *)
| PollProgress (attempts : nat)                 (* Math.min(30 + attempts / maxAttempts * 40, 70) *)
| Sleep (ms : Z)
| CheckHealth
| ShowLoadingWarning
| ShowTimeoutPopup
| ShowLoadingRetryButton
| LoadSuggestions
| HideLoadingOverlay.

Definition maxAttempts : nat := 60.
Definition LOADING_WARNING_TIME : Z := Main.LOADING_WARNING_TIME.
Definition LOADING_TIMEOUT_TIME : Z := Main.LOADING_TIMEOUT_TIME.

(** How the [while] loop is left. *)
Inductive LoopExit : Type :=
| LoopDone          (* the condition is false, or [break] *)
| LoopReturn        (* [return] after [showTimeoutPopup()] *)
| OutOfFuel.        (* the model's recursion bound was too small *)

(** The polling loop, from the value [attempts] has at the loop head.
    [fuel] only bounds the recursion. *)
Fixpoint pollLoop (b : Backend) (fuel attempts : nat) : list LoadEvent * LoopExit :=
  if negb (ragInitialized (firstCheck b)) && (attempts <? maxAttempts)%nat then
    match fuel with
    | O => ([], OutOfFuel)
    | S fuel' =>
        let pollResult := pollCheck b attempts in
        if ragInitialized pollResult then ([Sleep 2000; CheckHealth], LoopDone)
        else
          let attempts' := S attempts in
          let elapsed := elapsedAt b attempts in
          let warning := if LOADING_WARNING_TIME <=? elapsed then [ShowLoadingWarning] else [] in
          if LOADING_TIMEOUT_TIME <=? elapsed then
            ([Sleep 2000; CheckHealth] ++ warning ++ [ShowTimeoutPopup], LoopReturn)
          else
            let '(rest, exit) := pollLoop b fuel' attempts' in
            ([Sleep 2000; CheckHealth] ++ warning ++ [PollProgress attempts'] ++ rest, exit)
    end
  else ([], LoopDone).

(** the first iteration, from [attempts] on and among [fuel] of them, that
    reads an elapsed time of 30 minutes or more *)
Fixpoint firstTimedOutPoll (b : Backend) (fuel attempts : nat) : option nat :=
  match fuel with
  | O => None
  | S fuel' =>
      if LOADING_TIMEOUT_TIME <=? elapsedAt b attempts then Some attempts
      else firstTimedOutPoll b fuel' (S attempts)
  end.

(** Where the sequence ends. *)
Inductive LoadState : Type :=
| ServerError       (* the first check failed: retry button *)
| TimedOut          (* the timeout popup *)
| Ready             (* the overlay is hidden *)
| Stuck.            (* never reached, see [pollLoop] *)

(** [startLoadingProcess()] *)
Definition startLoadingProcess (b : Backend) : list LoadEvent * LoadState :=
  let healthResult := firstCheck b in
  let start := [Status server "active"; Progress 10; CheckHealth] in
  if negb (success healthResult) then
    (start ++ [Status server "error"; ShowLoadingRetryButton], ServerError)
  else
    let '(polling, exit) := pollLoop b maxAttempts 0 in
    let upToLoop := start ++ [Status server "completed"; Progress 30; Status model "active"]
                          ++ polling in
    match exit with
    | LoopReturn => (upToLoop, TimedOut)
    | OutOfFuel => (upToLoop, Stuck)
    | LoopDone =>
        (upToLoop ++
         [Status model "completed"; Progress 70;
          Status vectorStore "active"; Sleep 500; Status vectorStore "completed"; Progress 90;
          Status ready "active"; Sleep 300; Status ready "completed"; Progress 100;
          LoadSuggestions; Sleep 500; HideLoadingOverlay],
         Ready)
    end.

Definition isPoll (e : LoadEvent) : bool :=
  match e with CheckHealth => true | _ => false end.
Definition isTimeoutPopup (e : LoadEvent) : bool :=
  match e with ShowTimeoutPopup => true | _ => false end.

(** the health checks of the polling loop: all but the first one *)
Definition pollCount (t : list LoadEvent) : nat := List.length (List.filter isPoll t) - 1.
Definition timeoutCount (t : list LoadEvent) : nat := List.length (List.filter isTimeoutPopup t).

(** every health check after the first comes right after a 2-second sleep *)
Fixpoint pollsFollowSleep (t : list LoadEvent) : bool :=
  match t with
  | [] => true
  | CheckHealth :: rest => false
  | Sleep ms :: CheckHealth :: rest => (ms =? 2000) && pollsFollowSleep rest
  | _ :: rest => pollsFollowSleep rest
  end.

(** [checkHealth()] of the main script: one [fetch] of the health endpoint
    and [response.json()]; the status of the response is not looked at. *)
Definition checkHealth (net : Main.FetchOutcome) : HealthResult :=
  match net with
  | Main.NetworkError _ => {| success := false; ragInitialized := false |}
  | Main.HttpResponse _ None => {| success := false; ragInitialized := false |}
  | Main.HttpResponse _ (Some data) =>
      match getProp (Some data) "rag_initialized" with
      | Normal r => {| success := true; ragInitialized := truthy r |}
      | Throw _ => {| success := false; ragInitialized := false |}
      end
  end.



(** [updateLoadingElapsed()]: the text shown for [now - loadingStartTime]
    milliseconds, by its parts. *)
Inductive ElapsedText : Type :=
| SecondsText (seconds : Z)                 (* `${elapsed}s` *)
| MinutesText (minutes seconds : Z).        (* `${minutes}m ${seconds}s` *)

Definition updateLoadingElapsed (elapsedMs : Z) : ElapsedText :=
  let elapsed := elapsedMs / 1000 in
  if elapsed <? 60 then SecondsText elapsed
  else MinutesText (elapsed / 60) (Z.rem elapsed 60).

End Loading.

(* ===================================================================== *)
(** * [netlify/functions/query.js]: the serverless query function *)
(* ===================================================================== *)

Module QueryFunction.
Import Js.

Definition MAX_TOKENS : Z := 1024.
Definition CACHE_TTL : Z := 3600000.

(** [process.env] *)
Record Env : Type := mkEnv {
  GROQ_API_KEY : option string;
  LLM_MODEL : option string
}.

(** [a || b] on strings that may be undefined *)
Definition orElse (a b : option string) : option string :=
  match a with
  | Some s => if nonEmpty s then Some s else b
  | None => b
  end.

(** [GROQ_MODEL] *)
Definition GROQ_MODEL (env : Env) : string :=
  match orElse (LLM_MODEL env) (Some "llama-3.3-70b-versatile") with
  | Some m => m
  | None => "llama-3.3-70b-versatile"
  end.

(** ** The response cache: a [Map], which keeps insertion order *)

Record CacheEntry : Type := mkCacheEntry { response : JsonValue; timestamp : Z }.

Definition ResponseCache : Type := list (string * CacheEntry).

Fixpoint cache_get (key : string) (m : ResponseCache) : option CacheEntry :=
  match m with
  | [] => None
  | (k, v) :: rest => if String.eqb k key then Some v else cache_get key rest
  end.

(** [Map.prototype.set]: a key that is present keeps its place. *)
Fixpoint cache_set (key : string) (v : CacheEntry) (m : ResponseCache) : ResponseCache :=
  match m with
  | [] => [(key, v)]
  | (k, w) :: rest =>
      if String.eqb k key then (k, v) :: rest else (k, w) :: cache_set key v rest
  end.

Fixpoint cache_delete (key : string) (m : ResponseCache) : ResponseCache :=
  match m with
  | [] => []
  | (k, w) :: rest =>
      if String.eqb k key then rest else (k, w) :: cache_delete key rest
  end.

(** the cleanup after a store: above 100 entries the first key goes *)
Definition cache_cleanup (m : ResponseCache) : ResponseCache :=
  if (100 <? length m)%nat then
    match m with
    | (oldestKey, _) :: _ => cache_delete oldestKey m
    | [] => m
    end
  else m.

(** [getCacheKey(query)] *)
Definition getCacheKey (query : string) : string :=
  let normalized := trim (toLowerCase query) in
  "query_" +:+ normalized.

(** ** The upstream API *)

(** What the HTTPS request to the LLM API brings back: a status code with
    a body that parses or not, or a connection error. *)
Inductive GroqOutcome : Type :=
| GroqReply (statusCode : Z) (body : option JsonValue)
| GroqFailure (e : JsError).

(** the object [{status: 429, message: 'Rate limit exceeded'}] *)
Definition rateLimitRejection : JsError :=
  {| name := ""; message := Text "Rate limit exceeded"; status := Some 429; data := None |}.

(** [callGroqAPI(apiKey, messages)]: how the promise settles. *)
Definition callGroqAPI (groq : GroqOutcome) : Completion JsonValue :=
  match groq with
  | GroqReply statusCode body =>
      if statusCode =? 200 then
        match body with
        | Some v => Normal v
        | None => Throw (Error (Text "Failed to parse API response"))
        end
      else if statusCode =? 429 then Throw rateLimitRejection
      else Throw (Error (ApiStatusLine statusCode))
  | GroqFailure e => Throw e
  end.

(** [v[0]] *)
Definition firstElement (v : JsVal) : Completion JsVal :=
  match v with
  | None => Throw (TypeError "Cannot read properties of undefined")
  | Some JNull => Throw (TypeError "Cannot read properties of null")
  | Some (JArr (x :: _)) => Normal (Some x)
  | Some (JArr []) => Normal None
  | Some (JObj fields) => Normal (lookupField "0" fields)
  | Some (JStr (String c _)) => Normal (Some (JStr (String c EmptyString)))
  | Some _ => Normal None
  end.

(** [v?.k] *)
Definition optionalProp (v : JsVal) (k : string) : JsVal :=
  match v with
  | Some (JObj fields) => lookupField k fields
  | _ => None
  end.

(** [apiResponse.choices[0]?.message?.content || 'No response generated'] *)
Definition assistantMessageOf (apiResponse : JsonValue) : Completion JsonValue :=
  match getProp (Some apiResponse) "choices" with
  | Throw e => Throw e
  | Normal choices =>
      match firstElement choices with
      | Throw e => Throw e
      | Normal first =>
          let content := optionalProp (optionalProp first "message") "content" in
          match content with
          | Some v => Normal (if truthy content then v else JStr "No response generated")
          | None => Normal (JStr "No response generated")
          end
      end
  end.

(** ** The request and the response *)

(** [event.body], by what [JSON.parse(event.body || '{}')] makes of it. *)
Inductive EventBody : Type :=
| NoBody                      (* null, undefined or the empty string *)
| MalformedBody               (* not JSON *)
| ParsedBody (v : JsonValue).

Record Event : Type := mkEvent {
  httpMethod : string;
  headers : gmap string string;
  body : EventBody
}.

(** the four readings of [Date.now()] of one invocation, in order *)
Record Clock : Type := mkClock {
  atCacheCheck : Z;
  atCallStart : Z;
  atCallEnd : Z;
  atCacheStore : Z
}.

Inductive Seconds : Type :=
| SecondsLiteral (n : Z)
| SecondsOfMillis (ms : Z).     (* parseFloat((ms / 1000).toFixed(2)) *)

(** The parsed [body] of a result. *)
Inductive ResultBody : Type :=
| EmptyBody
| ErrorBody (msg : string) (rate_limited : bool) (error : option Message)
| SuccessBody (response : JsonValue) (cached : bool) (response_time : Seconds)
              (model : option string).

Record HttpResult : Type := mkResult { statusCode : Z; resultBody : ResultBody }.

Definition isSuccessBody (b : ResultBody) : bool :=
  match b with SuccessBody _ _ _ _ => true | _ => false end.

(** One invocation: the response, the cache it leaves, and the calls it
    made to the LLM API (the key and the query sent). *)
Record Invocation : Type := mkInvocation {
  result : HttpResult;
  cacheAfter : ResponseCache;
  groqCalls : list (string * string)
}.

(** the [query] the validation lets through *)
Definition acceptedQuery (query : JsVal) : option string :=
  if negb (truthy query) then None
  else match query with
       | Some (JStr s) => if String.eqb (trim s) "" then None else Some s
       | _ => None          (* typeof query !== 'string' *)
       end.

(** [event.headers['x-groq-api-key'] || process.env.GROQ_API_KEY], when
    the result is truthy *)
Definition availableKey (header envKey : option string) : option string :=
  match orElse header envKey with
  | Some k => if nonEmpty k then Some k else None
  | None => None
  end.

(** [JSON.parse(event.body || '{}').query] *)
Definition requestQuery (b : EventBody) : Completion JsVal :=
  match b with
  | MalformedBody => Throw (SyntaxError "Unexpected token")
  | NoBody => getProp (Some (JObj [])) "query"
  | ParsedBody v => getProp (Some v) "query"
  end.

(** the entry under [cacheKey] when there is one and
    [(Date.now() - cached.timestamp) < CACHE_TTL] *)
Definition freshEntry (responseCache : ResponseCache) (cacheKey : string) (now : Z)
  : option CacheEntry :=
  match cache_get cacheKey responseCache with
  | Some cached => if now - timestamp cached <? CACHE_TTL then Some cached else None
  | None => None
  end.

(** the [query] field is missing, is not a string, or is empty after
    trimming *)
Definition missingOrEmpty (query : JsVal) : Prop :=
  query = None
  \/ (exists v, query = Some v /\ forall s, v <> JStr s)
  \/ (exists s, query = Some (JStr s) /\ trim s = "").

(** no key under this name: undefined or the empty string *)
Definition noKey (k : option string) : Prop := k = None \/ k = Some "".

(** the [catch] block of the handler *)
Definition handler_catch (error : JsError) : HttpResult :=
  if decide (status error = Some 429) then
    {| statusCode := 429;
       resultBody := ErrorBody "Rate limit exceeded. Please try again later or add your own API key."
                       true None |}
  else
    {| statusCode := 500;
       resultBody := ErrorBody "An error occurred processing your request" false
                       (Some (message error)) |}.

(** [exports.handler(event, context)] *)
Definition handler (env : Env) (responseCache : ResponseCache) (event : Event)
  (clock : Clock) (groq : GroqOutcome) : Invocation :=
  let reply r := {| result := r; cacheAfter := responseCache; groqCalls := [] |} in
  if String.eqb (httpMethod event) "OPTIONS" then
    reply {| statusCode := 200; resultBody := EmptyBody |}
  else if negb (String.eqb (httpMethod event) "POST") then
    reply {| statusCode := 405; resultBody := ErrorBody "Method not allowed" false None |}
  else
    match requestQuery (body event) with
    | Throw e => reply (handler_catch e)
    | Normal query =>
        match acceptedQuery query with
        | None =>
            reply {| statusCode := 400;
                     resultBody := ErrorBody "Query is required" false None |}
        | Some query =>
            match availableKey (headers event !! "x-groq-api-key") (GROQ_API_KEY env) with
            | None =>
                reply {| statusCode := 401;
                         resultBody := ErrorBody "API key is required. Please add your Groq API key in settings." false None |}
            | Some apiKey =>
                let cacheKey := getCacheKey query in
                match freshEntry responseCache cacheKey (atCacheCheck clock) with
                | Some cached =>
                    reply {| statusCode := 200;
                             resultBody := SuccessBody (response cached) true
                                             (SecondsLiteral 0) None |}
                | None =>
                    let calls := [(apiKey, query)] in
                    match callGroqAPI groq with
                    | Throw e =>
                        {| result := handler_catch e;
                           cacheAfter := responseCache;
                           groqCalls := calls |}
                    | Normal apiResponse =>
                        match assistantMessageOf apiResponse with
                        | Throw e =>
                            {| result := handler_catch e;
                               cacheAfter := responseCache;
                               groqCalls := calls |}
                        | Normal assistantMessage =>
                            let stored :=
                              cache_set cacheKey
                                {| response := assistantMessage;
                                   timestamp := atCacheStore clock |}
                                responseCache in
                            {| result :=
                                 {| statusCode := 200;
                                    resultBody :=
                                      SuccessBody assistantMessage false
                                        (SecondsOfMillis (atCallEnd clock - atCallStart clock))
                                        (Some (GROQ_MODEL env)) |};
                               cacheAfter := cache_cleanup stored;
                               groqCalls := calls |}
                        end
                    end
                end
            end
        end
    end.

End QueryFunction.

(* ===================================================================== *)
(** * [netlify/functions/health.js]: the health function *)
(* ===================================================================== *)

Module HealthFunction.
Import Js.

(** [process.env] *)
Record Env : Type := mkEnv {
  CONTEXT : option string;
  GROQ_API_KEY : option string
}.

(** [exports.handler(event, context)]: the status code and the parsed body
    ([None] for the empty body of a preflight); [now] is
    [new Date().toISOString()]. *)
Definition handler (env : Env) (httpMethod : string) (now : string) : Z * option JsonValue :=
  if String.eqb httpMethod "OPTIONS" then (200, None)
  else
    (200,
     Some (JObj [("status", JStr "healthy");
                 ("rag_initialized", JBool true);
                 ("timestamp", JStr now);
                 ("environment",
                  JStr (match CONTEXT env with
                        | Some c => if nonEmpty c then c else "production"
                        | None => "production"
                        end));
                 ("version", JStr "2.0.0");
                 ("deployment", JStr "netlify");
                 ("services",
                  JObj [("groq_api",
                         JBool (match GROQ_API_KEY env with
                                | Some k => nonEmpty k
                                | None => false
                                end));
                        ("functions", JBool true)])])).


End HealthFunction.

(* ===================================================================== *)
(** * [netlify/functions/suggestions.js]: the suggestions function *)
(* ===================================================================== *)

Module SuggestionsFunction.
Import Js.

Definition SUGGESTIONS : list string :=
  [ "Tell me about Velammal College of Engineering and Technology";
    "What undergraduate programs are offered at VCET?";
    "What is the admission process for VCET?";
    "Tell me about placement opportunities at VCET";
    "What are the infrastructure facilities available?";
    "How can I contact VCET admissions office?";
    "Tell me about the faculty and departments";
    "What extracurricular activities are available?";
    "What is the fee structure for engineering courses?";
    "Tell me about campus life at VCET" ].

(** [[a[i], a[j]] = [a[j], a[i]]] on positions inside the array *)
Definition swap {A} (l : list A) (i j : nat) : list A :=
  match l !! i, l !! j with
  | Some x, Some y => <[j := x]> (<[i := y]> l)
  | _, _ => l
  end.

(** The loop of [shuffleArray] from index [i] down to 1; [draw i] is
    [Math.floor(Math.random() * (i + 1))] as drawn at index [i]. *)
Fixpoint shuffleFrom {A} (draw : nat -> nat) (i : nat) (shuffled : list A) : list A :=
  match i with
  | O => shuffled
  | S i' => shuffleFrom draw i' (swap shuffled i (draw i))
  end.

(** [shuffleArray(array)] *)
Definition shuffleArray {A} (draw : nat -> nat) (array : list A) : list A :=
  shuffleFrom draw (length array - 1) array.

(** [array.slice(0, end)], [None] being [NaN] *)
Definition sliceTo {A} (end_ : option Z) (l : list A) : list A :=
  let len := Z.of_nat (length l) in
  let final :=
    match end_ with
    | None => 0
    | Some e => if e <? 0 then Z.max (len + e) 0 else Z.min e len
    end in
  take (Z.to_nat final) l.

(** [Math.min(n, m)] with [None] for [NaN] *)
Definition mathMin (n : option Z) (m : Z) : option Z :=
  match n with
  | Some v => Some (Z.min v m)
  | None => None
  end.

Inductive ResultBody : Type :=
| EmptyBody
| SuccessBody (suggestions : list string) (total_available : nat).

(** [exports.handler(event, context)]; [countParam] is
    [event.queryStringParameters.count] when there is one. *)
Definition handler (httpMethod : string) (countParam : option string)
  (draw : nat -> nat) : Z * ResultBody :=
  if String.eqb httpMethod "OPTIONS" then (200, EmptyBody)
  else
    let text := match countParam with
                | Some c => if nonEmpty c then c else "6"
                | None => "6"
                end in
    let count := mathMin (parseInt text) (Z.of_nat (length SUGGESTIONS)) in
    let shuffled := shuffleArray draw SUGGESTIONS in
    let selected := sliceTo count shuffled in
    (200, SuccessBody selected (length SUGGESTIONS)).

(** the suggestions of a response *)
Definition suggestionsOf (r : Z * ResultBody) : list string :=
  match snd r with
  | SuccessBody l _ => l
  | EmptyBody => []
  end.

End SuggestionsFunction.

(* ===================================================================== *)
(** * The DOM utility helpers *)
(* ===================================================================== *)

Module Helpers.
Import Js.

(** [truncateText(text, maxLength, suffix = '...')] *)
Definition truncateText (text : string) (maxLength : Z) (suffix : string) : string :=
  if Z.of_nat (String.length text) <=? maxLength then text
  else substring0 (Z.to_nat (maxLength - Z.of_nat (String.length suffix))) text +:+ suffix.

Section Timers.
Context {Args : Type}.

(** What happens to a debounced or throttled function: it is called with
    arguments, or the timer it armed last fires. *)
Inductive TimerEvent : Type :=
| Call (args : Args)
| Fire.

(** [debounce(func, wait)]: the state is the timer that is armed, with the
    arguments its closure holds; a call clears it and arms a new one. *)
Definition debounce_step (armed : option Args) (e : TimerEvent)
  : option Args * list Args :=
  match e with
  | Call args => (Some args, [])
  | Fire =>
      match armed with
      | Some args => (None, [args])         (* later(): func.apply(this, args) *)
      | None => (None, [])
      end
  end.

(** [throttle(func, limit)]: the state is [inThrottle]. *)
Definition throttle_step (inThrottle : bool) (e : TimerEvent) : bool * list Args :=
  match e with
  | Call args => if inThrottle then (true, []) else (true, [args])
  | Fire => (false, [])
  end.

(** the invocations of [func] over a sequence of events *)
Fixpoint invocations {St} (step : St -> TimerEvent -> St * list Args)
  (st : St) (events : list TimerEvent) : list Args :=
  match events with
  | [] => []
  | e :: rest => let '(st', out) := step st e in out ++ invocations step st' rest
  end.

End Timers.

End Helpers.

(* ===================================================================== *)
(** * Concrete stores, services and network behaviours *)
(* ===================================================================== *)

(** A store whose accesses throw, holding a theme. *)
Definition deniedStore : Browser.LocalStorage :=
  {| Browser.items := {[ "theme" := "dark" ]};
     Browser.accessDenied := true;
     Browser.quotaExceeded := false |}.

(** A service that was constructed while the store still worked. *)
Definition liveService : StorageService.t := {| StorageService.isAvailable := true |}.

(** An empty store that works. *)
Definition emptyStore : Browser.LocalStorage :=
  {| Browser.items := ∅; Browser.accessDenied := false; Browser.quotaExceeded := false |}.

(** a backend that answers after 75 seconds *)
Definition slowAnswer : ApiService.FetchBehaviour :=
  ApiService.Responds 75000
    {| ApiService.respStatus := 200;
       ApiService.respBody := ApiService.BodyJson (Js.JObj [("status", Js.JStr "success")]) |}.

(** a backend that sends the response head after 100 ms and then no body *)
Definition stalledBody : ApiService.FetchBehaviour :=
  ApiService.Responds 100
    {| ApiService.respStatus := 200; ApiService.respBody := ApiService.BodyStalls |}.

(** A failed connection, as [fetch] reports it. *)
Definition failedToFetch : Js.JsError := Js.TypeError "Failed to fetch".

(** A successful answer of the backend. *)
Definition successAnswer : Js.JsonValue :=
  Js.JObj [("status", Js.JStr "success"); ("response", Js.JStr "VCET is an engineering college.");
           ("cached", Js.JBool false); ("response_time", Js.JNum 1)].

(** An error answer of the backend. *)
Definition errorAnswer : Js.JsonValue :=
  Js.JObj [("status", Js.JStr "error"); ("message", Js.JStr "Internal error")].

(** A text of 1001 characters. *)
Definition longText : string := Js.repeatChar "a" 1001.

(** Stand-ins for [JSON.stringify] and [JSON.parse] in the concrete runs:
    one letter per entry, and a text that never parses. *)
Definition tallyStringify (h : list Main.ChatEntry) : string :=
  Js.repeatChar "m" (length h).
Definition neverParse (text : string) : Js.Completion (list Main.ChatEntry) :=
  Js.Throw (Js.SyntaxError "Unexpected token").

(** The script just loaded, with [text] typed into the message box. *)
Definition typed (text : string) (s : Main.AppState) : Main.AppState :=
  Main.set_messageInput text s.

(** A blocked state with two failures counted. *)
Definition blockedState : Main.AppState :=
  Main.set_consecutiveFailures 2 (Main.set_isRateLimited true (Main.initialState emptyStore)).

(** Three queries in a row that fail because the connection fails. *)
Definition threeNetworkErrors : list (string * Main.FetchOutcome) :=
  [("Tell me about VCET", Main.NetworkError failedToFetch);
   ("Tell me about VCET", Main.NetworkError failedToFetch);
   ("Tell me about VCET", Main.NetworkError failedToFetch)].

(** Three queries in a row that the backend answers with status 500. *)
Definition threeServerErrors : list (string * Main.FetchOutcome) :=
  [("Tell me about VCET", Main.HttpResponse 500 (Some errorAnswer));
   ("Tell me about VCET", Main.HttpResponse 500 (Some errorAnswer));
   ("Tell me about VCET", Main.HttpResponse 500 (Some errorAnswer))].

(** A state with a well-formed key typed into the settings field. *)
Definition keyTyped : Main.AppState :=
  Main.set_apiKeyInput " gsk_live_1 " blockedState.

(** A health answer of a backend that is up but not initialised. *)
Definition notReady : Loading.HealthResult :=
  {| Loading.success := true; Loading.ragInitialized := false |}.

(** A backend that never becomes ready and answers every check at once:
    the k-th iteration reads 2 seconds more than the one before. *)
Definition neverReadyFast : Loading.Backend :=
  {| Loading.firstCheck := notReady;
     Loading.pollCheck := fun _ => notReady;
     Loading.elapsedAt := fun k => 2000 * (Z.of_nat k + 1) |}.

(** A backend that never becomes ready and takes 38 seconds for every
    check. *)
Definition neverReadySlow : Loading.Backend :=
  {| Loading.firstCheck := notReady;
     Loading.pollCheck := fun _ => notReady;
     Loading.elapsedAt := fun k => 40000 * (Z.of_nat k + 1) |}.

(** A POST to the query function with the body [{query: text}] and no
    key header. *)
Definition queryEvent (text : string) : QueryFunction.Event :=
  {| QueryFunction.httpMethod := "POST";
     QueryFunction.headers := ∅;
     QueryFunction.body := QueryFunction.ParsedBody (Js.JObj [("query", Js.JStr text)]) |}.

(** A POST whose body has no [query] field. *)
Definition emptyEvent : QueryFunction.Event :=
  {| QueryFunction.httpMethod := "POST";
     QueryFunction.headers := ∅;
     QueryFunction.body := QueryFunction.ParsedBody (Js.JObj []) |}.

Definition withServerKey : QueryFunction.Env :=
  {| QueryFunction.GROQ_API_KEY := Some "gsk_server"; QueryFunction.LLM_MODEL := None |}.
Definition withoutKey : QueryFunction.Env :=
  {| QueryFunction.GROQ_API_KEY := None; QueryFunction.LLM_MODEL := None |}.

(** An invocation ten minutes after the time 1000000. *)
Definition tenMinutesLater : QueryFunction.Clock :=
  {| QueryFunction.atCacheCheck := 1600000;
     QueryFunction.atCallStart := 1600001;
     QueryFunction.atCallEnd := 1601200;
     QueryFunction.atCacheStore := 1601201 |}.

(** A cache holding one answer, stored at the time 1000000. *)
Definition oneAnswerCached : QueryFunction.ResponseCache :=
  [("query_what is vcet?",
    {| QueryFunction.response := Js.JStr "VCET is an engineering college.";
       QueryFunction.timestamp := 1000000 |})].

(** A working store holding a theme and a key. *)
Definition usedStore : Browser.LocalStorage :=
  {| Browser.items := {[ "theme" := "dark"; "vcet_groq_api_key" := "gsk_old" ]};
     Browser.accessDenied := false;
     Browser.quotaExceeded := false |}.

(** Stand-ins for [JSON.stringify] and [JSON.parse] on values that are
    their own text. *)
Definition plainStringify (v : string) : Js.Completion string := Js.Normal v.
Definition plainParse (text : string) : Js.Completion string := Js.Normal text.

(** a backend that answers 503 with a message after 120 ms *)
Definition warmingUp : ApiService.FetchBehaviour :=
  ApiService.Responds 120
    {| ApiService.respStatus := 503;
       ApiService.respBody :=
         ApiService.BodyJson (Js.JObj [("message", Js.JStr "Backend warming up")]) |}.

(** a backend that answers a health check after 80 ms *)
Definition healthyAnswer : ApiService.FetchBehaviour :=
  ApiService.Responds 80
    {| ApiService.respStatus := 200;
       ApiService.respBody :=
         ApiService.BodyJson (Js.JObj [("status", Js.JStr "healthy");
                                       ("rag_initialized", Js.JBool true)]) |}.

(** the client of a page served from the backend itself *)
Definition localApi : ApiService.t := ApiService.new "http://localhost:5000".

(** Two stored messages, and a parser that knows their text only. *)
Definition twoStored : list Main.ChatEntry :=
  [ {| Main.content := Some (Js.JStr "What is VCET?"); Main.sender := "user";
       Main.timestamp := "2024-01-01T10:00:00.000Z"; Main.options := Main.noOptions |};
    {| Main.content := Some (Js.JStr "VCET is an engineering college.");
       Main.sender := "bot";
       Main.timestamp := "2024-01-01T10:00:02.000Z"; Main.options := Main.noOptions |} ].

Definition parseTwo (text : string) : Js.Completion (list Main.ChatEntry) :=
  if String.eqb text "[two]" then Js.Normal twoStored
  else Js.Throw (Js.SyntaxError "Unexpected token").

(** The script just loaded over a store that holds those two messages. *)
Definition withStoredHistory : Main.AppState :=
  Main.initialState
    {| Browser.items := {[ "chatHistory" := "[two]" ]};
       Browser.accessDenied := false;
       Browser.quotaExceeded := false |}.

(** A state with an ill-formed key typed into the settings field. *)
Definition badKeyTyped : Main.AppState :=
  Main.set_apiKeyInput "sk-12345" blockedState.

(** A health endpoint that answers 503 while saying that it is ready. *)
Definition readyBut503 : Js.JsonValue :=
  Js.JObj [("status", Js.JStr "degraded"); ("rag_initialized", Js.JBool true)].


(** A POST to the query function that brings its own key. *)
Definition queryEventWithKey (text key : string) : QueryFunction.Event :=
  {| QueryFunction.httpMethod := "POST";
     QueryFunction.headers := {[ "x-groq-api-key" := key ]};
     QueryFunction.body := QueryFunction.ParsedBody (Js.JObj [("query", Js.JStr text)]) |}.

(** A POST whose body is not JSON. *)
Definition malformedEvent : QueryFunction.Event :=
  {| QueryFunction.httpMethod := "POST";
     QueryFunction.headers := ∅;
     QueryFunction.body := QueryFunction.MalformedBody |}.

(** A POST whose body is the JSON text [null]. *)
Definition nullEvent : QueryFunction.Event :=
  {| QueryFunction.httpMethod := "POST";
     QueryFunction.headers := ∅;
     QueryFunction.body := QueryFunction.ParsedBody Js.JNull |}.

(** A completion of the LLM API with one choice. *)
Definition groqAnswer (text : string) : QueryFunction.GroqOutcome :=
  QueryFunction.GroqReply 200
    (Some (Js.JObj [("choices",
                     Js.JArr [Js.JObj [("message",
                                        Js.JObj [("role", Js.JStr "assistant");
                                                 ("content", Js.JStr text)])]])])).

(** A completion of the LLM API without choices. *)
Definition groqNoChoices : QueryFunction.GroqOutcome :=
  QueryFunction.GroqReply 200 (Some (Js.JObj [("choices", Js.JArr [])])).

(** An invocation two hours after the time 1000000. *)
Definition twoHoursLater : QueryFunction.Clock :=
  {| QueryFunction.atCacheCheck := 8200000;
     QueryFunction.atCallStart := 8200001;
     QueryFunction.atCallEnd := 8201200;
     QueryFunction.atCacheStore := 8201201 |}.

(* ===================================================================== *)
(** * Properties *)
(* ===================================================================== *)

(** ** The key-value store adapter *)

Section StorageFacts.
Import Js Browser.
Context {V : Type}.
Variable JSON_stringify : V -> Completion string.
Variable JSON_parse : string -> Completion V.

Abbreviation set := (StorageService.set JSON_stringify).
Abbreviation get := (StorageService.get JSON_parse).

(** The five operations that wrap the access in [try] never throw. *)
Lemma guarded_operations_never_throw this ls key value raw defaultValue :
  throws (fst (set this ls key value)) = false
  /\ throws (get this ls key defaultValue) = false
  /\ throws (fst (StorageService.setRaw this ls key raw)) = false
  /\ throws (fst (StorageService.remove this ls key)) = false
  /\ throws (fst (StorageService.clear this ls)) = false.
Proof.
  unfold StorageService.set, StorageService.get, StorageService.setRaw,
    StorageService.remove, StorageService.clear.
  destruct (StorageService.isAvailable this); simpl; [|tauto].
  repeat split.
  - destruct (JSON_stringify value); [destruct (setItem _ _ _)|]; reflexivity.
  - destruct (getItem ls key) as [[item|]|]; try reflexivity.
    destruct (JSON_parse item); reflexivity.
  - destruct (setItem ls key raw); reflexivity.
  - destruct (removeItem ls key); reflexivity.
  - destruct (clearItems ls); reflexivity.
Qed.

(** With the store found unavailable at construction, every operation is a
    no-op that returns [false] or the default. *)
Lemma unavailable_store_degrades this ls key value raw defaultValue rawDefault :
  StorageService.isAvailable this = false ->
  set this ls key value = (Normal false, ls)
  /\ get this ls key defaultValue = Normal defaultValue
  /\ StorageService.getRaw this ls key rawDefault = Normal rawDefault
  /\ StorageService.setRaw this ls key raw = (Normal false, ls)
  /\ StorageService.remove this ls key = (Normal false, ls)
  /\ StorageService.has this ls key = Normal false
  /\ StorageService.clear this ls = (Normal false, ls).
Proof.
  intros Hna.
  unfold StorageService.set, StorageService.get, StorageService.getRaw,
    StorageService.setRaw, StorageService.remove, StorageService.has,
    StorageService.clear.
  rewrite Hna. simpl. repeat split.
Qed.

End StorageFacts.

(** C8 (fails on the code): [getRaw] and [has] do not catch a failing
    access.  On a service that found the store available, with a store
    whose accesses now throw, both propagate the exception instead of
    returning the default or [false]; the guarded [remove] on the same
    store returns [false]. *)
Theorem getRaw_and_has_propagate_a_failing_access :
  StorageService.getRaw liveService deniedStore "theme" "light" = Js.Throw Js.SecurityError
  /\ StorageService.has liveService deniedStore "theme" = Js.Throw Js.SecurityError
  /\ StorageService.remove liveService deniedStore "theme" = (Js.Normal false, deniedStore).
Proof. repeat split. Qed.

(** ** The credential *)

(** A service constructed on a working store finds it available and leaves
    every other key as it was. *)
Lemma new_on_working_store (ls : Browser.LocalStorage) :
  Browser.accessDenied ls = false ->
  Browser.quotaExceeded ls = false ->
  let '(this, ls') := StorageService.new ls in
  StorageService.isAvailable this = true
  /\ Browser.accessDenied ls' = false
  /\ Browser.quotaExceeded ls' = false
  /\ forall key, key <> "__storage_test__" ->
       Browser.items ls' !! key = Browser.items ls !! key.
Proof.
  intros Hacc Hquota.
  unfold StorageService.new, StorageService.checkAvailability,
    Browser.setItem, Browser.removeItem.
  rewrite Hacc, Hquota. simpl. rewrite Hacc. simpl.
  repeat split; try assumption.
  intros key Hkey. now rewrite lookup_delete_ne, lookup_insert_ne by congruence.
Qed.

Lemma getItem_working (ls : Browser.LocalStorage) key :
  Browser.accessDenied ls = false ->
  Browser.getItem ls key = Js.Normal (Browser.items ls !! key).
Proof. intros H. unfold Browser.getItem. now rewrite H. Qed.

Lemma nonEmpty_true_iff (s : string) : Js.nonEmpty s = true <-> s <> "".
Proof. destruct s; simpl; split; congruence. Qed.

(** C9: on a store that works (the service found it available, accesses
    are not denied, the quota is not exceeded), saving a non-empty
    credential with [setApiKey] and reading it with [getApiKey] gives the
    same string; after saving the empty string, or after removing the
    entry, [getApiKey] gives [null]. *)
Theorem credential_round_trip (this : StorageService.t) (ls : Browser.LocalStorage)
  (key : string) :
  StorageService.isAvailable this = true ->
  Browser.accessDenied ls = false ->
  Browser.quotaExceeded ls = false ->
  key <> "" ->
  StorageService.getApiKey this (StorageService.setApiKey this ls key)
    = Js.Normal (Some key)
  /\ StorageService.getApiKey this (StorageService.setApiKey this ls "")
    = Js.Normal None
  /\ StorageService.getApiKey this
       (snd (StorageService.remove this ls StorageService.API_KEY))
    = Js.Normal None.
Proof.
  intros Hav Hacc Hquota Hkey.
  apply nonEmpty_true_iff in Hkey.
  unfold StorageService.getApiKey, StorageService.setApiKey, StorageService.getRaw,
    StorageService.setRaw, StorageService.remove.
  rewrite Hkey, Hav. simpl.
  unfold Browser.setItem, Browser.removeItem. rewrite Hacc, Hquota. simpl.
  unfold Browser.getItem. simpl. rewrite Hacc.
  rewrite lookup_insert_eq, lookup_delete_eq, Hkey.
  repeat split. now rewrite Hkey.
Qed.

Lemma credential_round_trip_witness :
  (StorageService.isAvailable liveService = true
   /\ Browser.accessDenied emptyStore = false
   /\ Browser.quotaExceeded emptyStore = false
   /\ "gsk_live_1" <> "")
  /\ (StorageService.getApiKey liveService
        (StorageService.setApiKey liveService emptyStore "gsk_live_1")
      = Js.Normal (Some "gsk_live_1")
      /\ StorageService.getApiKey liveService
           (StorageService.setApiKey liveService emptyStore "") = Js.Normal None
      /\ StorageService.getApiKey liveService
           (snd (StorageService.remove liveService emptyStore StorageService.API_KEY))
         = Js.Normal None).
Proof.
  split.
  - repeat split; discriminate.
  - apply (credential_round_trip liveService emptyStore "gsk_live_1");
      [reflexivity | reflexivity | reflexivity | discriminate].
Defined.

(** ** The HTTP client *)

Lemma buildHeaders_working (ls : Browser.LocalStorage) extra :
  Browser.accessDenied ls = false ->
  exists headers, ApiService.buildHeaders ls extra = Js.Normal headers.
Proof.
  intros H. unfold ApiService.buildHeaders, ApiService.getApiKey.
  rewrite (getItem_working ls _ H).
  destruct (Browser.items ls !! ApiService.STORAGE_KEYS_apiKey); eauto.
Qed.

(** Every call arms the abort timer first, whatever happens afterwards. *)
Lemma request_arms_timer this ls endpoint options net :
  exists rest,
    fst (ApiService.request this ls endpoint options net)
    = ApiService.SetTimeout (ApiService.timeout this) :: rest.
Proof.
  unfold ApiService.request.
  destruct (ApiService.buildHeaders ls _) as [headers|e]; simpl.
  - destruct (ApiService.settlesBefore net _).
    + destruct net as [t r|t e|]; simpl; eauto.
      destruct (negb (ApiService.ok r)).
      * destruct (ApiService.request_notOk r); simpl; eauto.
      * destruct (ApiService.respBody r); simpl; eauto.
    + simpl; eauto.
  - eauto.
Qed.

(** C6 (as amended): the client is built with a timeout of 60000 ms and
    every call arms a timer of that length before anything else.  The
    timer bounds the wait for [fetch]: when the store can be read (so that
    the request is sent) and [fetch] has not settled before the timer
    fires, the call aborts the fetch through the signal and its promise is
    rejected with the error 'Request timeout' of status 408: it neither
    stays pending nor is fulfilled.  The reading of the body is not
    bounded: when the head of a response arrives before the timer fires,
    the timer is cleared at once, and when the body then never arrives the
    call is not aborted and its promise stays pending, whatever the
    status; this is the only way a call stays pending. *)
Theorem request_times_out_after_60_seconds (backendUrl : string)
  (ls : Browser.LocalStorage) (endpoint : string) (options : ApiService.RequestInit)
  (net : ApiService.FetchBehaviour) :
  let api := ApiService.new backendUrl in
  ApiService.timeout api = 60000
  /\ (exists rest, fst (ApiService.request api ls endpoint options net)
                   = ApiService.SetTimeout 60000 :: rest)
  /\ (Browser.accessDenied ls = false ->
      ApiService.settlesBefore net 60000 = false ->
      exists sent,
        ApiService.request api ls endpoint options net
        = ([ApiService.SetTimeout 60000;
            ApiService.Fetch (backendUrl +:+ endpoint) sent;
            ApiService.Abort;
            ApiService.ClearTimeout],
           ApiService.Rejected ApiService.timeoutError)
        /\ Js.status ApiService.timeoutError = Some 408)
  /\ (Browser.accessDenied ls = false ->
      forall after_ms st,
        net = ApiService.Responds after_ms
                {| ApiService.respStatus := st;
                   ApiService.respBody := ApiService.BodyStalls |} ->
        after_ms < 60000 ->
        exists sent,
          ApiService.request api ls endpoint options net
          = ([ApiService.SetTimeout 60000;
              ApiService.Fetch (backendUrl +:+ endpoint) sent;
              ApiService.ClearTimeout],
             ApiService.Pending))
  /\ (snd (ApiService.request api ls endpoint options net) = ApiService.Pending ->
      exists after_ms st,
        net = ApiService.Responds after_ms
                {| ApiService.respStatus := st;
                   ApiService.respBody := ApiService.BodyStalls |}
        /\ after_ms < 60000).
Proof.
  intros api. split; [reflexivity|]. split; [|split; [|split]].
  - apply (request_arms_timer api).
  - intros Hacc Hlate.
    unfold ApiService.request.
    destruct (buildHeaders_working ls (ApiService.reqHeaders options) Hacc) as [headers ->].
    change (ApiService.timeout api) with 60000. rewrite Hlate.
    simpl. eexists. split; reflexivity.
  - intros Hacc after_ms st -> Hquick.
    unfold ApiService.request.
    destruct (buildHeaders_working ls (ApiService.reqHeaders options) Hacc) as [headers ->].
    change (ApiService.timeout api) with 60000.
    apply Z.ltb_lt in Hquick. simpl. rewrite Hquick.
    destruct (negb (ApiService.ok _)); simpl; eexists; reflexivity.
  - unfold ApiService.request. change (ApiService.timeout api) with 60000.
    destruct (ApiService.buildHeaders ls (ApiService.reqHeaders options)) as [headers|e].
    + destruct net as [after_ms [st body]|after_ms e|]; simpl.
      * destruct (after_ms <? 60000) eqn:Hquick; [|discriminate].
        apply Z.ltb_lt in Hquick.
        destruct (negb (ApiService.ok _)).
        -- unfold ApiService.request_notOk. simpl.
           destruct body as [v| |]; simpl.
           ++ unfold ApiService.request_catch. destruct v; simpl; discriminate.
           ++ discriminate.
           ++ intros _. eauto.
        -- destruct body as [v| |]; simpl; try discriminate. intros _. eauto.
      * destruct (after_ms <? 60000); simpl; [|discriminate].
        unfold ApiService.request_catch.
        destruct (String.eqb (Js.name e) "AbortError"); discriminate.
      * discriminate.
    + simpl. unfold ApiService.request_catch.
      destruct (String.eqb (Js.name e) "AbortError"); discriminate.
Qed.

(** The timer guards the wait for [fetch]: once [fetch] has settled it is
    cleared, and the reading of the body that follows is not timed. *)
Example request_clears_timer_before_reading_body :
  ApiService.get (ApiService.new "http://localhost:5000") emptyStore
    ApiService.endpoint_health stalledBody
  = ([ApiService.SetTimeout 60000;
      ApiService.Fetch "http://localhost:5000/api/health"
        {| ApiService.method := Some "GET";
           ApiService.reqBody := None;
           ApiService.reqHeaders := {[ "Content-Type" := "application/json" ]} |};
      ApiService.ClearTimeout],
     ApiService.Pending).
Proof. reflexivity. Qed.

Lemma request_times_out_after_60_seconds_witness :
  Browser.accessDenied emptyStore = false
  /\ ApiService.settlesBefore slowAnswer 60000 = false
  /\ snd (ApiService.sendQuery (ApiService.new "http://localhost:5000") emptyStore
            "Tell me about VCET" slowAnswer)
     = ApiService.Rejected ApiService.timeoutError.
Proof.
  split; [reflexivity|]. split; [reflexivity|].
  destruct (proj1 (proj2 (proj2 (request_times_out_after_60_seconds "http://localhost:5000"
              emptyStore ApiService.endpoint_query
              {| ApiService.method := Some "POST";
                 ApiService.reqBody := Some (Js.JObj [("query", Js.JStr "Tell me about VCET")]);
                 ApiService.reqHeaders := ∅ |}
              slowAnswer))) eq_refl eq_refl) as [sent [Hrun _]].
  unfold ApiService.sendQuery, ApiService.post. now rewrite Hrun.
Defined.

(** C6 (fails as stated): a backend sends the head of its response after
    100 ms and then no body.  The call clears its timer when the head
    arrives, so the fetch is never aborted and no time-out error is ever
    raised: the promise stays pending for good. *)
Lemma stalled_body_is_never_timed_out :
  let '(effects, promise) :=
    ApiService.sendQuery (ApiService.new "http://localhost:5000") emptyStore
      "Tell me about VCET" stalledBody in
  ApiService.settlesBefore stalledBody 60000 = true
  /\ promise = ApiService.Pending
  /\ promise <> ApiService.Rejected ApiService.timeoutError
  /\ ~ In ApiService.Abort effects
  /\ last effects = Some ApiService.ClearTimeout.
Proof.
  simpl. split; [reflexivity|]. split; [reflexivity|]. split; [discriminate|].
  split; [|reflexivity].
  intros H. repeat (destruct H as [H|H]; [discriminate|]). destruct H.
Qed.

(** ** Rules for computations *)

Section Rules.
Import Js Eff.
Context {S E : Type}.
Implicit Types (P : S -> Prop) (Q : E -> Prop).

Lemma preserves_ret P {A} (a : A) : preserves P (mret a : @M S E A).
Proof. intros s H. exact H. Qed.

Lemma preserves_bind P {A B} (m : @M S E A) (k : A -> @M S E B) :
  preserves P m -> (forall a, preserves P (k a)) -> preserves P (m ≫= k).
Proof.
  intros Hm Hk s H. specialize (Hm s H).
  unfold mbind, M_bind, bind, stateOf in *.
  destruct (m s) as [[[a|e] s1] t1]; simpl in *; [|exact Hm].
  specialize (Hk a s1 Hm). destruct (k a s1) as [[r s2] t2]. exact Hk.
Qed.

Lemma preserves_throw P {A} e : preserves P (throw e : @M S E A).
Proof. intros s H. exact H. Qed.

Lemma preserves_tryCatch P {A} (m : @M S E A) h :
  preserves P m -> (forall e, preserves P (h e)) -> preserves P (tryCatch m h).
Proof.
  intros Hm Hh s H. specialize (Hm s H).
  unfold tryCatch, stateOf in *.
  destruct (m s) as [[[a|e] s1] t1]; simpl in *; [exact Hm|].
  specialize (Hh e s1 Hm). destruct (h e s1) as [[r s2] t2]. exact Hh.
Qed.

Lemma preserves_finally P {A} (m : @M S E A) f :
  preserves P m -> preserves P f -> preserves P (finally m f).
Proof.
  intros Hm Hf s H. specialize (Hm s H).
  unfold finally, stateOf in *.
  destruct (m s) as [[r s1] t1]; simpl in *.
  specialize (Hf s1 Hm). destruct (f s1) as [[[u|e] s2] t2]; exact Hf.
Qed.

Lemma preserves_gets P {A} (f : S -> A) : preserves P (gets f : @M S E A).
Proof. intros s H. exact H. Qed.

Lemma preserves_emit P (e : E) : preserves P (emit e : @M S E unit).
Proof. intros s H. exact H. Qed.

Lemma preserves_lift P {A} (c : Completion A) : preserves P (lift c : @M S E A).
Proof. intros s H. exact H. Qed.

Lemma preserves_modify P (f : S -> S) :
  (forall s, P s -> P (f s)) -> preserves P (modify f : @M S E unit).
Proof. intros Hf s H. exact (Hf s H). Qed.

Lemma preserves_when P (c : bool) (m : @M S E unit) :
  preserves P m -> preserves P (when c m).
Proof. intros Hm. destruct c; [exact Hm | apply (preserves_ret P tt)]. Qed.

Lemma emitsOnly_ret Q {A} (a : A) : emitsOnly Q (mret a : @M S E A).
Proof. intros s. constructor. Qed.

Lemma emitsOnly_bind Q {A B} (m : @M S E A) (k : A -> @M S E B) :
  emitsOnly Q m -> (forall a, emitsOnly Q (k a)) -> emitsOnly Q (m ≫= k).
Proof.
  intros Hm Hk s. specialize (Hm s).
  unfold mbind, M_bind, bind, effectsOf in *.
  destruct (m s) as [[[a|e] s1] t1]; simpl in *; [|exact Hm].
  specialize (Hk a s1). destruct (k a s1) as [[r s2] t2]; simpl in *.
  apply Forall_app; split; assumption.
Qed.

Lemma emitsOnly_throw Q {A} e : emitsOnly Q (throw e : @M S E A).
Proof. intros s. constructor. Qed.

Lemma emitsOnly_tryCatch Q {A} (m : @M S E A) h :
  emitsOnly Q m -> (forall e, emitsOnly Q (h e)) -> emitsOnly Q (tryCatch m h).
Proof.
  intros Hm Hh s. specialize (Hm s).
  unfold tryCatch, effectsOf in *.
  destruct (m s) as [[[a|e] s1] t1]; simpl in *; [exact Hm|].
  specialize (Hh e s1). destruct (h e s1) as [[r s2] t2]; simpl in *.
  apply Forall_app; split; assumption.
Qed.

Lemma emitsOnly_finally Q {A} (m : @M S E A) f :
  emitsOnly Q m -> emitsOnly Q f -> emitsOnly Q (finally m f).
Proof.
  intros Hm Hf s. specialize (Hm s).
  unfold finally, effectsOf in *.
  destruct (m s) as [[r s1] t1]; simpl in *.
  specialize (Hf s1). destruct (f s1) as [[[u|e] s2] t2]; simpl in *;
    apply Forall_app; split; assumption.
Qed.

Lemma emitsOnly_gets Q {A} (f : S -> A) : emitsOnly Q (gets f : @M S E A).
Proof. intros s. constructor. Qed.

Lemma emitsOnly_modify Q (f : S -> S) : emitsOnly Q (modify f : @M S E unit).
Proof. intros s. constructor. Qed.

Lemma emitsOnly_lift Q {A} (c : Completion A) : emitsOnly Q (lift c : @M S E A).
Proof. intros s. constructor. Qed.

Lemma emitsOnly_emit Q (e : E) : Q e -> emitsOnly Q (emit e : @M S E unit).
Proof. intros He s. repeat constructor. exact He. Qed.

Lemma emitsOnly_when Q (c : bool) (m : @M S E unit) :
  emitsOnly Q m -> emitsOnly Q (when c m).
Proof. intros Hm. destruct c; [exact Hm | apply (emitsOnly_ret Q tt)]. Qed.

End Rules.

(** Taking a computation apart along its structure: the rules given as
    [rules], and a case distinction at every [if] and [match]. *)
Ltac structural rules :=
  repeat first
    [ progress intros
    | rules
    | match goal with
      | |- _ (if ?c then _ else _) => destruct c
      | |- _ (match ?x with _ => _ end) => destruct x
      end ].

Ltac preserves_rules :=
  first
    [ apply preserves_bind | apply preserves_ret | apply preserves_throw
    | apply preserves_tryCatch | apply preserves_finally | apply preserves_gets
    | apply preserves_emit | apply preserves_lift | apply preserves_when
    | apply preserves_modify ].

Ltac emitsOnly_rules :=
  first
    [ apply emitsOnly_bind | apply emitsOnly_ret | apply emitsOnly_throw
    | apply emitsOnly_tryCatch | apply emitsOnly_finally | apply emitsOnly_gets
    | apply emitsOnly_modify | apply emitsOnly_lift | apply emitsOnly_when
    | apply emitsOnly_emit ].

(** ** The main script: what keeps the blocked flag *)

Section MainFacts.
Import Js Browser Eff Main.
Variable JSON_stringify : list ChatEntry -> string.
Variable JSON_parse : string -> Completion (list ChatEntry).

Ltac unfold_script :=
  unfold Main.perform, Main.sendMessage, Main.sendQuery, Main.saveChatHistory,
    Main.loadChatHistory, Main.clearChat, Main.clearApiKey, Main.addMessage,
    Main.openSettingsModal, Main.closeSettingsModal, Main.dismissRateLimitPopup,
    Main.handleRateLimitExceeded, Main.disableMessageInput, Main.enableMessageInput,
    Main.updateCharCount, Main.updateApiUsageDisplay, Main.showToast,
    Main.showApiKeyValidation, Main.fetch, Main.response_json,
    Main.ls_getItem, Main.ls_setItem, Main.ls_removeItem,
    Main.read, Main.update, Main.effect, Main.raise, Main.pure.

Lemma replay_keeps_blocked (h : list ChatEntry) now :
  preserves blocked
    (fold_right (fun msg rest =>
                   Main.addMessage (content msg) (sender msg) (options msg) now ;; rest)
                (Main.pure tt) h).
Proof.
  induction h as [|msg h IH]; simpl.
  - apply preserves_ret.
  - apply preserves_bind; [|intros _; exact IH].
    unfold_script. structural preserves_rules. assumption.
Qed.

Lemma other_actions_keep_blocked (a : Action) :
  a <> SaveApiKey -> a <> ResetRateLimitState ->
  preserves blocked (Main.perform JSON_stringify JSON_parse a).
Proof.
  intros Hsave Hreset.
  destruct a; try congruence;
    try (unfold_script; structural preserves_rules; first [assumption | reflexivity]).
  unfold Main.perform, Main.loadChatHistory, Main.ls_getItem, Main.ls_removeItem,
    Main.read, Main.update, Main.effect, Main.raise.
  structural ltac:(first [preserves_rules | apply replay_keeps_blocked]);
    first [assumption | reflexivity].
Qed.
Lemma replay_makes_no_request (h : list ChatEntry) now :
  emitsOnly (fun e => isFetch e = false)
    (fold_right (fun msg rest =>
                   Main.addMessage (content msg) (sender msg) (options msg) now ;; rest)
                (Main.pure tt) h).
Proof.
  induction h as [|msg h IH]; simpl.
  - apply emitsOnly_ret.
  - apply emitsOnly_bind; [|intros _; exact IH].
    unfold_script. structural emitsOnly_rules. reflexivity.
Qed.

(** Apart from [sendMessage] and [sendQuery], nothing the user or the page
    can trigger makes a request. *)
Lemma other_actions_make_no_request (a : Action) :
  match a with SendMessage _ _ _ | SendQuery _ _ => False | _ => True end ->
  emitsOnly (fun e => isFetch e = false) (Main.perform JSON_stringify JSON_parse a).
Proof.
  intros Hother.
  destruct a; try contradiction;
    try (unfold_script; unfold Main.saveApiKey, Main.resetRateLimitState;
         unfold_script; structural emitsOnly_rules; reflexivity).
  unfold Main.perform, Main.loadChatHistory, Main.ls_getItem, Main.ls_removeItem,
    Main.read, Main.update, Main.effect, Main.raise.
  structural ltac:(first [emitsOnly_rules | apply replay_makes_no_request]); reflexivity.
Qed.

End MainFacts.

(** ** The main script: what one query does *)

(** unfolding the script down to the state it computes *)
Ltac run_script :=
  cbv [Main.sendQuery Main.sendMessage Main.openSettingsModal Main.showToast
       Main.handleRateLimitExceeded Main.disableMessageInput Main.enableMessageInput
       Main.resetRateLimitState Main.dismissRateLimitPopup Main.updateCharCount
       Main.updateApiUsageDisplay Main.fetch Main.response_json
       Main.saveChatHistory Main.saveApiKey Main.showApiKeyValidation
       Main.ls_getItem Main.ls_setItem Main.ls_removeItem
       Main.read Main.update Main.effect Main.raise Main.pure
       mbind mret Eff.M_bind Eff.M_ret Eff.bind Eff.ret Eff.throw Eff.tryCatch Eff.finally
       Eff.gets Eff.modify Eff.emit Eff.lift Eff.when].

Section QueryFacts.
Import Js Browser Eff Main.

Abbreviation savedKey s := (items (localStorage s) !! storageKeys_apiKey).

Lemma sendQuery_denied s q net :
  accessDenied (localStorage s) = true ->
  Main.sendQuery q net s = (Throw SecurityError, s, []).
Proof. intros H. run_script. unfold getItem. now rewrite H. Qed.

Lemma sendQuery_network_error s q e :
  accessDenied (localStorage s) = false ->
  Main.sendQuery q (NetworkError e) s = (Throw e, s, [queryRequest (savedKey s) q]).
Proof. intros H. run_script. unfold getItem. now rewrite H. Qed.

Lemma sendQuery_unparsable s q st :
  accessDenied (localStorage s) = false ->
  Main.sendQuery q (HttpResponse st None) s
  = (Throw (SyntaxError "Unexpected token"), s, [queryRequest (savedKey s) q]).
Proof. intros H. run_script. unfold getItem. now rewrite H. Qed.

Lemma sendQuery_rate_limited s q v :
  accessDenied (localStorage s) = false ->
  Main.sendQuery q (HttpResponse 429 (Some v)) s
  = (Throw (Error (Text "Rate limit exceeded")),
     stateOf (Main.handleRateLimitExceeded s), [queryRequest (savedKey s) q]).
Proof. intros H. run_script. unfold getItem. now rewrite H. Qed.

Lemma sendQuery_http_error s q st v :
  accessDenied (localStorage s) = false ->
  Main.ok {| respStatus := st; respBody := Some v |} = false ->
  st <> 429 ->
  let counted := set_consecutiveFailures (S (consecutiveFailures s)) s in
  stateOf (Main.sendQuery q (HttpResponse st (Some v)) s)
  = (if (MAX_CONSECUTIVE_FAILURES <=? S (consecutiveFailures s))%nat
     then stateOf (Main.handleRateLimitExceeded counted) else counted)
  /\ throws (resultOf (Main.sendQuery q (HttpResponse st (Some v)) s)) = true
  /\ effectsOf (Main.sendQuery q (HttpResponse st (Some v)) s)
     = [queryRequest (savedKey s) q].
Proof.
  intros H Hok H429 counted. apply Z.eqb_neq in H429.
  run_script. unfold getItem. rewrite H. simpl. rewrite H429, Hok. simpl.
  destruct (consecutiveFailures s) as [|[|n]]; destruct v; simpl; repeat split.
Qed.

Lemma sendQuery_success s q st v :
  accessDenied (localStorage s) = false ->
  Main.ok {| respStatus := st; respBody := Some v |} = true ->
  stateOf (Main.sendQuery q (HttpResponse st (Some v)) s) = set_consecutiveFailures 0 s
  /\ List.filter isFetch (effectsOf (Main.sendQuery q (HttpResponse st (Some v)) s))
     = [queryRequest (savedKey s) q].
Proof.
  intros H Hok.
  assert (H429 : (st =? 429) = false).
  { unfold Main.ok in Hok. simpl in Hok. lia. }
  run_script. unfold getItem. rewrite H. simpl. rewrite H429, Hok. simpl.
  destruct v; simpl; try (split; reflexivity).
  destruct (lookupField "remaining_requests" fields); split; reflexivity.
Qed.

(** Whatever the network does, a call that reaches [fetch] makes exactly
    one request, and it carries the text it was given. *)
Lemma sendQuery_one_request s q net :
  accessDenied (localStorage s) = false ->
  List.filter isFetch (effectsOf (Main.sendQuery q net s)) = [queryRequest (savedKey s) q].
Proof.
  intros H. destruct net as [e|st [v|]].
  - now rewrite sendQuery_network_error.
  - destruct (Main.ok {| respStatus := st; respBody := Some v |}) eqn:Hok.
    + now apply sendQuery_success.
    + destruct (Z.eq_dec st 429) as [->|Hne].
      * now rewrite sendQuery_rate_limited.
      * destruct (sendQuery_http_error s q st v H Hok Hne) as (_ & _ & ->).
        reflexivity.
  - now rewrite sendQuery_unparsable.
Qed.

(** A call that is fulfilled has reset the counter and changed nothing
    else. *)
Lemma sendQuery_fulfilled s q net answer :
  resultOf (Main.sendQuery q net s) = Normal answer ->
  stateOf (Main.sendQuery q net s) = set_consecutiveFailures 0 s.
Proof.
  intros Hres.
  destruct (accessDenied (localStorage s)) eqn:H.
  { rewrite sendQuery_denied in Hres by exact H. discriminate. }
  destruct net as [e|st [v|]].
  - rewrite sendQuery_network_error in Hres by exact H. discriminate.
  - destruct (Main.ok {| respStatus := st; respBody := Some v |}) eqn:Hok.
    + now apply sendQuery_success.
    + destruct (Z.eq_dec st 429) as [->|Hne].
      * rewrite sendQuery_rate_limited in Hres by exact H. discriminate.
      * destruct (sendQuery_http_error s q st v H Hok Hne) as (_ & Hthrow & _).
        rewrite Hres in Hthrow. discriminate.
  - rewrite sendQuery_unparsable in Hres by exact H. discriminate.
Qed.

Ltac sendQuery_frame :=
  unfold Main.sendQuery, Main.handleRateLimitExceeded, Main.disableMessageInput,
    Main.updateApiUsageDisplay, Main.fetch, Main.response_json, Main.ls_getItem,
    Main.read, Main.update, Main.effect, Main.raise, Main.pure;
  structural preserves_rules; first [assumption | reflexivity].

Lemma sendQuery_keeps_blocked q net : preserves blocked (Main.sendQuery q net).
Proof. sendQuery_frame. Qed.

Lemma sendQuery_keeps_store ls q net :
  preserves (fun s => localStorage s = ls) (Main.sendQuery q net).
Proof. sendQuery_frame. Qed.

Lemma afterQueries_keeps_blocked l s : blocked s -> blocked (afterQueries s l).
Proof.
  revert s. induction l as [|c l IH]; intros s H; simpl; [exact H|].
  apply IH. now apply sendQuery_keeps_blocked.
Qed.

(** One HTTP error response either blocks the input or counts one more
    failure and stays below the threshold. *)
Lemma http_failure_step s q net :
  accessDenied (localStorage s) = false ->
  isHttpFailure net = true ->
  let s' := stateOf (Main.sendQuery q net s) in
  blocked s'
  \/ (consecutiveFailures s' = S (consecutiveFailures s)
      /\ (consecutiveFailures s' < MAX_CONSECUTIVE_FAILURES)%nat).
Proof.
  intros H Hfail s'. subst s'.
  destruct net as [e|st [v|]]; try discriminate. simpl in Hfail.
  apply negb_true_iff in Hfail.
  destruct (Z.eq_dec st 429) as [->|Hne].
  - left. rewrite sendQuery_rate_limited by exact H. reflexivity.
  - destruct (sendQuery_http_error s q st v H Hfail Hne) as (-> & _ & _).
    destruct (MAX_CONSECUTIVE_FAILURES <=? S (consecutiveFailures s))%nat eqn:Hmax.
    + left. reflexivity.
    + right. apply Nat.leb_gt in Hmax. split; [reflexivity | exact Hmax].
Qed.

Lemma http_failures_count l : forall s,
  accessDenied (localStorage s) = false ->
  Forall (fun c => isHttpFailure (snd c) = true) l ->
  blocked (afterQueries s l)
  \/ (consecutiveFailures (afterQueries s l) = (consecutiveFailures s + length l)%nat
      /\ (l <> [] -> (consecutiveFailures (afterQueries s l) < MAX_CONSECUTIVE_FAILURES)%nat)).
Proof.
  induction l as [|c l IH]; intros s H Hall.
  - right. simpl. split; [lia | congruence].
  - inversion Hall as [|? ? Hc Hl]; subst. simpl.
    pose proof (http_failure_step s (fst c) (snd c) H Hc) as Hstep.
    pose proof (sendQuery_keeps_store (localStorage s) (fst c) (snd c) s eq_refl) as Hstore.
    cbv zeta in Hstep.
    set (s1 := stateOf (Main.sendQuery (fst c) (snd c) s)) in *.
    rewrite <- Hstore in H.
    destruct Hstep as [Hb|[Hcount Hlow]].
    + left. now apply afterQueries_keeps_blocked.
    + destruct (IH s1 H Hl) as [Hb|[Hn Hlt]]; [now left|].
      right. split; [lia|]. intros _.
      destruct l as [|c' l']; [exact Hlow | apply Hlt; discriminate].
Qed.

End QueryFacts.

(** ** The main script: sending, blocking, saving *)

Section ScriptClaims.
Import Js Browser Eff Main.
Variable JSON_stringify : list ChatEntry -> string.
Variable JSON_parse : string -> Completion (list ChatEntry).

Abbreviation sendMessage := (Main.sendMessage JSON_stringify).
Abbreviation saveChatHistory := (Main.saveChatHistory JSON_stringify).
Abbreviation step := (Main.step JSON_stringify JSON_parse).

(** Input that is empty after trimming is dropped without a trace. *)
Lemma sendMessage_empty s net tUser tBot :
  trim (messageInput s) = "" ->
  sendMessage net tUser tBot s = (Normal tt, s, []).
Proof. intros H. run_script. rewrite H. reflexivity. Qed.

(** In a blocked state [sendMessage] stops before the query: no request,
    no new message, the flag and the counter as they were. *)
Lemma sendMessage_blocked s net tUser tBot :
  blocked s ->
  let r := sendMessage net tUser tBot s in
  networkCalls (effectsOf r) = 0%nat
  /\ chatHistory (stateOf r) = chatHistory s
  /\ isRateLimited (stateOf r) = true
  /\ consecutiveFailures (stateOf r) = consecutiveFailures s.
Proof.
  intros H r. subst r. unfold blocked in H. run_script.
  destruct (negb (nonEmpty (trim (messageInput s))) || isProcessing s); simpl.
  - repeat split. exact H.
  - rewrite H. unfold getItem. simpl.
    destruct (accessDenied (localStorage s)); simpl; [repeat split; exact H|].
    destruct (items (localStorage s) !! storageKeys_apiKey) as [k|]; simpl;
      [destruct (nonEmpty k)|]; simpl; repeat split; exact H.
Qed.

(** [resetRateLimitState()] clears the flag and the counter. *)
Lemma resetRateLimitState_clears s :
  isRateLimited (stateOf (Main.resetRateLimitState s)) = false
  /\ consecutiveFailures (stateOf (Main.resetRateLimitState s)) = 0%nat.
Proof. split; reflexivity. Qed.

(** Saving a well-formed key on a store that takes it clears both too. *)
Lemma saveApiKey_clears s :
  startsWith (trim (apiKeyInput s)) "gsk_" = true ->
  accessDenied (localStorage s) = false ->
  quotaExceeded (localStorage s) = false ->
  let s' := stateOf (Main.saveApiKey s) in
  isRateLimited s' = false
  /\ consecutiveFailures s' = 0%nat
  /\ items (localStorage s') !! storageKeys_apiKey = Some (trim (apiKeyInput s)).
Proof.
  intros Hkey Hacc Hquota s'. subst s'.
  assert (Hne : nonEmpty (trim (apiKeyInput s)) = true).
  { destruct (trim (apiKeyInput s)); [discriminate | reflexivity]. }
  run_script. rewrite Hne, Hkey. simpl.
  unfold setItem. rewrite Hacc, Hquota. simpl.
  repeat split. apply lookup_insert_eq.
Qed.

(** ** Chat history *)

Lemma slice_last (A : Type) (n : nat) (l : list A) :
  (0 < n)%nat ->
  Main.slice (- Z.of_nat n) l = drop (length l - n) l.
Proof.
  intros Hn. unfold Main.slice.
  destruct (- Z.of_nat n <? 0) eqn:Hneg; [f_equal; lia | lia].
Qed.

(** With 50 entries in memory, a 51st pushes the oldest out of what is
    saved. *)
Lemma slice_after_51st (A : Type) (oldest : A) (l : list A) (newest : A) :
  length l = 49%nat ->
  Main.slice (-50) (oldest :: l ++ [newest]) = l ++ [newest].
Proof.
  intros H. change (-50) with (- Z.of_nat 50). rewrite slice_last by lia.
  simpl length. rewrite length_app, H. reflexivity.
Qed.

(** On a store that takes the write, what is stored under [chatHistory]
    after [saveChatHistory()] is the text of the last 50 entries. *)
Lemma saved_history_is_stored (s : AppState) :
  accessDenied (localStorage s) = false ->
  quotaExceeded (localStorage s) = false ->
  items (localStorage (stateOf (saveChatHistory s))) !! "chatHistory"
  = Some (JSON_stringify (Main.slice (-50) (chatHistory s))).
Proof.
  intros Hacc Hquota. run_script. unfold setItem. rewrite Hacc, Hquota. simpl.
  apply lookup_insert_eq.
Qed.

(** C5: [saveChatHistory()] writes, under the key [chatHistory], the text
    of [chatHistory.slice(-50)] and nothing else (when the write throws,
    the error is logged and the state is as before).  That list has at
    most 50 entries, exactly min(50, length) of them; it is the history
    without its first [length - 50] entries, so the oldest are the ones
    dropped and the kept ones stand in the order they were added. *)
Theorem saved_history_is_the_last_50 (s : AppState) :
  let h := chatHistory s in
  let kept := Main.slice (-50) h in
  stateOf (saveChatHistory s)
  = match setItem (localStorage s) "chatHistory" (JSON_stringify kept) with
    | Normal ls' => set_localStorage ls' s
    | Throw _ => s
    end
  /\ (length kept <= 50)%nat
  /\ length kept = Nat.min 50 (length h)
  /\ kept = drop (length h - 50) h
  /\ take (length h - 50) h ++ kept = h.
Proof.
  intros h kept.
  assert (Hkept : kept = drop (length h - 50) h).
  { unfold kept. change (-50) with (- Z.of_nat 50). apply slice_last. lia. }
  split; [|rewrite Hkept, length_drop, take_drop; repeat split; lia].
  run_script. fold h. fold kept.
  destruct (setItem (localStorage s) "chatHistory" (JSON_stringify kept)); reflexivity.
Qed.

(** ** Blocking *)

(** C1 (as amended): in every blocked state a send attempt is rejected by
    [sendMessage] before any request is made, and the state stays blocked.
    And from any state whose store can be read, after three or more
    consecutive calls of [sendQuery] that each got an HTTP error response
    (a status outside 2xx with a body that parses) the state is blocked, so
    that the next send attempt makes no request. *)
Theorem blocked_rejects_locally_and_http_errors_block :
  (forall s net tUser tBot,
      blocked s ->
      networkCalls (effectsOf (sendMessage net tUser tBot s)) = 0%nat
      /\ blocked (stateOf (sendMessage net tUser tBot s)))
  /\ (forall s l,
      accessDenied (localStorage s) = false ->
      Forall (fun c => isHttpFailure (snd c) = true) l ->
      (3 <= length l)%nat ->
      blocked (afterQueries s l)
      /\ forall net tUser tBot,
          networkCalls (effectsOf (sendMessage net tUser tBot (afterQueries s l))) = 0%nat).
Proof.
  split.
  - intros s net tUser tBot H.
    destruct (sendMessage_blocked s net tUser tBot H) as (Hnet & _ & Hb & _).
    split; assumption.
  - intros s l Hacc Hall Hlen.
    assert (Hb : blocked (afterQueries s l)).
    { destruct (http_failures_count l s Hacc Hall) as [Hb|[Hn Hlt]]; [exact Hb|].
      assert (l <> []) as Hne by (destruct l; [simpl in Hlen; lia | discriminate]).
      specialize (Hlt Hne). unfold MAX_CONSECUTIVE_FAILURES in Hlt. lia. }
    split; [exact Hb|]. intros net tUser tBot.
    now destruct (sendMessage_blocked (afterQueries s l) net tUser tBot Hb).
Qed.

(** ** Validation *)

(** C2 (as amended): [sendQuery] checks nothing about the text.  Whenever
    the store can be read it makes exactly one request, carrying the text
    as given, whatever its length and whether or not it is empty.  The one
    local check is in [sendMessage]: input that is empty after trimming
    makes it return at once, with no request, no error and no change. *)
Theorem queries_are_sent_unvalidated :
  (forall s q net,
      accessDenied (localStorage s) = false ->
      List.filter isFetch (effectsOf (Main.sendQuery q net s))
      = [queryRequest (items (localStorage s) !! storageKeys_apiKey) q]
      /\ networkCalls (effectsOf (Main.sendQuery q net s)) = 1%nat)
  /\ (forall s net tUser tBot,
      trim (messageInput s) = "" ->
      sendMessage net tUser tBot s = (Normal tt, s, [])).
Proof.
  split.
  - intros s q net H. unfold networkCalls.
    rewrite (sendQuery_one_request s q net H). split; reflexivity.
  - intros s net tUser tBot H. now apply sendMessage_empty.
Qed.

(** ** Success and reset *)

(** C4: a fulfilled [sendQuery] leaves the state as it was except for
    [consecutiveFailures], which is 0; in particular [isRateLimited] keeps
    its value.  Of all the actions of the script only [saveApiKey] and
    [resetRateLimitState] can take a blocked state to an unblocked one, and
    both (the first when the key is well formed and the store takes it)
    leave the flag false and the counter 0. *)
Theorem success_resets_only_the_counter :
  (forall s q net answer,
      resultOf (Main.sendQuery q net s) = Normal answer ->
      stateOf (Main.sendQuery q net s) = set_consecutiveFailures 0 s
      /\ consecutiveFailures (stateOf (Main.sendQuery q net s)) = 0%nat
      /\ isRateLimited (stateOf (Main.sendQuery q net s)) = isRateLimited s)
  /\ (forall s a,
      blocked s -> isRateLimited (step s a) = false ->
      a = SaveApiKey \/ a = ResetRateLimitState)
  /\ (forall s,
      isRateLimited (step s ResetRateLimitState) = false
      /\ consecutiveFailures (step s ResetRateLimitState) = 0%nat)
  /\ (forall s,
      startsWith (trim (apiKeyInput s)) "gsk_" = true ->
      accessDenied (localStorage s) = false ->
      quotaExceeded (localStorage s) = false ->
      isRateLimited (step s SaveApiKey) = false
      /\ consecutiveFailures (step s SaveApiKey) = 0%nat).
Proof.
  repeat split.
  - now apply sendQuery_fulfilled with answer.
  - now rewrite (sendQuery_fulfilled s q net answer).
  - now rewrite (sendQuery_fulfilled s q net answer).
  - intros s a Hb Hopen.
    destruct a; try (now left); try (now right); exfalso.
    all: match goal with
         | _ : isRateLimited (step _ ?a) = false |- _ =>
             pose proof (other_actions_keep_blocked JSON_stringify JSON_parse a
                           ltac:(discriminate) ltac:(discriminate) s Hb) as Hkeep
         end;
         unfold blocked, Main.step in *; congruence.
  - now destruct (saveApiKey_clears s) as (? & ? & ?).
  - now destruct (saveApiKey_clears s) as (? & ? & ?).
Qed.

End ScriptClaims.

(** C1 (fails as stated): three consecutive failures of [sendQuery] that
    are connection failures, not time-outs, leave the state unblocked with
    the counter at 0, and the next send attempt makes a request. *)
Lemma three_network_errors_do_not_block :
  let s0 := Main.initialState emptyStore in
  let s := Main.afterQueries s0 threeNetworkErrors in
  length threeNetworkErrors = 3%nat
  /\ Main.allRejected s0 threeNetworkErrors = true
  /\ Main.isRateLimited s = false
  /\ Main.consecutiveFailures s = 0%nat
  /\ Main.networkCalls
       (Eff.effectsOf
          (Main.sendMessage tallyStringify
             (Main.HttpResponse 200 (Some successAnswer)) "t1" "t2"
             (typed "Tell me about VCET" s))) = 1%nat.
Proof. vm_compute. repeat split. Qed.

Lemma blocked_rejects_locally_and_http_errors_block_witness :
  (Main.blocked blockedState
   /\ Main.networkCalls
        (Eff.effectsOf
           (Main.sendMessage tallyStringify
              (Main.HttpResponse 200 (Some successAnswer)) "t1" "t2"
              (typed "Tell me about VCET" blockedState))) = 0%nat)
  /\ (Browser.accessDenied (Main.localStorage (Main.initialState emptyStore)) = false
      /\ Forall (fun c => Main.isHttpFailure (snd c) = true) threeServerErrors
      /\ (3 <= length threeServerErrors)%nat
      /\ Main.blocked (Main.afterQueries (Main.initialState emptyStore) threeServerErrors)).
Proof.
  destruct (blocked_rejects_locally_and_http_errors_block tallyStringify) as [Hlocal Hrun].
  split.
  - split; [reflexivity|].
    apply (Hlocal (typed "Tell me about VCET" blockedState)). reflexivity.
  - assert (Hall : Forall (fun c => Main.isHttpFailure (snd c) = true) threeServerErrors)
      by (repeat constructor).
    split; [reflexivity|]. split; [exact Hall|]. split; [simpl; lia|].
    apply (Hrun (Main.initialState emptyStore) threeServerErrors);
      [reflexivity | exact Hall | simpl; lia].
Defined.

(** C2 (fails as stated): a text of 1001 characters given to [sendQuery]
    goes to the network, and the call is fulfilled with the backend's
    answer; through [sendMessage] the same text makes a request too. *)
Lemma long_query_reaches_the_network :
  let s0 := Main.initialState emptyStore in
  let r := Main.sendQuery longText (Main.HttpResponse 200 (Some successAnswer)) s0 in
  String.length longText = 1001%nat
  /\ Main.networkCalls (Eff.effectsOf r) = 1%nat
  /\ Eff.resultOf r = Js.Normal successAnswer
  /\ Main.networkCalls
       (Eff.effectsOf
          (Main.sendMessage tallyStringify
             (Main.HttpResponse 200 (Some successAnswer)) "t1" "t2"
             (typed longText s0))) = 1%nat.
Proof. vm_compute. repeat split. Qed.

Lemma queries_are_sent_unvalidated_witness :
  (Browser.accessDenied (Main.localStorage (Main.initialState emptyStore)) = false
   /\ Main.networkCalls
        (Eff.effectsOf
           (Main.sendQuery longText (Main.NetworkError failedToFetch)
              (Main.initialState emptyStore))) = 1%nat)
  /\ (Js.trim (Main.messageInput (typed "   " (Main.initialState emptyStore))) = ""
      /\ Main.sendMessage tallyStringify (Main.NetworkError failedToFetch) "t1" "t2"
           (typed "   " (Main.initialState emptyStore))
         = (Js.Normal tt, typed "   " (Main.initialState emptyStore), [])).
Proof.
  destruct (queries_are_sent_unvalidated tallyStringify) as [Hsent Hempty].
  split.
  - split; [reflexivity|].
    apply (Hsent (Main.initialState emptyStore) longText). reflexivity.
  - split; [reflexivity|].
    apply (Hempty (typed "   " (Main.initialState emptyStore))). reflexivity.
Defined.

Lemma success_resets_only_the_counter_witness :
  (Eff.resultOf (Main.sendQuery "Tell me about VCET"
                   (Main.HttpResponse 200 (Some successAnswer)) blockedState)
   = Js.Normal successAnswer
   /\ Main.consecutiveFailures
        (Eff.stateOf (Main.sendQuery "Tell me about VCET"
                        (Main.HttpResponse 200 (Some successAnswer)) blockedState)) = 0%nat
   /\ Main.isRateLimited
        (Eff.stateOf (Main.sendQuery "Tell me about VCET"
                        (Main.HttpResponse 200 (Some successAnswer)) blockedState)) = true)
  /\ (Js.startsWith (Js.trim (Main.apiKeyInput keyTyped)) "gsk_" = true
      /\ Main.isRateLimited (Main.step tallyStringify neverParse keyTyped Main.SaveApiKey)
         = false).
Proof.
  destruct (success_resets_only_the_counter tallyStringify neverParse)
    as (Hok & _ & _ & Hsave).
  split.
  - split; [reflexivity|].
    destruct (Hok blockedState "Tell me about VCET"
                (Main.HttpResponse 200 (Some successAnswer)) successAnswer eq_refl)
      as (_ & Hzero & Hflag).
    split; [exact Hzero | exact Hflag].
  - split; [reflexivity|].
    now destruct (Hsave keyTyped eq_refl eq_refl eq_refl).
Defined.

(** ** The loading sequence *)

(** The recursion bound of the model is never what ends the loop: started
    as the script starts it, the loop is left by its condition, by [break]
    or by [return]. *)
Lemma pollLoop_has_enough_fuel (b : Loading.Backend) (fuel : nat) : forall attempts,
  (Loading.maxAttempts <= attempts + fuel)%nat ->
  snd (Loading.pollLoop b fuel attempts) <> Loading.OutOfFuel.
Proof.
  induction fuel as [|fuel IH]; intros attempts Hsum; simpl.
  - replace (attempts <? Loading.maxAttempts)%nat with false
      by (symmetry; apply Nat.ltb_ge; lia).
    rewrite andb_false_r. discriminate.
  - destruct (negb _ && _); [|discriminate].
    destruct (Loading.ragInitialized _); [discriminate|].
    destruct (Loading.LOADING_TIMEOUT_TIME <=? _); [discriminate|].
    specialize (IH (S attempts) ltac:(lia)).
    destruct (Loading.pollLoop b fuel (S attempts)). exact IH.
Qed.

Lemma startLoadingProcess_ends (b : Loading.Backend) :
  snd (Loading.startLoadingProcess b) <> Loading.Stuck.
Proof.
  unfold Loading.startLoadingProcess.
  destruct (negb _); [discriminate|].
  pose proof (pollLoop_has_enough_fuel b Loading.maxAttempts 0 ltac:(lia)) as H.
  destruct (Loading.pollLoop b Loading.maxAttempts 0) as [polling [| |]];
    simpl in *; congruence.
Qed.

Section LoadingFacts.
Import Loading.
Variable b : Backend.
Hypothesis first_up : success (firstCheck b) = true.
Hypothesis first_not_ready : ragInitialized (firstCheck b) = false.
Hypothesis never_ready : forall k, ragInitialized (pollCheck b k) = false.

Abbreviation polls t := (length (List.filter isPoll t)).
Abbreviation popups t := (length (List.filter isTimeoutPopup t)).

(** The polling loop against a backend that never becomes ready, started
    with [attempts] done and [fuel] left up to the ceiling. *)
Lemma pollLoop_never_ready fuel : forall attempts,
  (attempts + fuel = maxAttempts)%nat ->
  let '(events, exit) := pollLoop b fuel attempts in
  pollsFollowSleep events = true
  /\ match firstTimedOutPoll b fuel attempts with
     | Some k =>
         exit = LoopReturn /\ polls events = (S k - attempts)%nat /\ popups events = 1%nat
     | None =>
         exit = LoopDone /\ polls events = fuel /\ popups events = 0%nat
     end.
Proof.
  induction fuel as [|fuel IH]; intros attempts Hsum.
  - simpl. rewrite first_not_ready.
    replace (attempts <? maxAttempts)%nat with false
      by (symmetry; apply Nat.ltb_ge; lia).
    simpl. repeat split.
  - simpl. rewrite first_not_ready.
    replace (attempts <? maxAttempts)%nat with true
      by (symmetry; apply Nat.ltb_lt; lia).
    simpl. rewrite never_ready.
    destruct (LOADING_TIMEOUT_TIME <=? elapsedAt b attempts) eqn:Hout.
    + destruct (LOADING_WARNING_TIME <=? elapsedAt b attempts); simpl;
        (split; [reflexivity|]); (split; [reflexivity|]); split; try reflexivity;
        f_equal; lia.
    + specialize (IH (S attempts) ltac:(lia)).
      destruct (pollLoop b fuel (S attempts)) as [rest exit].
      destruct IH as [Hsleep Hrest].
      assert (Hge : forall k, firstTimedOutPoll b fuel (S attempts) = Some k ->
                              (S attempts <= k)%nat).
      { clear. generalize (S attempts).
        induction fuel as [|fuel IH]; intros n k; simpl; [discriminate|].
        destruct (LOADING_TIMEOUT_TIME <=? elapsedAt b n).
        - intros [= ->]. lia.
        - intros H. specialize (IH _ _ H). lia. }
      destruct (LOADING_WARNING_TIME <=? elapsedAt b attempts); simpl;
        (split; [exact Hsleep|]);
        (destruct (firstTimedOutPoll b fuel (S attempts)) as [k|];
         [specialize (Hge k eq_refl)|]; destruct Hrest as (-> & -> & ->);
         repeat split; lia).
Qed.

(** C3 (as amended): against a backend that answers the first health
    check and never reports [rag_initialized: true], the sequence sleeps 2
    seconds before every poll and polls at most 60 times (the attempt
    ceiling of the loop).  It shows the time-out popup at most once: when
    some poll among those 60 reads an elapsed time of 30 minutes or more,
    the sequence ends in [TimedOut] at the first such poll; when none
    does, the loop ends at the 60th poll and there is no [TimedOut]. *)
Theorem never_ready_backend_is_polled_at_most_60_times :
  let '(events, final) := startLoadingProcess b in
  maxAttempts = 60%nat
  /\ (pollCount events <= maxAttempts)%nat
  /\ pollsFollowSleep (fst (pollLoop b maxAttempts 0)) = true
  /\ (timeoutCount events <= 1)%nat
  /\ match firstTimedOutPoll b maxAttempts 0 with
     | Some k =>
         final = TimedOut /\ pollCount events = S k /\ timeoutCount events = 1%nat
     | None =>
         final <> TimedOut /\ final <> Stuck
         /\ pollCount events = maxAttempts /\ timeoutCount events = 0%nat
     end.
Proof.
  pose proof (pollLoop_never_ready maxAttempts 0 eq_refl) as Hloop.
  assert (Hbound : forall k, firstTimedOutPoll b maxAttempts 0 = Some k ->
                             (k < maxAttempts)%nat).
  { assert (G : forall fuel n k, firstTimedOutPoll b fuel n = Some k -> (k < n + fuel)%nat).
    { induction fuel as [|fuel IH]; intros n k; simpl; [discriminate|].
      destruct (LOADING_TIMEOUT_TIME <=? elapsedAt b n).
      - intros [= ->]. lia.
      - intros H. specialize (IH _ _ H). lia. }
    intros k H. apply (G _ _ _ H). }
  unfold startLoadingProcess. rewrite first_up. simpl negb. cbv iota.
  destruct (pollLoop b maxAttempts 0) as [polling exit].
  destruct Hloop as [Hsleep Hcases].
  unfold pollCount, timeoutCount.
  destruct (firstTimedOutPoll b maxAttempts 0) as [k|].
  - specialize (Hbound k eq_refl).
    destruct Hcases as (-> & Hp & Hq). simpl. rewrite Hp, Hq.
    repeat split; try exact Hsleep; unfold maxAttempts in *; lia.
  - destruct Hcases as (-> & Hp & Hq).
    rewrite !List.filter_app, !length_app, Hp, Hq. simpl.
    repeat split; try exact Hsleep; try discriminate; unfold maxAttempts in *; lia.
Qed.

End LoadingFacts.

(** C3 (fails as stated): a backend that never becomes ready and answers
    every check at once is polled 60 times in about two minutes; then the
    loop ends, no time-out popup is ever shown, and the sequence runs on
    to hide the overlay. *)
Lemma fast_never_ready_backend_never_times_out :
  let '(events, final) := Loading.startLoadingProcess neverReadyFast in
  (forall k, Loading.ragInitialized (Loading.pollCheck neverReadyFast k) = false)
  /\ Loading.pollCount events = 60%nat
  /\ Loading.elapsedAt neverReadyFast 59 = 120000
  /\ Loading.timeoutCount events = 0%nat
  /\ final = Loading.Ready.
Proof. vm_compute. repeat split. Qed.

Lemma never_ready_backend_is_polled_at_most_60_times_witness :
  (Loading.success (Loading.firstCheck neverReadySlow) = true
   /\ Loading.ragInitialized (Loading.firstCheck neverReadySlow) = false
   /\ (forall k, Loading.ragInitialized (Loading.pollCheck neverReadySlow k) = false))
  /\ Loading.firstTimedOutPoll neverReadySlow Loading.maxAttempts 0 = Some 44%nat
  /\ snd (Loading.startLoadingProcess neverReadySlow) = Loading.TimedOut
  /\ Loading.pollCount (fst (Loading.startLoadingProcess neverReadySlow)) = 45%nat.
Proof.
  split; [repeat split|].
  split; [reflexivity|].
  pose proof (never_ready_backend_is_polled_at_most_60_times neverReadySlow
                eq_refl eq_refl (fun _ => eq_refl)) as H.
  destruct (Loading.startLoadingProcess neverReadySlow) as [events final].
  destruct H as (_ & _ & _ & _ & H).
  change (Loading.firstTimedOutPoll neverReadySlow Loading.maxAttempts 0)
    with (Some 44%nat) in H.
  destruct H as (Hfinal & Hpolls & _). split; assumption.
Defined.

(** ** The query function *)

Section QueryFunctionFacts.
Import Js QueryFunction.

Lemma acceptedQuery_rejects (query : JsVal) :
  missingOrEmpty query -> acceptedQuery query = None.
Proof.
  intros [-> | [(v & -> & Hv) | (s & -> & Hs)]].
  - reflexivity.
  - unfold acceptedQuery. destruct (negb (truthy (Some v))); [reflexivity|].
    destruct v; try reflexivity. now destruct (Hv s).
  - unfold acceptedQuery. destruct (negb (truthy (Some (JStr s)))); [reflexivity|].
    now rewrite Hs.
Qed.

Lemma acceptedQuery_accepts (s : string) :
  trim s <> "" -> acceptedQuery (Some (JStr s)) = Some s.
Proof.
  intros Hs. unfold acceptedQuery.
  assert (nonEmpty s = true) as Hne by (destruct s; [now destruct Hs | reflexivity]).
  simpl. rewrite Hne. simpl.
  destruct (String.eqb (trim s) "") eqn:E; [|reflexivity].
  apply String.eqb_eq in E. contradiction.
Qed.

Lemma availableKey_none (header envKey : option string) :
  noKey header -> noKey envKey -> availableKey header envKey = None.
Proof. intros [-> | ->] [-> | ->]; reflexivity. Qed.

(** C7 (as amended): for a POST whose body is absent or parses to a value
    other than [null] (so that its [query] field can be read), a [query]
    field that is missing, not a string or empty after trimming gets
    status 400; a valid query without a key in the
    [x-groq-api-key] header or in [GROQ_API_KEY] gets 401; and a valid
    query with a key that is not answered from the cache, when the LLM API
    replies with status 429, gets 429.  In none of the three is the body a
    success body; in the first two no call is made to the LLM API.  A POST
    whose body is not JSON, or is the JSON text [null], has no [query]
    field either, and gets status 500 instead of 400: reading the field
    throws, and the [catch] block answers; there too the body is no
    success body and no call is made. *)
Theorem query_function_error_statuses (env : Env) (responseCache : ResponseCache)
  (event : Event) (clock : Clock) (groq : GroqOutcome) :
  httpMethod event = "POST" ->
  let run := handler env responseCache event clock groq in
  (forall query,
      requestQuery (body event) = Normal query -> missingOrEmpty query ->
      statusCode (result run) = 400
      /\ isSuccessBody (resultBody (result run)) = false
      /\ groqCalls run = [])
  /\ (forall text,
      requestQuery (body event) = Normal (Some (JStr text)) -> trim text <> "" ->
      noKey (headers event !! "x-groq-api-key") -> noKey (GROQ_API_KEY env) ->
      statusCode (result run) = 401
      /\ isSuccessBody (resultBody (result run)) = false
      /\ groqCalls run = [])
  /\ (forall text apiKey upstreamBody,
      requestQuery (body event) = Normal (Some (JStr text)) -> trim text <> "" ->
      availableKey (headers event !! "x-groq-api-key") (GROQ_API_KEY env) = Some apiKey ->
      freshEntry responseCache (getCacheKey text) (atCacheCheck clock) = None ->
      groq = GroqReply 429 upstreamBody ->
      statusCode (result run) = 429
      /\ isSuccessBody (resultBody (result run)) = false
      /\ cacheAfter run = responseCache)
  /\ (body event = MalformedBody \/ body event = ParsedBody JNull ->
      (exists e, requestQuery (body event) = Throw e)
      /\ statusCode (result run) = 500
      /\ isSuccessBody (resultBody (result run)) = false
      /\ groqCalls run = []).
Proof.
  intros Hpost run. subst run. unfold handler. rewrite Hpost. simpl.
  split; [|split; [|split]].
  - intros query Hquery Hbad.
    rewrite Hquery, (acceptedQuery_rejects _ Hbad). repeat split.
  - intros text Hquery Hvalid Hheader Henv.
    rewrite Hquery, (acceptedQuery_accepts _ Hvalid), (availableKey_none _ _ Hheader Henv).
    repeat split.
  - intros text apiKey upstreamBody Hquery Hvalid Hkey Hmiss ->.
    rewrite Hquery, (acceptedQuery_accepts _ Hvalid), Hkey, Hmiss. repeat split.
  - intros [-> | ->]; simpl; (split; [eexists; reflexivity|]); repeat split.
Qed.

(** A valid POST with a key whose cache key has a fresh entry is answered
    from the cache. *)
Lemma handler_cache_hit (env : Env) (responseCache : ResponseCache)
  (event : Event) (clock : Clock) (groq : GroqOutcome)
  (text apiKey : string) (cached : CacheEntry) :
  httpMethod event = "POST" ->
  requestQuery (body event) = Normal (Some (JStr text)) ->
  trim text <> "" ->
  availableKey (headers event !! "x-groq-api-key") (GROQ_API_KEY env) = Some apiKey ->
  freshEntry responseCache (getCacheKey text) (atCacheCheck clock) = Some cached ->
  handler env responseCache event clock groq
  = {| result := {| statusCode := 200;
                    resultBody := SuccessBody (response cached) true
                                    (SecondsLiteral 0) None |};
       cacheAfter := responseCache;
       groqCalls := [] |}.
Proof.
  intros Hpost Hquery Hvalid Hkey Hfresh.
  unfold handler. rewrite Hpost. simpl.
  now rewrite Hquery, (acceptedQuery_accepts _ Hvalid), Hkey, Hfresh.
Qed.

Lemma cache_get_set (key : string) (v : CacheEntry) (m : ResponseCache) :
  cache_get key (cache_set key v m) = Some v.
Proof.
  induction m as [|[k w] m IH]; simpl.
  - now rewrite String.eqb_refl.
  - destruct (String.eqb k key) eqn:E; simpl; rewrite E; [reflexivity | exact IH].
Qed.

Lemma cache_set_length (key : string) (v : CacheEntry) (m : ResponseCache) :
  length (cache_set key v m)
  = match cache_get key m with Some _ => length m | None => S (length m) end.
Proof.
  induction m as [|[k w] m IH]; simpl; [reflexivity|].
  destruct (String.eqb k key); simpl; [reflexivity|].
  rewrite IH. now destruct (cache_get key m).
Qed.

(** The cleanup never removes the entry that was just stored, as long as
    the cache was within its bound of 100 entries before. *)
Lemma stored_entry_survives_cleanup (key : string) (v : CacheEntry) (m : ResponseCache) :
  (length m <= 100)%nat ->
  cache_get key (cache_cleanup (cache_set key v m)) = Some v.
Proof.
  intros Hlen. unfold cache_cleanup.
  destruct (100 <? length (cache_set key v m))%nat eqn:Hbig; [|apply cache_get_set].
  apply Nat.ltb_lt in Hbig. rewrite cache_set_length in Hbig.
  destruct (cache_get key m) eqn:Hget; [lia|].
  destruct m as [|[k w] m]; [simpl in Hbig; lia|].
  simpl in Hget |- *. destruct (String.eqb k key) eqn:E; [discriminate|].
  simpl. rewrite String.eqb_refl. apply cache_get_set.
Qed.

(** An answer the function has just stored for one text is served to an
    equivalent text for the next hour. *)
Lemma stored_answer_is_served (env : Env) (responseCache : ResponseCache)
  (event1 event2 : Event) (clock1 clock2 : Clock) (groq1 groq2 : GroqOutcome)
  (q1 q2 key1 key2 : string) (apiResponse assistantMessage : JsonValue) :
  (length responseCache <= 100)%nat ->
  httpMethod event1 = "POST" ->
  requestQuery (body event1) = Normal (Some (JStr q1)) -> trim q1 <> "" ->
  availableKey (headers event1 !! "x-groq-api-key") (GROQ_API_KEY env) = Some key1 ->
  freshEntry responseCache (getCacheKey q1) (atCacheCheck clock1) = None ->
  callGroqAPI groq1 = Normal apiResponse ->
  assistantMessageOf apiResponse = Normal assistantMessage ->
  httpMethod event2 = "POST" ->
  requestQuery (body event2) = Normal (Some (JStr q2)) -> trim q2 <> "" ->
  availableKey (headers event2 !! "x-groq-api-key") (GROQ_API_KEY env) = Some key2 ->
  trim (toLowerCase q1) = trim (toLowerCase q2) ->
  atCacheCheck clock2 - atCacheStore clock1 < CACHE_TTL ->
  let first := handler env responseCache event1 clock1 groq1 in
  let second := handler env (cacheAfter first) event2 clock2 groq2 in
  groqCalls first = [(key1, q1)]
  /\ result second = {| statusCode := 200;
                        resultBody := SuccessBody assistantMessage true
                                        (SecondsLiteral 0) None |}
  /\ groqCalls second = [].
Proof.
  intros Hlen Hpost1 Hq1 Hv1 Hk1 Hmiss Hgroq Hmsg Hpost2 Hq2 Hv2 Hk2 Hnorm Hyoung
    first second.
  assert (Hfirst : first
    = {| result := {| statusCode := 200;
                      resultBody := SuccessBody assistantMessage false
                        (SecondsOfMillis (atCallEnd clock1 - atCallStart clock1))
                        (Some (GROQ_MODEL env)) |};
         cacheAfter := cache_cleanup
                         (cache_set (getCacheKey q1)
                            {| response := assistantMessage;
                               timestamp := atCacheStore clock1 |} responseCache);
         groqCalls := [(key1, q1)] |}).
  { unfold first, handler. rewrite Hpost1. simpl.
    now rewrite Hq1, (acceptedQuery_accepts _ Hv1), Hk1, Hmiss, Hgroq, Hmsg. }
  assert (Hsame : getCacheKey q1 = getCacheKey q2).
  { unfold getCacheKey. cbv zeta. now rewrite Hnorm. }
  split; [now rewrite Hfirst|].
  unfold second.
  rewrite (handler_cache_hit env (cacheAfter first) event2 clock2 groq2 q2 key2
             {| response := assistantMessage; timestamp := atCacheStore clock1 |}
             Hpost2 Hq2 Hv2 Hk2).
  - split; reflexivity.
  - rewrite Hfirst. simpl. unfold freshEntry.
    rewrite <- Hsame, stored_entry_survives_cleanup by exact Hlen. simpl.
    apply Z.ltb_lt in Hyoung. now rewrite Hyoung.
Qed.

(** C10: two query texts that are equal after [toLowerCase()] and [trim()]
    have the same cache key.  So when the cache holds an entry under the
    key of one of them that is younger than [CACHE_TTL] (one hour), a POST
    with the other (a valid query, with a key available) is answered with
    status 200 and the stored response, [cached: true] and
    [response_time: 0], without a call to the LLM API and without a change
    of the cache. *)
Theorem equivalent_queries_share_the_cache (env : Env) (responseCache : ResponseCache)
  (event : Event) (clock : Clock) (groq : GroqOutcome)
  (q1 q2 apiKey : string) (cached : CacheEntry) :
  trim (toLowerCase q1) = trim (toLowerCase q2) ->
  cache_get (getCacheKey q1) responseCache = Some cached ->
  atCacheCheck clock - timestamp cached < CACHE_TTL ->
  httpMethod event = "POST" ->
  requestQuery (body event) = Normal (Some (JStr q2)) ->
  trim q2 <> "" ->
  availableKey (headers event !! "x-groq-api-key") (GROQ_API_KEY env) = Some apiKey ->
  CACHE_TTL = 3600000
  /\ getCacheKey q1 = getCacheKey q2
  /\ handler env responseCache event clock groq
     = {| result := {| statusCode := 200;
                       resultBody := SuccessBody (response cached) true
                                       (SecondsLiteral 0) None |};
          cacheAfter := responseCache;
          groqCalls := [] |}.
Proof.
  intros Hnorm Hget Hyoung Hpost Hquery Hvalid Hkey.
  assert (Hsame : getCacheKey q1 = getCacheKey q2).
  { unfold getCacheKey. cbv zeta. now rewrite Hnorm. }
  split; [reflexivity|]. split; [exact Hsame|].
  apply (handler_cache_hit env responseCache event clock groq q2 apiKey cached
           Hpost Hquery Hvalid Hkey).
  unfold freshEntry. rewrite <- Hsame, Hget.
  apply Z.ltb_lt in Hyoung. now rewrite Hyoung.
Qed.

End QueryFunctionFacts.

Lemma query_function_error_statuses_witness :
  (QueryFunction.httpMethod emptyEvent = "POST"
   /\ QueryFunction.requestQuery (QueryFunction.body emptyEvent) = Js.Normal None
   /\ QueryFunction.missingOrEmpty None
   /\ QueryFunction.statusCode
        (QueryFunction.result
           (QueryFunction.handler withServerKey [] emptyEvent tenMinutesLater
              (QueryFunction.GroqReply 429 None))) = 400)
  /\ (QueryFunction.noKey (QueryFunction.headers (queryEvent "What is VCET?") !! "x-groq-api-key")
      /\ QueryFunction.noKey (QueryFunction.GROQ_API_KEY withoutKey)
      /\ QueryFunction.statusCode
           (QueryFunction.result
              (QueryFunction.handler withoutKey [] (queryEvent "What is VCET?")
                 tenMinutesLater (QueryFunction.GroqReply 429 None))) = 401)
  /\ (QueryFunction.freshEntry [] (QueryFunction.getCacheKey "What is VCET?")
        (QueryFunction.atCacheCheck tenMinutesLater) = None
      /\ QueryFunction.statusCode
           (QueryFunction.result
              (QueryFunction.handler withServerKey [] (queryEvent "What is VCET?")
                 tenMinutesLater (QueryFunction.GroqReply 429 None))) = 429).
Proof.
  assert (Hmissing : QueryFunction.missingOrEmpty None) by (left; reflexivity).
  assert (Hnone : QueryFunction.noKey None) by (left; reflexivity).
  split; [|split].
  - split; [reflexivity|]. split; [reflexivity|]. split; [exact Hmissing|].
    destruct (query_function_error_statuses withServerKey [] emptyEvent tenMinutesLater
                (QueryFunction.GroqReply 429 None) eq_refl) as (H400 & _ & _ & _).
    now destruct (H400 None eq_refl Hmissing).
  - split; [exact Hnone|]. split; [exact Hnone|].
    destruct (query_function_error_statuses withoutKey [] (queryEvent "What is VCET?")
                tenMinutesLater (QueryFunction.GroqReply 429 None) eq_refl)
      as (_ & H401 & _ & _).
    now destruct (H401 "What is VCET?" eq_refl ltac:(discriminate) Hnone Hnone).
  - split; [reflexivity|].
    destruct (query_function_error_statuses withServerKey [] (queryEvent "What is VCET?")
                tenMinutesLater (QueryFunction.GroqReply 429 None) eq_refl)
      as (_ & _ & H429 & _).
    now destruct (H429 "What is VCET?" "gsk_server" None eq_refl ltac:(discriminate)
                    eq_refl eq_refl eq_refl).
Defined.

(** C7 (fails as stated): two POSTs without a [query] field that are not
    answered with 400.  One has a body that is not JSON, the other the body
    [null]; both end in the [catch] block and get status 500. *)
Lemma unreadable_post_gets_500_not_400 :
  QueryFunction.httpMethod malformedEvent = "POST"
  /\ QueryFunction.httpMethod nullEvent = "POST"
  /\ Js.throws (QueryFunction.requestQuery (QueryFunction.body malformedEvent)) = true
  /\ Js.throws (QueryFunction.requestQuery (QueryFunction.body nullEvent)) = true
  /\ QueryFunction.statusCode
       (QueryFunction.result
          (QueryFunction.handler withServerKey [] malformedEvent tenMinutesLater
             (QueryFunction.GroqReply 429 None))) = 500
  /\ QueryFunction.statusCode
       (QueryFunction.result
          (QueryFunction.handler withServerKey [] nullEvent tenMinutesLater
             (QueryFunction.GroqReply 429 None))) = 500.
Proof. repeat split. Qed.

Lemma equivalent_queries_share_the_cache_witness :
  (Js.trim (Js.toLowerCase "What is VCET?") = Js.trim (Js.toLowerCase "  what is vcet?  ")
   /\ QueryFunction.cache_get (QueryFunction.getCacheKey "What is VCET?") oneAnswerCached
      = Some {| QueryFunction.response := Js.JStr "VCET is an engineering college.";
                QueryFunction.timestamp := 1000000 |}
   /\ QueryFunction.atCacheCheck tenMinutesLater - 1000000 < QueryFunction.CACHE_TTL)
  /\ QueryFunction.handler withServerKey oneAnswerCached (queryEvent "  what is vcet?  ")
       tenMinutesLater (QueryFunction.GroqFailure failedToFetch)
     = {| QueryFunction.result :=
            {| QueryFunction.statusCode := 200;
               QueryFunction.resultBody :=
                 QueryFunction.SuccessBody (Js.JStr "VCET is an engineering college.") true
                   (QueryFunction.SecondsLiteral 0) None |};
          QueryFunction.cacheAfter := oneAnswerCached;
          QueryFunction.groqCalls := [] |}.
Proof.
  split; [repeat split|].
  apply (equivalent_queries_share_the_cache withServerKey oneAnswerCached
           (queryEvent "  what is vcet?  ") tenMinutesLater
           (QueryFunction.GroqFailure failedToFetch)
           "What is VCET?" "  what is vcet?  " "gsk_server"
           {| QueryFunction.response := Js.JStr "VCET is an engineering college.";
              QueryFunction.timestamp := 1000000 |});
    try reflexivity.
  discriminate.
Defined.

(* ===================================================================== *)
(** * Further properties *)
(* ===================================================================== *)

(** ** The key-value store adapter: what the operations do to the store *)

Section StorageRoundTrips.
Import Js Browser.
Context {V : Type}.
Variable JSON_stringify : V -> Completion string.
Variable JSON_parse : string -> Completion V.

Abbreviation set := (StorageService.set JSON_stringify).
Abbreviation get := (StorageService.get JSON_parse).

(** X1: On a working store, a value whose text parses back to it is read back
    by [get] after [set], and the other keys read as before. *)
Theorem set_then_get (this : StorageService.t) (ls : LocalStorage)
  (key : string) (value defaultValue : V) (text : string) :
  StorageService.isAvailable this = true ->
  accessDenied ls = false ->
  quotaExceeded ls = false ->
  JSON_stringify value = Normal text ->
  JSON_parse text = Normal value ->
  let ls' := snd (set this ls key value) in
  fst (set this ls key value) = Normal true
  /\ get this ls' key defaultValue = Normal value
  /\ forall other, other <> key ->
       get this ls' other defaultValue = get this ls other defaultValue.
Proof.
  intros Hav Hacc Hquota Hs Hp ls'. subst ls'.
  unfold StorageService.set, StorageService.get, setItem, getItem.
  rewrite Hav, Hs, Hacc, Hquota. simpl. rewrite Hacc.
  rewrite lookup_insert_eq, Hp. repeat split.
  intros other Hother. now rewrite lookup_insert_ne by congruence.
Qed.

End StorageRoundTrips.

(** X2: A raw string written on a working store is read back unless it is
    empty: the empty string is stored ([has] answers [true]) but [getRaw]
    gives the default for it. *)
Theorem setRaw_then_getRaw (this : StorageService.t) (ls : Browser.LocalStorage)
  (key value defaultValue : string) :
  StorageService.isAvailable this = true ->
  Browser.accessDenied ls = false ->
  Browser.quotaExceeded ls = false ->
  let ls' := snd (StorageService.setRaw this ls key value) in
  StorageService.getRaw this ls' key defaultValue
    = Js.Normal (if Js.nonEmpty value then value else defaultValue)
  /\ StorageService.has this ls' key = Js.Normal true.
Proof.
  intros Hav Hacc Hquota ls'. subst ls'.
  unfold StorageService.setRaw, StorageService.getRaw, StorageService.has,
    Browser.setItem, Browser.getItem.
  rewrite Hav, Hacc, Hquota. simpl. rewrite Hacc, lookup_insert_eq. split; reflexivity.
Qed.

(** X3: On a working store [remove] deletes its key and no other, and [clear]
    deletes every key. *)
Theorem remove_and_clear_delete (this : StorageService.t) (ls : Browser.LocalStorage)
  (key : string) :
  StorageService.isAvailable this = true ->
  Browser.accessDenied ls = false ->
  let removed := snd (StorageService.remove this ls key) in
  let cleared := snd (StorageService.clear this ls) in
  StorageService.has this removed key = Js.Normal false
  /\ (forall other, other <> key ->
        StorageService.has this removed other = StorageService.has this ls other)
  /\ (forall any, StorageService.has this cleared any = Js.Normal false)
  /\ StorageService.getApiKey this cleared = Js.Normal None.
Proof.
  intros Hav Hacc removed cleared. subst removed cleared.
  unfold StorageService.remove, StorageService.clear, StorageService.has,
    StorageService.getApiKey, StorageService.getRaw,
    Browser.removeItem, Browser.clearItems, Browser.getItem.
  rewrite Hav, Hacc. simpl. rewrite Hacc.
  rewrite lookup_delete_eq. repeat split.
  intros other Hother. now rewrite lookup_delete_ne by congruence.
Qed.

(** X4: The constructor finds the store available exactly when it can be
    accessed and written.  Probing leaves every key but the probe key as
    it was; on an available store the probe key itself is gone afterwards,
    also when it was there before. *)
Theorem availability_is_detected (ls : Browser.LocalStorage) :
  let '(this, ls') := StorageService.new ls in
  StorageService.isAvailable this
    = negb (Browser.accessDenied ls || Browser.quotaExceeded ls)
  /\ (forall key, key <> "__storage_test__" ->
        Browser.items ls' !! key = Browser.items ls !! key)
  /\ (if StorageService.isAvailable this
      then Browser.items ls' !! "__storage_test__" = None
      else ls' = ls).
Proof.
  unfold StorageService.new, StorageService.checkAvailability,
    Browser.setItem, Browser.removeItem.
  destruct (Browser.accessDenied ls) eqn:Hacc; simpl; [repeat split|].
  destruct (Browser.quotaExceeded ls) eqn:Hquota; simpl; [repeat split|].
  rewrite Hacc. simpl. repeat split.
  - intros key Hkey. now rewrite lookup_delete_ne, lookup_insert_ne by congruence.
  - apply lookup_delete_eq.
Qed.

Lemma set_then_get_witness :
  (StorageService.isAvailable liveService = true
   /\ Browser.accessDenied usedStore = false
   /\ Browser.quotaExceeded usedStore = false
   /\ plainStringify "[1,2]" = Js.Normal "[1,2]"
   /\ plainParse "[1,2]" = Js.Normal "[1,2]")
  /\ StorageService.get plainParse liveService
       (snd (StorageService.set plainStringify liveService usedStore "chatHistory" "[1,2]"))
       "chatHistory" "[]" = Js.Normal "[1,2]".
Proof.
  split; [repeat split|].
  apply (set_then_get plainStringify plainParse liveService usedStore
           "chatHistory" "[1,2]" "[]" "[1,2]"); reflexivity.
Defined.

Lemma setRaw_then_getRaw_witness :
  (StorageService.isAvailable liveService = true
   /\ Browser.accessDenied usedStore = false
   /\ Browser.quotaExceeded usedStore = false)
  /\ StorageService.getRaw liveService
       (snd (StorageService.setRaw liveService usedStore "theme" "")) "theme" "light"
     = Js.Normal "light"
  /\ StorageService.has liveService
       (snd (StorageService.setRaw liveService usedStore "theme" "")) "theme"
     = Js.Normal true.
Proof.
  split; [repeat split|].
  apply (setRaw_then_getRaw liveService usedStore "theme" "" "light"); reflexivity.
Defined.

Lemma remove_and_clear_delete_witness :
  (StorageService.isAvailable liveService = true
   /\ Browser.accessDenied usedStore = false)
  /\ StorageService.has liveService
       (snd (StorageService.remove liveService usedStore "theme")) "theme"
     = Js.Normal false.
Proof.
  split; [repeat split|].
  now destruct (remove_and_clear_delete liveService usedStore "theme" eq_refl eq_refl).
Defined.

(** ** The HTTP client: headers, outcomes, the timer *)

Section ApiServiceFacts.
Import Js Browser ApiService.

(** X5: On a readable store the headers of a request are the caller's, plus
    the JSON content type unless the caller set one, plus the saved API
    key under [X-Groq-Api-Key] whenever a non-empty key is saved; the saved
    key replaces a header of that name given by the caller. *)
Theorem buildHeaders_attaches_the_saved_key (ls : LocalStorage)
  (additionalHeaders : gmap string string) :
  accessDenied ls = false ->
  exists headers,
    buildHeaders ls additionalHeaders = Normal headers
    /\ headers !! "Content-Type"
       = Some (default "application/json" (additionalHeaders !! "Content-Type"))
    /\ headers !! "X-Groq-Api-Key"
       = match items ls !! STORAGE_KEYS_apiKey with
         | Some apiKey =>
             if nonEmpty apiKey then Some apiKey
             else additionalHeaders !! "X-Groq-Api-Key"
         | None => additionalHeaders !! "X-Groq-Api-Key"
         end
    /\ forall name, name <> "Content-Type" -> name <> "X-Groq-Api-Key" ->
         headers !! name = additionalHeaders !! name.
Proof.
  intros Hacc. unfold buildHeaders, getApiKey, getItem. rewrite Hacc.
  assert (Hct : (additionalHeaders ∪ {["Content-Type" := "application/json"]})
                  !! "Content-Type"
                = Some (default "application/json" (additionalHeaders !! "Content-Type"))).
  { rewrite lookup_union, lookup_singleton_eq.
    now destruct (additionalHeaders !! "Content-Type"). }
  assert (Hother : forall name, name <> "Content-Type" ->
            (additionalHeaders ∪ {["Content-Type" := "application/json"]}) !! name
            = additionalHeaders !! name).
  { intros name Hname. rewrite lookup_union, lookup_singleton_ne by congruence.
    now destruct (additionalHeaders !! name). }
  destruct (items ls !! STORAGE_KEYS_apiKey) as [apiKey|].
  - destruct (nonEmpty apiKey); eexists; (split; [reflexivity|]).
    + rewrite lookup_insert_ne by discriminate. rewrite lookup_insert_eq.
      split; [exact Hct|]. split; [reflexivity|].
      intros name H1 H2. rewrite lookup_insert_ne by congruence. now apply Hother.
    + split; [exact Hct|]. split; [now apply Hother|].
      intros name H1 _. now apply Hother.
  - eexists. split; [reflexivity|].
    split; [exact Hct|]. split; [now apply Hother|].
    intros name H1 _. now apply Hother.
Qed.

(** X6: A call is fulfilled with a value exactly when the store could be read,
    the response arrived before the timer fired, its status is 2xx and its
    body parsed to that value. *)
Theorem request_is_fulfilled_only_by_a_2xx_answer (this : t) (ls : LocalStorage)
  (endpoint : string) (options : RequestInit) (net : FetchBehaviour) (v : JsonValue) :
  snd (request this ls endpoint options net) = Fulfilled v
  <-> (accessDenied ls = false
       /\ exists after_ms st,
            net = Responds after_ms {| respStatus := st; respBody := BodyJson v |}
            /\ after_ms < timeout this
            /\ 200 <= st <= 299).
Proof.
  unfold request.
  destruct (accessDenied ls) eqn:Hacc.
  { assert (buildHeaders ls (reqHeaders options) = Throw SecurityError) as ->
      by (unfold buildHeaders, getApiKey, getItem; now rewrite Hacc).
    simpl. split; [discriminate | intros [? _]; discriminate]. }
  destruct (buildHeaders_working ls (reqHeaders options) Hacc) as [headers ->].
  split.
  - intros H. split; [reflexivity|].
    destruct net as [after_ms [st body]|after_ms e|]; simpl in H.
    + destruct (after_ms <? timeout this) eqn:Ht; [|discriminate].
      unfold ok in H. simpl in H.
      destruct ((200 <=? st) && (st <=? 299)) eqn:Hok; simpl in H.
      * destruct body as [w| |]; simpl in H; try discriminate.
        injection H as ->. exists after_ms, st. repeat split; lia.
      * unfold request_notOk, request_catch in H. simpl in H.
        destruct body as [w| |]; simpl in H; try discriminate.
        destruct w; simpl in H; discriminate.
    + destruct (after_ms <? timeout this); simpl in H; [|discriminate].
      unfold request_catch in H. simpl in H.
      destruct (String.eqb (name e) "AbortError"); discriminate.
    + discriminate.
  - intros (_ & after_ms & st & -> & Hlt & Hst). simpl.
    apply Z.ltb_lt in Hlt. rewrite Hlt. unfold ok. simpl.
    replace ((200 <=? st) && (st <=? 299)) with true by (symmetry; lia).
    reflexivity.
Qed.

(** X7: A response with a status outside 2xx that arrives in time rejects the
    call with an [Error] that carries that status; its message is the
    body's [message] when the body is an object with a truthy one, and
    [HTTP <status>] otherwise (also when the body is not JSON). *)
Theorem request_rejects_an_http_error_with_its_status (this : t) (ls : LocalStorage)
  (endpoint : string) (options : RequestInit) (after_ms st : Z) (body : BodyRead) :
  accessDenied ls = false ->
  after_ms < timeout this ->
  ~ (200 <= st <= 299) ->
  body <> BodyStalls ->
  body <> BodyJson JNull ->
  exists e,
    snd (request this ls endpoint options
           (Responds after_ms {| respStatus := st; respBody := body |})) = Rejected e
    /\ name e = "Error"
    /\ status e = Some st
    /\ message e
       = match body with
         | BodyJson (JObj fields) =>
             match lookupField "message" fields with
             | Some m => if truthy (Some m) then messageOf m else HttpStatusLine st
             | None => HttpStatusLine st
             end
         | _ => HttpStatusLine st
         end.
Proof.
  intros Hacc Hlt Hst Hstall Hnull.
  unfold request.
  destruct (buildHeaders_working ls (reqHeaders options) Hacc) as [headers ->].
  simpl. apply Z.ltb_lt in Hlt. rewrite Hlt. unfold ok. simpl.
  replace ((200 <=? st) && (st <=? 299)) with false by (symmetry; lia).
  unfold request_notOk, request_catch. simpl.
  destruct body as [w| |]; try congruence; simpl.
  - destruct w; try congruence; simpl; try (eexists; repeat split).
    destruct (lookupField "message" fields) as [m|]; simpl;
      [destruct (truthy (Some m))|]; eexists; repeat split.
  - eexists. repeat split.
Qed.

(** X8: The timer of a call: whenever the promise settles, the last thing the
    call did was to clear the timer; the fetch is aborted exactly when the
    request was sent and had not settled when the timer fired; and the
    promise stays pending only when a response head arrived in time and
    its body never does. *)
Theorem request_leaves_no_timer_armed (this : t) (ls : LocalStorage)
  (endpoint : string) (options : RequestInit) (net : FetchBehaviour) :
  let '(effects, promise) := request this ls endpoint options net in
  (promise <> Pending -> last effects = Some ClearTimeout)
  /\ (In Abort effects
      <-> accessDenied ls = false /\ settlesBefore net (timeout this) = false)
  /\ (promise = Pending
      -> exists after_ms st,
           net = Responds after_ms {| respStatus := st; respBody := BodyStalls |}
           /\ after_ms < timeout this).
Proof.
  unfold request.
  destruct (accessDenied ls) eqn:Hacc.
  { assert (buildHeaders ls (reqHeaders options) = Throw SecurityError) as ->
      by (unfold buildHeaders, getApiKey, getItem; now rewrite Hacc).
    simpl. intuition (try discriminate; try congruence). }
  destruct (buildHeaders_working ls (reqHeaders options) Hacc) as [headers ->].
  destruct net as [after_ms [st body]|after_ms e|]; simpl.
  - destruct (after_ms <? timeout this) eqn:Ht.
    + apply Z.ltb_lt in Ht. unfold ok. simpl.
      destruct ((200 <=? st) && (st <=? 299)); simpl.
      * destruct body as [w| |]; simpl;
          intuition (try discriminate; try congruence; eauto).
      * unfold request_notOk, request_catch.
        destruct body as [w| |]; simpl; [destruct w; simpl| |];
          intuition (try discriminate; try congruence; eauto).
    + simpl. intuition (try discriminate; try congruence).
  - destruct (after_ms <? timeout this) eqn:Ht; simpl.
    + unfold request_catch. destruct (String.eqb (name e) "AbortError"); simpl;
        intuition (try discriminate; try congruence).
    + intuition (try discriminate; try congruence).
  - intuition (try discriminate; try congruence).
Qed.

End ApiServiceFacts.

Lemma buildHeaders_attaches_the_saved_key_witness :
  Browser.accessDenied usedStore = false
  /\ exists headers,
       ApiService.buildHeaders usedStore {[ "X-Groq-Api-Key" := "gsk_callers" ]}
       = Js.Normal headers
       /\ headers !! "X-Groq-Api-Key" = Some "gsk_old".
Proof.
  split; [reflexivity|].
  destruct (buildHeaders_attaches_the_saved_key usedStore
              {[ "X-Groq-Api-Key" := "gsk_callers" ]} eq_refl)
    as (headers & Hb & _ & Hkey & _).
  exists headers. split; [exact Hb | exact Hkey].
Defined.

Lemma request_is_fulfilled_only_by_a_2xx_answer_witness :
  snd (ApiService.get localApi usedStore ApiService.endpoint_health healthyAnswer)
  = ApiService.Fulfilled (Js.JObj [("status", Js.JStr "healthy");
                                   ("rag_initialized", Js.JBool true)]).
Proof.
  apply (proj2 (request_is_fulfilled_only_by_a_2xx_answer localApi usedStore
                  ApiService.endpoint_health _ healthyAnswer _)).
  split; [reflexivity|]. exists 80, 200. repeat split; lia.
Defined.

Lemma request_rejects_an_http_error_with_its_status_witness :
  (Browser.accessDenied usedStore = false
   /\ 120 < ApiService.timeout localApi
   /\ ~ (200 <= 503 <= 299))
  /\ exists e,
       snd (ApiService.get localApi usedStore ApiService.endpoint_stats warmingUp)
       = ApiService.Rejected e
       /\ Js.status e = Some 503
       /\ Js.message e = Js.Text "Backend warming up".
Proof.
  split; [repeat split; try reflexivity; lia|].
  destruct (request_rejects_an_http_error_with_its_status localApi usedStore
              ApiService.endpoint_stats
              {| ApiService.method := Some "GET"; ApiService.reqBody := None;
                 ApiService.reqHeaders := ∅ |}
              120 503
              (ApiService.BodyJson (Js.JObj [("message", Js.JStr "Backend warming up")]))
              eq_refl eq_refl ltac:(lia) ltac:(discriminate) ltac:(discriminate))
    as (e & Hrun & _ & Hstatus & Hmessage).
  exists e. split; [exact Hrun|]. split; [exact Hstatus | exact Hmessage].
Defined.

Lemma request_leaves_no_timer_armed_witness :
  Browser.accessDenied usedStore = false
  /\ ApiService.settlesBefore slowAnswer (ApiService.timeout localApi) = false
  /\ In ApiService.Abort
       (fst (ApiService.get localApi usedStore ApiService.endpoint_health slowAnswer)).
Proof.
  split; [reflexivity|]. split; [reflexivity|].
  pose proof (request_leaves_no_timer_armed localApi usedStore ApiService.endpoint_health
                {| ApiService.method := Some "GET"; ApiService.reqBody := None;
                   ApiService.reqHeaders := ∅ |} slowAnswer) as H.
  unfold ApiService.get.
  destruct (ApiService.request localApi usedStore ApiService.endpoint_health _ slowAnswer)
    as [effects promise].
  destruct H as (_ & Habort & _). apply Habort. split; reflexivity.
Defined.


(** ** The main script: one exchange, loading and clearing the history *)

(** unfolding the rest of the script *)
Tactic Notation "run_script_all" "in" hyp(H) :=
  cbv [Main.sendQuery Main.sendMessage Main.openSettingsModal Main.showToast
       Main.handleRateLimitExceeded Main.disableMessageInput Main.enableMessageInput
       Main.resetRateLimitState Main.dismissRateLimitPopup Main.updateCharCount
       Main.updateApiUsageDisplay Main.fetch Main.response_json
       Main.saveChatHistory Main.saveApiKey Main.showApiKeyValidation
       Main.loadChatHistory Main.clearChat Main.clearApiKey Main.addMessage
       Main.ls_getItem Main.ls_setItem Main.ls_removeItem
       Main.read Main.update Main.effect Main.raise Main.pure
       mbind mret Eff.M_bind Eff.M_ret Eff.bind Eff.ret Eff.throw Eff.tryCatch Eff.finally
       Eff.gets Eff.modify Eff.emit Eff.lift Eff.when] in H.

Ltac run_script_all :=
  cbv [Main.sendQuery Main.sendMessage Main.openSettingsModal Main.showToast
       Main.handleRateLimitExceeded Main.disableMessageInput Main.enableMessageInput
       Main.resetRateLimitState Main.dismissRateLimitPopup Main.updateCharCount
       Main.updateApiUsageDisplay Main.fetch Main.response_json
       Main.saveChatHistory Main.saveApiKey Main.showApiKeyValidation
       Main.loadChatHistory Main.clearChat Main.clearApiKey Main.addMessage
       Main.ls_getItem Main.ls_setItem Main.ls_removeItem
       Main.read Main.update Main.effect Main.raise Main.pure
       mbind mret Eff.M_bind Eff.M_ret Eff.bind Eff.ret Eff.throw Eff.tryCatch Eff.finally
       Eff.gets Eff.modify Eff.emit Eff.lift Eff.when].

Section ExchangeFacts.
Import Js Browser Eff Main.
Variable JSON_stringify : list ChatEntry -> string.
Variable JSON_parse : string -> Completion (list ChatEntry).

Abbreviation sendMessage := (Main.sendMessage JSON_stringify).

(** X9: An exchange that succeeds.  From an idle, unblocked state with a
    non-blank input and a working store, a 2xx answer with an object body
    adds exactly two entries to the history (the trimmed input as the
    user's message, the answer's [response] as the bot's, in this order),
    empties the input, resets the failure counter, makes one request,
    stores the last 50 entries of the new history and leaves the script
    idle again. *)
Theorem sendMessage_success (s : AppState) (st : Z) (fields : list (string * JsonValue))
  (tUser tBot : string) :
  isProcessing s = false ->
  isRateLimited s = false ->
  trim (messageInput s) <> "" ->
  accessDenied (localStorage s) = false ->
  quotaExceeded (localStorage s) = false ->
  200 <= st <= 299 ->
  let r := sendMessage (HttpResponse st (Some (JObj fields))) tUser tBot s in
  let s' := stateOf r in
  chatHistory s'
  = chatHistory s
    ++ [ {| content := Some (JStr (trim (messageInput s))); sender := "user";
            timestamp := tUser; options := noOptions |};
         {| content := lookupField "response" fields; sender := "bot";
            timestamp := tBot;
            options := {| cached := lookupField "cached" fields;
                          responseTime := lookupField "response_time" fields;
                          isError := false |} |} ]
  /\ messageInput s' = ""
  /\ isProcessing s' = false
  /\ consecutiveFailures s' = 0%nat
  /\ isRateLimited s' = false
  /\ networkCalls (effectsOf r) = 1%nat
  /\ items (localStorage s') !! "chatHistory"
     = Some (JSON_stringify (Main.slice (-50) (chatHistory s'))).
Proof.
  intros Hidle Hopen Hmsg Hacc Hquota Hst r s'. subst s' r.
  apply nonEmpty_true_iff in Hmsg.
  assert (H429 : (st =? 429) = false) by lia.
  assert (Hok : Main.ok {| respStatus := st; respBody := Some (JObj fields) |} = true)
    by (unfold Main.ok; simpl; lia).
  run_script_all. rewrite Hmsg, Hidle. simpl. rewrite Hopen. simpl.
  unfold getItem, setItem. simpl. rewrite Hacc. simpl. rewrite H429, Hok. simpl.
  destruct (lookupField "remaining_requests" fields); simpl;
    rewrite Hacc, Hquota; simpl; rewrite lookup_insert_eq; repeat split;
    try assumption; now rewrite <- app_assoc.
Qed.

(** X10: An exchange that fails.  When the connection fails, the body does not
    parse or the status is outside 2xx, the user's message and an apology
    marked [isError] are added to the history in memory, but nothing is
    written to the store: the exchange is shown and not saved.  The input
    is emptied all the same and the script is idle again. *)
Theorem sendMessage_failure (s : AppState) (net : FetchOutcome) (tUser tBot : string) :
  isProcessing s = false ->
  isRateLimited s = false ->
  trim (messageInput s) <> "" ->
  accessDenied (localStorage s) = false ->
  (isHttpFailure net = true
   \/ (exists e, net = NetworkError e)
   \/ (exists st, net = HttpResponse st None)) ->
  let r := sendMessage net tUser tBot s in
  let s' := stateOf r in
  chatHistory s'
  = chatHistory s
    ++ [ {| content := Some (JStr (trim (messageInput s))); sender := "user";
            timestamp := tUser; options := noOptions |};
         {| content := Some (JStr "I apologize, but I encountered an error. Please try again.");
            sender := "bot"; timestamp := tBot;
            options := {| cached := None; responseTime := None; isError := true |} |} ]
  /\ localStorage s' = localStorage s
  /\ messageInput s' = ""
  /\ isProcessing s' = false
  /\ networkCalls (effectsOf r) = 1%nat.
Proof.
  intros Hidle Hopen Hmsg Hacc Hfail r s'. subst s' r.
  apply nonEmpty_true_iff in Hmsg.
  run_script_all. rewrite Hmsg, Hidle. simpl. rewrite Hopen. simpl.
  unfold getItem. simpl. rewrite Hacc. simpl.
  destruct Hfail as [Hhttp | [[e ->] | [st ->]]].
  - destruct net as [e|st [v|]]; try discriminate. simpl in Hhttp.
    apply negb_true_iff in Hhttp. simpl.
    destruct (st =? 429); simpl.
    + repeat split; now rewrite <- app_assoc.
    + rewrite Hhttp. simpl.
      destruct (consecutiveFailures s) as [|[|n]]; destruct v; simpl;
        repeat split; now rewrite <- app_assoc.
  - simpl. repeat split; now rewrite <- app_assoc.
  - simpl. repeat split; now rewrite <- app_assoc.
Qed.

(** X11: A 429 blocks the input only when its body is JSON: [response.json()]
    runs before the status is looked at, so a 429 with a body that does
    not parse (an HTML error page) rejects the query and changes nothing. *)
Theorem rate_limit_needs_a_json_body (s : AppState) (query : string) :
  accessDenied (localStorage s) = false ->
  (forall v, blocked (stateOf (Main.sendQuery query (HttpResponse 429 (Some v)) s)))
  /\ stateOf (Main.sendQuery query (HttpResponse 429 None) s) = s
  /\ throws (resultOf (Main.sendQuery query (HttpResponse 429 None) s)) = true.
Proof.
  intros Hacc. split; [|split].
  - intros v. now rewrite sendQuery_rate_limited.
  - now rewrite sendQuery_unparsable.
  - now rewrite sendQuery_unparsable.
Qed.

Lemma replay_run (now : string) (h : list ChatEntry) : forall s,
  fold_right
    (fun msg rest =>
       Main.addMessage (content msg) (sender msg) (options msg) now ;; rest)
    (Main.pure tt) h s
  = (Normal tt,
     set_chatHistory (chatHistory s ++ map (shownAgain now) h) s,
     map (fun msg => RenderMessage (content msg) (sender msg)) h).
Proof.
  induction h as [|msg h IH]; intros s.
  - simpl. rewrite app_nil_r. now destruct s.
  - cbn [fold_right map].
    unfold mbind at 1. unfold M_bind, bind.
    assert (Hadd : Main.addMessage (content msg) (sender msg) (options msg) now s
                   = (Normal tt,
                      set_chatHistory (chatHistory s ++ [shownAgain now msg]) s,
                      [RenderMessage (content msg) (sender msg)])) by reflexivity.
    rewrite Hadd, IH. simpl. now rewrite <- app_assoc.
Qed.

(** X12: Loading the history puts every stored message into memory twice: the
    parsed array becomes [chatHistory], and showing each of its entries
    pushes it once more.  When the stored text does not parse, the history
    in memory is left alone and the stored entry is removed. *)
Theorem loadChatHistory_doubles_the_history (s : AppState) (text now : string) :
  accessDenied (localStorage s) = false ->
  items (localStorage s) !! "chatHistory" = Some text ->
  text <> "" ->
  let s' := stateOf (Main.loadChatHistory JSON_parse now s) in
  match JSON_parse text with
  | Normal h =>
      chatHistory s' = h ++ map (shownAgain now) h
      /\ length (chatHistory s') = (2 * length h)%nat
      /\ localStorage s' = localStorage s
  | Throw _ =>
      chatHistory s' = chatHistory s
      /\ items (localStorage s') !! "chatHistory" = None
  end.
Proof.
  intros Hacc Hstored Htext s'. subst s'.
  apply nonEmpty_true_iff in Htext.
  destruct (JSON_parse text) as [h|e] eqn:Hparse.
  - pose proof (replay_run now h (set_chatHistory h s)) as Hreplay.
    run_script_all. run_script_all in Hreplay.
    unfold getItem. rewrite Hacc, Hstored, Htext, Hparse.
    rewrite Hreplay. simpl.
    rewrite length_app, length_map. repeat split. lia.
  - run_script_all. unfold getItem, removeItem.
    rewrite Hacc, Hstored, Htext, Hparse. simpl. rewrite Hacc. simpl.
    split; [reflexivity | apply lookup_delete_eq].
Qed.


(** X14: [saveApiKey] changes nothing unless the trimmed input starts with
    [gsk_] and the store takes the write: an ill-formed key, or a store
    that refuses, leaves the saved key and the blocked state as they
    were. *)
Theorem saveApiKey_needs_a_well_formed_key_and_a_working_store (s : AppState) :
  (startsWith (trim (apiKeyInput s)) "gsk_" = false
   \/ accessDenied (localStorage s) = true
   \/ quotaExceeded (localStorage s) = true) ->
  stateOf (Main.saveApiKey s) = s
  /\ resultOf (Main.saveApiKey s) = Normal tt.
Proof.
  intros Hbad. run_script_all.
  destruct (nonEmpty (trim (apiKeyInput s))) eqn:Hne; simpl; [|split; reflexivity].
  destruct (startsWith (trim (apiKeyInput s)) "gsk_") eqn:Hkey; simpl;
    [|split; reflexivity].
  unfold setItem.
  destruct Hbad as [Hbad | [Hbad | Hbad]]; [discriminate| |].
  - rewrite Hbad. simpl. split; reflexivity.
  - rewrite Hbad. destruct (accessDenied (localStorage s)); simpl; split; reflexivity.
Qed.

(** X15: The key the user saves goes out with the next query: after a
    successful [saveApiKey], the one request [sendQuery] makes carries the
    trimmed key in its [X-Groq-Api-Key] header, next to the JSON content
    type. *)
Theorem saved_key_goes_with_the_next_query (s : AppState) (query : string)
  (net : FetchOutcome) :
  startsWith (trim (apiKeyInput s)) "gsk_" = true ->
  accessDenied (localStorage s) = false ->
  quotaExceeded (localStorage s) = false ->
  List.filter isFetch (effectsOf (Main.sendQuery query net (stateOf (Main.saveApiKey s))))
  = [ Fetch endpoints_query "POST"
        (<[ "X-Groq-Api-Key" := trim (apiKeyInput s) ]>
           {[ "Content-Type" := "application/json" ]})
        (JObj [("query", JStr query)]) ].
Proof.
  intros Hkey Hacc Hquota.
  assert (Hne : nonEmpty (trim (apiKeyInput s)) = true).
  { destruct (trim (apiKeyInput s)); [discriminate | reflexivity]. }
  destruct (saveApiKey_clears s Hkey Hacc Hquota) as (_ & _ & Hsaved).
  assert (Hacc' : accessDenied (localStorage (stateOf (Main.saveApiKey s))) = false).
  { run_script_all. rewrite Hne, Hkey. simpl. unfold setItem.
    rewrite Hacc, Hquota. simpl. exact Hacc. }
  rewrite (sendQuery_one_request _ query net Hacc').
  unfold queryRequest, queryHeaders.
  change storageKeys_apiKey with "vcet_groq_api_key" in *.
  now rewrite Hsaved, Hne.
Qed.

End ExchangeFacts.

Lemma sendMessage_success_witness :
  (Main.isProcessing (typed " Tell me about VCET " (Main.initialState usedStore)) = false
   /\ Js.trim " Tell me about VCET " <> ""
   /\ 200 <= 200 <= 299)
  /\ length (Main.chatHistory
               (Eff.stateOf
                  (Main.sendMessage tallyStringify
                     (Main.HttpResponse 200 (Some successAnswer)) "t1" "t2"
                     (typed " Tell me about VCET " (Main.initialState usedStore)))))
     = 2%nat.
Proof.
  split; [repeat split; try discriminate; lia|].
  destruct (sendMessage_success tallyStringify
              (typed " Tell me about VCET " (Main.initialState usedStore)) 200
              [("status", Js.JStr "success");
               ("response", Js.JStr "VCET is an engineering college.");
               ("cached", Js.JBool false); ("response_time", Js.JNum 1)]
              "t1" "t2" eq_refl eq_refl ltac:(discriminate) eq_refl eq_refl ltac:(lia))
    as (Hhistory & _).
  unfold successAnswer. now rewrite Hhistory.
Defined.

Lemma sendMessage_failure_witness :
  (Js.trim "Tell me about VCET" <> ""
   /\ exists e, Main.NetworkError failedToFetch = Main.NetworkError e)
  /\ Main.localStorage
       (Eff.stateOf
          (Main.sendMessage tallyStringify (Main.NetworkError failedToFetch) "t1" "t2"
             (typed "Tell me about VCET" (Main.initialState usedStore))))
     = usedStore.
Proof.
  split; [split; [discriminate | now exists failedToFetch]|].
  now destruct (sendMessage_failure tallyStringify
                  (typed "Tell me about VCET" (Main.initialState usedStore))
                  (Main.NetworkError failedToFetch) "t1" "t2"
                  eq_refl eq_refl ltac:(discriminate) eq_refl
                  (or_intror (or_introl (ex_intro _ failedToFetch eq_refl))))
    as (_ & Hstore & _).
Defined.

Lemma rate_limit_needs_a_json_body_witness :
  Browser.accessDenied (Main.localStorage (Main.initialState usedStore)) = false
  /\ Eff.stateOf (Main.sendQuery "Tell me about VCET" (Main.HttpResponse 429 None)
                    (Main.initialState usedStore))
     = Main.initialState usedStore.
Proof.
  split; [reflexivity|].
  now destruct (rate_limit_needs_a_json_body (Main.initialState usedStore)
                  "Tell me about VCET" eq_refl) as (_ & Hsame & _).
Defined.

Lemma loadChatHistory_doubles_the_history_witness :
  (Browser.accessDenied (Main.localStorage withStoredHistory) = false
   /\ Browser.items (Main.localStorage withStoredHistory) !! "chatHistory" = Some "[two]"
   /\ "[two]" <> "")
  /\ length (Main.chatHistory
               (Eff.stateOf (Main.loadChatHistory parseTwo "now" withStoredHistory)))
     = 4%nat.
Proof.
  split; [repeat split; discriminate|].
  pose proof (loadChatHistory_doubles_the_history parseTwo withStoredHistory "[two]" "now"
                eq_refl eq_refl ltac:(discriminate)) as H.
  change (parseTwo "[two]") with (Js.Normal twoStored) in H.
  now destruct H as (_ & Hlen & _).
Defined.


Lemma saveApiKey_needs_a_well_formed_key_and_a_working_store_witness :
  Js.startsWith (Js.trim (Main.apiKeyInput badKeyTyped)) "gsk_" = false
  /\ Eff.stateOf (Main.saveApiKey badKeyTyped) = badKeyTyped
  /\ Main.isRateLimited (Eff.stateOf (Main.saveApiKey badKeyTyped)) = true.
Proof.
  split; [reflexivity|].
  destruct (saveApiKey_needs_a_well_formed_key_and_a_working_store badKeyTyped
              (or_introl eq_refl)) as [Hsame _].
  split; [exact Hsame | now rewrite Hsame].
Defined.

Lemma saved_key_goes_with_the_next_query_witness :
  (Js.startsWith (Js.trim (Main.apiKeyInput keyTyped)) "gsk_" = true
   /\ Browser.accessDenied (Main.localStorage keyTyped) = false
   /\ Browser.quotaExceeded (Main.localStorage keyTyped) = false)
  /\ List.filter Main.isFetch
       (Eff.effectsOf
          (Main.sendQuery "What is VCET?" (Main.NetworkError failedToFetch)
             (Eff.stateOf (Main.saveApiKey keyTyped))))
     = [ Main.Fetch "/api/query" "POST"
           (<[ "X-Groq-Api-Key" := "gsk_live_1" ]>
              {[ "Content-Type" := "application/json" ]})
           (Js.JObj [("query", Js.JStr "What is VCET?")]) ].
Proof.
  split; [repeat split|].
  apply (saved_key_goes_with_the_next_query keyTyped "What is VCET?"
           (Main.NetworkError failedToFetch)); reflexivity.
Defined.


(** ** The loading sequence, for every backend *)

Section LoadingBounds.
Import Loading.
Variable b : Backend.

(** The polling loop from any point: it polls at most once per iteration
    left below the ceiling, shows the popup exactly when it is left by
    [return], and never hides the overlay. *)
Lemma pollLoop_counts fuel : forall attempts,
  let '(events, exit) := pollLoop b fuel attempts in
  (length (List.filter isPoll events) <= maxAttempts - attempts)%nat
  /\ length (List.filter isTimeoutPopup events)
     = (match exit with LoopReturn => 1 | _ => 0 end)%nat
  /\ ~ In HideLoadingOverlay events.
Proof.
  induction fuel as [|fuel IH]; intros attempts; simpl.
  - destruct (negb _ && _); simpl; (split; [lia|]); split; auto.
  - destruct (negb _ && (attempts <? maxAttempts)%nat) eqn:Hcond;
      [|simpl; (split; [lia|]); split; auto].
    apply andb_prop in Hcond as [_ Hlt]. apply Nat.ltb_lt in Hlt.
    destruct (ragInitialized (pollCheck b attempts)).
    { simpl. split; [lia|]. split; [reflexivity|]. intros [H|[H|[]]]; discriminate. }
    destruct (LOADING_TIMEOUT_TIME <=? elapsedAt b attempts).
    { destruct (LOADING_WARNING_TIME <=? elapsedAt b attempts); simpl;
        (split; [lia|]); (split; [reflexivity|]);
        intros H; repeat (destruct H as [H|H]; [discriminate|]); exact H. }
    specialize (IH (S attempts)).
    destruct (pollLoop b fuel (S attempts)) as [rest exit].
    destruct IH as (Hpolls & Hpopups & Hhide).
    destruct (LOADING_WARNING_TIME <=? elapsedAt b attempts); simpl;
      (split; [lia|]); (split; [exact Hpopups|]);
      intros H; repeat (destruct H as [H|H]; [discriminate|]); exact (Hhide H).
Qed.

(** The counts of a run in which every health check returns. *)
Lemma startLoadingProcess_counts :
  let '(events, final) := startLoadingProcess b in
  (pollCount events <= 60)%nat
  /\ (timeoutCount events <= 1)%nat
  /\ (final = TimedOut <-> timeoutCount events = 1%nat)
  /\ (final = Ready <-> In HideLoadingOverlay events)
  /\ (final = ServerError <-> success (firstCheck b) = false)
  /\ final <> Stuck.
Proof.
  pose proof (pollLoop_counts maxAttempts 0) as Hloop.
  pose proof (pollLoop_has_enough_fuel b maxAttempts 0 ltac:(lia)) as Hfuel.
  unfold startLoadingProcess.
  destruct (success (firstCheck b)); simpl negb; cbv iota.
  - destruct (pollLoop b maxAttempts 0) as [polling exit].
    destruct Hloop as (Hpolls & Hpopups & Hhide). simpl in Hfuel.
    unfold pollCount, timeoutCount.
    destruct exit; [| |congruence];
      rewrite ?List.filter_app, ?length_app; simpl;
      rewrite ?List.filter_app, ?length_app; simpl;
      rewrite Hpopups; unfold maxAttempts in *;
      (split; [lia|]); (split; [lia|]).
    + split; [split; [discriminate|lia]|].
      split.
      * split; [intros _|reflexivity].
        do 6 right. apply in_or_app. right. simpl.
        repeat (first [left; reflexivity | right]).
      * repeat split; discriminate.
    + split; [split; [lia|reflexivity]|].
      split.
      * split; [discriminate|]. intros H.
        repeat (destruct H as [H|H]; [discriminate|]). exfalso. now apply Hhide.
      * repeat split; discriminate.
  - unfold pollCount, timeoutCount. simpl.
    split; [lia|]. split; [lia|].
    split; [split; [discriminate|lia]|].
    split; [split; [discriminate|]|].
    + intros H. repeat (destruct H as [H|H]; [discriminate|]). destruct H.
    + repeat split; discriminate.
Qed.

(** What has been counted at some point of a run is at most what the
    whole run counts. *)
Lemma filter_prefix_length (f : LoadEvent -> bool) (shown events : list LoadEvent) :
  shown `prefix_of` events ->
  (length (List.filter f shown) <= length (List.filter f events))%nat.
Proof. intros [rest ->]. rewrite List.filter_app, length_app. lia. Qed.

(** X16: The bounds of [startLoadingProcess] hold at every point of a run.
    [events] is what the sequence does when every health check returns
    with the answers of [b]; a run that stays suspended, because a health
    check or [loadSuggestions] waits for a [fetch] that never settles, has
    done an initial part of it.  In every initial part at most 60 polls
    follow the first check and the time-out popup is shown at most once.
    When every check returns, the sequence ends timed out exactly when it
    showed the popup, ends ready exactly when it hid the overlay, and ends
    with the retry button exactly when the first check failed. *)
Theorem loading_sequence_is_bounded :
  let '(events, final) := startLoadingProcess b in
  (forall shown, shown `prefix_of` events ->
     (pollCount shown <= 60)%nat /\ (timeoutCount shown <= 1)%nat)
  /\ (final = TimedOut <-> timeoutCount events = 1%nat)
  /\ (final = Ready <-> In HideLoadingOverlay events)
  /\ (final = ServerError <-> success (firstCheck b) = false).
Proof.
  pose proof startLoadingProcess_counts as Hrun.
  destruct (startLoadingProcess b) as [events final].
  destruct Hrun as (Hpolls & Hpopups & Htimed & Hready & Herror & _).
  split; [|repeat split; tauto].
  intros shown Hshown.
  pose proof (filter_prefix_length isPoll shown events Hshown).
  pose proof (filter_prefix_length isTimeoutPopup shown events Hshown).
  unfold pollCount, timeoutCount in *. lia.
Qed.

End LoadingBounds.

(** ** The loading sequence and the health endpoint *)

Section LoadingAndHealth.
Import Js Loading.


(** X18: The two health checks of the front end read the same answer
    differently.  For an answer with a status outside 200-299 whose JSON
    body says [rag_initialized: true], the main script's [checkHealth]
    reports success and a ready backend, since it never looks at the
    status, while [ApiService.checkHealth] resolves with
    [success: false] and the status line or message of the answer. *)
Theorem health_checks_disagree_on_error_statuses (this : ApiService.t)
  (ls : Browser.LocalStorage) (after_ms st : Z) (fields : list (string * JsonValue)) :
  Browser.accessDenied ls = false ->
  after_ms < ApiService.timeout this ->
  ApiService.ok {| ApiService.respStatus := st;
                   ApiService.respBody := ApiService.BodyJson (JObj fields) |} = false ->
  truthy (lookupField "rag_initialized" fields) = true ->
  checkHealth (Main.HttpResponse st (Some (JObj fields)))
  = {| success := true; ragInitialized := true |}
  /\ exists fx h,
       ApiService.checkHealth this ls
         (ApiService.Responds after_ms
            {| ApiService.respStatus := st;
               ApiService.respBody := ApiService.BodyJson (JObj fields) |})
       = (fx, ApiService.Fulfilled h)
       /\ ApiService.success h = false
       /\ ApiService.ragInitialized h = None.
Proof.
  intros Hacc Hquick Hbad Hready. split.
  - unfold checkHealth. simpl. now rewrite Hready.
  - unfold ApiService.checkHealth, ApiService.get, ApiService.request.
    destruct (buildHeaders_working ls ∅ Hacc) as [headers Hheaders].
    cbn [ApiService.reqHeaders]. rewrite Hheaders.
    cbv zeta. unfold ApiService.settlesBefore.
    apply Z.ltb_lt in Hquick. rewrite Hquick, Hbad. simpl negb. cbv iota.
    unfold ApiService.request_notOk. simpl.
    destruct (truthy (lookupField "message" fields));
      [destruct (lookupField "message" fields)|];
      simpl; eexists _, _; repeat split.
Qed.

(** X19: [updateLoadingElapsed] shows whole seconds below one minute, and above
    it minutes and seconds that add up to the whole seconds elapsed, with
    the seconds below 60. *)
Theorem updateLoadingElapsed_splits_the_time (elapsedMs : Z) :
  match updateLoadingElapsed elapsedMs with
  | SecondsText seconds =>
      elapsedMs < 60000 /\ 1000 * seconds <= elapsedMs < 1000 * seconds + 1000
  | MinutesText minutes seconds =>
      60000 <= elapsedMs /\ 1 <= minutes /\ 0 <= seconds < 60
      /\ 1000 * (60 * minutes + seconds) <= elapsedMs
         < 1000 * (60 * minutes + seconds) + 1000
  end.
Proof.
  unfold updateLoadingElapsed. cbv zeta.
  destruct (elapsedMs / 1000 <? 60) eqn:Hsmall; cbv iota.
  - apply Z.ltb_lt in Hsmall. Z.to_euclidean_division_equations. lia.
  - apply Z.ltb_ge in Hsmall. Z.to_euclidean_division_equations. lia.
Qed.

End LoadingAndHealth.


Lemma health_checks_disagree_on_error_statuses_witness :
  (Browser.accessDenied emptyStore = false
   /\ 120 < ApiService.timeout localApi
   /\ Js.truthy (Js.lookupField "rag_initialized"
                   [("status", Js.JStr "degraded"); ("rag_initialized", Js.JBool true)])
      = true)
  /\ Loading.checkHealth (Main.HttpResponse 503 (Some readyBut503))
     = {| Loading.success := true; Loading.ragInitialized := true |}.
Proof.
  split; [repeat split|].
  apply (health_checks_disagree_on_error_statuses localApi emptyStore 120 503
           [("status", Js.JStr "degraded"); ("rag_initialized", Js.JBool true)]);
    reflexivity.
Defined.

(** ** The query function: bodies, keys and the cache *)

Section QueryFunctionMore.
Import Js QueryFunction.

Lemma cache_delete_oldest (k : string) (w : CacheEntry) (m : ResponseCache) :
  cache_delete k ((k, w) :: m) = m.
Proof. simpl. now rewrite String.eqb_refl. Qed.

Lemma cache_cleanup_length (m : ResponseCache) :
  (length m <= 101)%nat -> (length (cache_cleanup m) <= 100)%nat.
Proof.
  intros Hlen. unfold cache_cleanup.
  destruct (100 <? length m)%nat eqn:Hbig; [|apply Nat.ltb_ge in Hbig; lia].
  destruct m as [|[k w] m]; [simpl; lia|].
  rewrite cache_delete_oldest. simpl in Hlen. lia.
Qed.

Lemma cache_cleanup_small (m : ResponseCache) :
  (length m <= 100)%nat -> cache_cleanup m = m.
Proof.
  intros Hlen. unfold cache_cleanup.
  destruct (100 <? length m)%nat eqn:Hbig; [apply Nat.ltb_lt in Hbig; lia|reflexivity].
Qed.

(** X20: The cache never grows beyond 100 entries: whatever the request and
    the answer of the LLM API, an invocation that starts with at most 100
    entries ends with at most 100.  It calls the LLM API at most once, and
    changes the cache only when it answers 200 after such a call. *)
Theorem cache_stays_within_100_entries (env : Env)
  (responseCache : ResponseCache) (event : Event) (clock : Clock) (groq : GroqOutcome) :
  (length responseCache <= 100)%nat ->
  let run := handler env responseCache event clock groq in
  (length (cacheAfter run) <= 100)%nat
  /\ (length (groqCalls run) <= 1)%nat
  /\ (cacheAfter run <> responseCache ->
      statusCode (result run) = 200 /\ length (groqCalls run) = 1%nat).
Proof.
  intros Hlen run. subst run. unfold handler.
  destruct (String.eqb (httpMethod event) "OPTIONS");
    [simpl; repeat split; try lia; congruence|].
  destruct (negb _); [simpl; repeat split; try lia; congruence|].
  destruct (requestQuery (body event)) as [query|e];
    [|simpl; repeat split; try lia; congruence].
  destruct (acceptedQuery query) as [text|];
    [|simpl; repeat split; try lia; congruence].
  destruct (availableKey _ _) as [apiKey|];
    [|simpl; repeat split; try lia; congruence].
  destruct (freshEntry _ _ _) as [cached|];
    [simpl; repeat split; try lia; congruence|].
  destruct (callGroqAPI groq) as [apiResponse|e];
    [|simpl; repeat split; try lia; congruence].
  destruct (assistantMessageOf apiResponse) as [assistantMessage|e];
    [|simpl; repeat split; try lia; congruence].
  simpl. split; [|repeat split; lia].
  apply cache_cleanup_length. rewrite cache_set_length.
  destruct (cache_get _ _); lia.
Qed.

(** X21: An entry that is one hour old or older is not served: the LLM API is
    called again, the answer is marked as not cached, and the entry is
    replaced in place by the new answer with its time, the number of
    entries staying the same. *)
Theorem expired_entry_is_refreshed (env : Env) (responseCache : ResponseCache)
  (event : Event) (clock : Clock) (groq : GroqOutcome)
  (text apiKey : string) (old : CacheEntry) (apiResponse assistantMessage : JsonValue) :
  (length responseCache <= 100)%nat ->
  httpMethod event = "POST" ->
  requestQuery (body event) = Normal (Some (JStr text)) -> trim text <> "" ->
  availableKey (headers event !! "x-groq-api-key") (GROQ_API_KEY env) = Some apiKey ->
  cache_get (getCacheKey text) responseCache = Some old ->
  CACHE_TTL <= atCacheCheck clock - timestamp old ->
  callGroqAPI groq = Normal apiResponse ->
  assistantMessageOf apiResponse = Normal assistantMessage ->
  let run := handler env responseCache event clock groq in
  groqCalls run = [(apiKey, text)]
  /\ result run
     = {| statusCode := 200;
          resultBody := SuccessBody assistantMessage false
                          (SecondsOfMillis (atCallEnd clock - atCallStart clock))
                          (Some (GROQ_MODEL env)) |}
  /\ cache_get (getCacheKey text) (cacheAfter run)
     = Some {| response := assistantMessage; timestamp := atCacheStore clock |}
  /\ length (cacheAfter run) = length responseCache.
Proof.
  intros Hlen Hpost Hquery Hvalid Hkey Hold Hexpired Hgroq Hmsg run. subst run.
  unfold handler. rewrite Hpost. simpl.
  rewrite Hquery, (acceptedQuery_accepts _ Hvalid), Hkey.
  unfold freshEntry. rewrite Hold.
  apply Z.ltb_ge in Hexpired. rewrite Hexpired, Hgroq, Hmsg. simpl.
  assert (Hsame : length (cache_set (getCacheKey text)
                            {| response := assistantMessage;
                               timestamp := atCacheStore clock |} responseCache)
                  = length responseCache)
    by now rewrite cache_set_length, Hold.
  rewrite cache_cleanup_small by lia.
  repeat split; [apply cache_get_set | exact Hsame].
Qed.

(** X22: A POST whose body is not JSON, or is the JSON text [null], is answered
    with 500 and not with 400, without a call to the LLM API; a body that
    parses to a number, a string, a boolean or an array has no [query] and
    is answered with 400. *)
Theorem unreadable_body_is_a_server_error (env : Env) (responseCache : ResponseCache)
  (event : Event) (clock : Clock) (groq : GroqOutcome) :
  httpMethod event = "POST" ->
  let run := handler env responseCache event clock groq in
  (body event = MalformedBody \/ body event = ParsedBody JNull ->
   statusCode (result run) = 500 /\ groqCalls run = [] /\ cacheAfter run = responseCache)
  /\ (forall v, body event = ParsedBody v -> v <> JNull -> (forall fields, v <> JObj fields) ->
      statusCode (result run) = 400 /\ groqCalls run = [] /\ cacheAfter run = responseCache).
Proof.
  intros Hpost run. subst run. unfold handler. rewrite Hpost. simpl. split.
  - intros [-> | ->]; simpl; repeat split.
  - intros v -> Hnull Hobj.
    destruct v; try (simpl; repeat split; fail).
    + now destruct Hnull.
    + now destruct (Hobj fields).
Qed.

(** X23: The key a request brings in its [x-groq-api-key] header is the one
    sent to the LLM API, whatever [GROQ_API_KEY] holds; the environment's
    key is sent only when the header is absent or empty. *)
Theorem header_key_goes_before_the_environment (env : Env)
  (responseCache : ResponseCache) (event : Event) (clock : Clock) (groq : GroqOutcome)
  (text : string) :
  httpMethod event = "POST" ->
  requestQuery (body event) = Normal (Some (JStr text)) -> trim text <> "" ->
  freshEntry responseCache (getCacheKey text) (atCacheCheck clock) = None ->
  let run := handler env responseCache event clock groq in
  (forall key, headers event !! "x-groq-api-key" = Some key -> key <> "" ->
   groqCalls run = [(key, text)])
  /\ (forall key, noKey (headers event !! "x-groq-api-key") ->
      GROQ_API_KEY env = Some key -> key <> "" ->
      groqCalls run = [(key, text)]).
Proof.
  intros Hpost Hquery Hvalid Hmiss run. subst run.
  unfold handler. rewrite Hpost. simpl.
  rewrite Hquery, (acceptedQuery_accepts _ Hvalid).
  split.
  - intros key Hheader Hkey.
    apply nonEmpty_true_iff in Hkey.
    assert (Havail : availableKey (headers event !! "x-groq-api-key") (GROQ_API_KEY env)
                     = Some key).
    { rewrite Hheader. unfold availableKey, orElse. now rewrite !Hkey. }
    rewrite Havail, Hmiss.
    destruct (callGroqAPI groq); [destruct (assistantMessageOf _)|]; reflexivity.
  - intros key Hheader Henv Hkey.
    apply nonEmpty_true_iff in Hkey.
    assert (Havail : availableKey (headers event !! "x-groq-api-key") (GROQ_API_KEY env)
                     = Some key).
    { rewrite Henv. destruct Hheader as [-> | ->]; unfold availableKey, orElse; simpl;
        now rewrite Hkey. }
    rewrite Havail, Hmiss.
    destruct (callGroqAPI groq); [destruct (assistantMessageOf _)|]; reflexivity.
Qed.

(** X24: What the LLM API's failures become: for a valid query with a key that
    is not answered from the cache, a reply with a status other than 200,
    a 200 reply whose body does not parse, and a failed connection are
    answered with 429 when the rejection carries the status 429 and with
    500 otherwise; the call was made once and the cache is left as it
    was. *)
Theorem upstream_failures_are_not_cached (env : Env) (responseCache : ResponseCache)
  (event : Event) (clock : Clock) (groq : GroqOutcome)
  (text apiKey : string) (e : JsError) :
  httpMethod event = "POST" ->
  requestQuery (body event) = Normal (Some (JStr text)) -> trim text <> "" ->
  availableKey (headers event !! "x-groq-api-key") (GROQ_API_KEY env) = Some apiKey ->
  freshEntry responseCache (getCacheKey text) (atCacheCheck clock) = None ->
  callGroqAPI groq = Throw e ->
  let run := handler env responseCache event clock groq in
  statusCode (result run) = (if decide (status e = Some 429) then 429 else 500)
  /\ isSuccessBody (resultBody (result run)) = false
  /\ groqCalls run = [(apiKey, text)]
  /\ cacheAfter run = responseCache
  /\ match groq with
     | GroqReply st _ => status e = Some 429 <-> st = 429
     | GroqFailure e' => e = e'
     end.
Proof.
  intros Hpost Hquery Hvalid Hkey Hmiss Hgroq run. subst run.
  unfold handler. rewrite Hpost. simpl.
  rewrite Hquery, (acceptedQuery_accepts _ Hvalid), Hkey, Hmiss, Hgroq. simpl.
  unfold handler_catch.
  split; [now destruct (decide _)|].
  split; [now destruct (decide _)|].
  split; [reflexivity|]. split; [reflexivity|].
  destruct groq as [st upstreamBody|e']; simpl in Hgroq; [|congruence].
  destruct (st =? 200) eqn:H200.
  - apply Z.eqb_eq in H200. subst st.
    destruct upstreamBody; [discriminate|].
    injection Hgroq as <-. simpl. split; [discriminate|lia].
  - destruct (st =? 429) eqn:H429.
    + apply Z.eqb_eq in H429. injection Hgroq as <-. simpl. split; auto.
    + apply Z.eqb_neq in H429. injection Hgroq as <-. simpl.
      split; [discriminate|contradiction].
Qed.

(** X25: A completion without a usable text is still a success: when the first
    choice of the reply is missing or has no truthy [message.content], the
    answer is 200 with the text [No response generated], and that text is
    stored in the cache under the query's key like any answer. *)
Theorem empty_completion_is_cached (env : Env) (responseCache : ResponseCache)
  (event : Event) (clock : Clock) (groq : GroqOutcome)
  (text apiKey : string) (apiResponse : JsonValue) (choices : list JsonValue) :
  (length responseCache <= 100)%nat ->
  httpMethod event = "POST" ->
  requestQuery (body event) = Normal (Some (JStr text)) -> trim text <> "" ->
  availableKey (headers event !! "x-groq-api-key") (GROQ_API_KEY env) = Some apiKey ->
  freshEntry responseCache (getCacheKey text) (atCacheCheck clock) = None ->
  callGroqAPI groq = Normal apiResponse ->
  getProp (Some apiResponse) "choices" = Normal (Some (JArr choices)) ->
  truthy (optionalProp (optionalProp (head choices) "message") "content") = false ->
  let run := handler env responseCache event clock groq in
  result run
  = {| statusCode := 200;
       resultBody := SuccessBody (JStr "No response generated") false
                       (SecondsOfMillis (atCallEnd clock - atCallStart clock))
                       (Some (GROQ_MODEL env)) |}
  /\ cache_get (getCacheKey text) (cacheAfter run)
     = Some {| response := JStr "No response generated";
               timestamp := atCacheStore clock |}.
Proof.
  intros Hlen Hpost Hquery Hvalid Hkey Hmiss Hgroq Hchoices Hempty run. subst run.
  assert (Hmsg : assistantMessageOf apiResponse = Normal (JStr "No response generated")).
  { unfold assistantMessageOf. rewrite Hchoices.
    destruct choices as [|first rest]; [reflexivity|].
    cbn [head] in Hempty. cbn [firstElement].
    destruct (optionalProp (optionalProp (Some first) "message") "content");
      [now rewrite Hempty | reflexivity]. }
  unfold handler. rewrite Hpost. simpl.
  rewrite Hquery, (acceptedQuery_accepts _ Hvalid), Hkey, Hmiss, Hgroq, Hmsg. simpl.
  split; [reflexivity|].
  now apply stored_entry_survives_cleanup.
Qed.

End QueryFunctionMore.

Lemma cache_stays_within_100_entries_witness :
  (length oneAnswerCached <= 100)%nat
  /\ (length (QueryFunction.cacheAfter
                (QueryFunction.handler withServerKey oneAnswerCached
                   (queryEvent "Where is VCET?") tenMinutesLater
                   (groqAnswer "VCET is in Madurai."))) <= 100)%nat.
Proof.
  assert (Hlen : (length oneAnswerCached <= 100)%nat) by (simpl; lia).
  split; [exact Hlen|].
  now destruct (cache_stays_within_100_entries withServerKey oneAnswerCached
                  (queryEvent "Where is VCET?") tenMinutesLater
                  (groqAnswer "VCET is in Madurai.") Hlen) as [H _].
Defined.

Lemma expired_entry_is_refreshed_witness :
  (QueryFunction.cache_get (QueryFunction.getCacheKey "What is VCET?") oneAnswerCached
   = Some {| QueryFunction.response := Js.JStr "VCET is an engineering college.";
             QueryFunction.timestamp := 1000000 |}
   /\ QueryFunction.CACHE_TTL <= QueryFunction.atCacheCheck twoHoursLater - 1000000)
  /\ QueryFunction.groqCalls
       (QueryFunction.handler withServerKey oneAnswerCached (queryEvent "What is VCET?")
          twoHoursLater (groqAnswer "VCET is a college in Madurai."))
     = [("gsk_server", "What is VCET?")].
Proof.
  split; [split; [reflexivity | discriminate]|].
  assert (Hlen : (length oneAnswerCached <= 100)%nat) by (simpl; lia).
  destruct (expired_entry_is_refreshed withServerKey oneAnswerCached
              (queryEvent "What is VCET?") twoHoursLater
              (groqAnswer "VCET is a college in Madurai.")
              "What is VCET?" "gsk_server"
              {| QueryFunction.response := Js.JStr "VCET is an engineering college.";
                 QueryFunction.timestamp := 1000000 |}
              (Js.JObj [("choices",
                         Js.JArr [Js.JObj [("message",
                                            Js.JObj [("role", Js.JStr "assistant");
                                                     ("content",
                                                      Js.JStr "VCET is a college in Madurai.")])]])])
              (Js.JStr "VCET is a college in Madurai.")
              Hlen eq_refl eq_refl ltac:(discriminate) eq_refl eq_refl
              ltac:(discriminate) eq_refl eq_refl) as [Hcalls _].
  exact Hcalls.
Defined.

Lemma unreadable_body_is_a_server_error_witness :
  QueryFunction.httpMethod nullEvent = "POST"
  /\ QueryFunction.statusCode
       (QueryFunction.result
          (QueryFunction.handler withServerKey [] nullEvent tenMinutesLater
             (groqAnswer "VCET is in Madurai."))) = 500.
Proof.
  split; [reflexivity|].
  destruct (unreadable_body_is_a_server_error withServerKey [] nullEvent tenMinutesLater
              (groqAnswer "VCET is in Madurai.") eq_refl) as [H500 _].
  now destruct (H500 (or_intror eq_refl)).
Defined.

Lemma header_key_goes_before_the_environment_witness :
  (QueryFunction.GROQ_API_KEY withServerKey = Some "gsk_server"
   /\ QueryFunction.headers (queryEventWithKey "What is VCET?" "gsk_user")
        !! "x-groq-api-key" = Some "gsk_user")
  /\ QueryFunction.groqCalls
       (QueryFunction.handler withServerKey [] (queryEventWithKey "What is VCET?" "gsk_user")
          tenMinutesLater (groqAnswer "VCET is in Madurai."))
     = [("gsk_user", "What is VCET?")].
Proof.
  split; [split; reflexivity|].
  destruct (header_key_goes_before_the_environment withServerKey []
              (queryEventWithKey "What is VCET?" "gsk_user") tenMinutesLater
              (groqAnswer "VCET is in Madurai.") "What is VCET?"
              eq_refl eq_refl ltac:(discriminate) eq_refl) as [Hheader _].
  exact (Hheader "gsk_user" eq_refl ltac:(discriminate)).
Defined.

Lemma upstream_failures_are_not_cached_witness :
  QueryFunction.callGroqAPI (QueryFunction.GroqReply 503 None)
  = Js.Throw (Js.Error (Js.ApiStatusLine 503))
  /\ QueryFunction.statusCode
       (QueryFunction.result
          (QueryFunction.handler withServerKey oneAnswerCached (queryEvent "Where is VCET?")
             tenMinutesLater (QueryFunction.GroqReply 503 None))) = 500.
Proof.
  split; [reflexivity|].
  now destruct (upstream_failures_are_not_cached withServerKey oneAnswerCached
                  (queryEvent "Where is VCET?") tenMinutesLater
                  (QueryFunction.GroqReply 503 None) "Where is VCET?" "gsk_server"
                  (Js.Error (Js.ApiStatusLine 503))
                  eq_refl eq_refl ltac:(discriminate) eq_refl eq_refl eq_refl) as [H _].
Defined.

Lemma empty_completion_is_cached_witness :
  QueryFunction.callGroqAPI groqNoChoices = Js.Normal (Js.JObj [("choices", Js.JArr [])])
  /\ QueryFunction.cache_get (QueryFunction.getCacheKey "Where is VCET?")
       (QueryFunction.cacheAfter
          (QueryFunction.handler withServerKey oneAnswerCached (queryEvent "Where is VCET?")
             tenMinutesLater groqNoChoices))
     = Some {| QueryFunction.response := Js.JStr "No response generated";
               QueryFunction.timestamp := 1601201 |}.
Proof.
  split; [reflexivity|].
  assert (Hlen : (length oneAnswerCached <= 100)%nat) by (simpl; lia).
  now destruct (empty_completion_is_cached withServerKey oneAnswerCached
                  (queryEvent "Where is VCET?") tenMinutesLater groqNoChoices
                  "Where is VCET?" "gsk_server" (Js.JObj [("choices", Js.JArr [])]) []
                  Hlen eq_refl eq_refl ltac:(discriminate) eq_refl eq_refl eq_refl
                  eq_refl eq_refl) as [_ H].
Defined.


(** ** The suggestions function *)

Section SuggestionsFacts.
Import Js SuggestionsFunction.

Lemma swap_permutes {A} (l : list A) (i j : nat) : swap l i j ≡ₚ l.
Proof.
  unfold swap.
  destruct (l !! i) as [x|] eqn:Hi; [|reflexivity].
  destruct (l !! j) as [y|] eqn:Hj; [|reflexivity].
  now apply Permutation_insert_swap.
Qed.

(** With draws in the range of [Math.floor(Math.random() * (i + 1))],
    every step of the loop exchanges two elements of the array. *)
Lemma swap_in_range {A} (l : list A) (i j : nat) :
  (i < length l)%nat -> (j <= i)%nat ->
  exists x y, l !! i = Some x /\ l !! j = Some y /\ swap l i j = <[j := x]> (<[i := y]> l).
Proof.
  intros Hi Hj.
  destruct (lookup_lt_is_Some_2 l i Hi) as [x Hx].
  destruct (lookup_lt_is_Some_2 l j ltac:(lia)) as [y Hy].
  exists x, y. unfold swap. now rewrite Hx, Hy.
Qed.

Lemma shuffleFrom_permutes {A} (draw : nat -> nat) (i : nat) : forall shuffled : list A,
  (forall k, draw k <= k)%nat -> (i < length shuffled)%nat ->
  shuffleFrom draw i shuffled ≡ₚ shuffled.
Proof.
  induction i as [|i IH]; intros shuffled Hdraw Hi; simpl; [reflexivity|].
  destruct (swap_in_range shuffled (S i) (draw (S i)) Hi (Hdraw _))
    as (x & y & Hx & Hy & Hswap).
  rewrite IH; [| exact Hdraw |].
  - rewrite Hswap. now apply Permutation_insert_swap.
  - rewrite Hswap, !length_insert. lia.
Qed.

Lemma shuffleArray_rearranges {A} (draw : nat -> nat) (array : list A) :
  (forall k, draw k <= k)%nat -> shuffleArray draw array ≡ₚ array.
Proof.
  intros Hdraw. unfold shuffleArray. destruct array as [|a array]; [reflexivity|].
  apply shuffleFrom_permutes; [exact Hdraw | simpl; lia].
Qed.

(** X26: [shuffleArray] returns a rearrangement of its argument, whatever
    numbers are drawn: the same elements, each as often as before, so the
    same length, and no element twice when the argument had none twice. *)
Theorem shuffleArray_permutes {A} (draw : nat -> nat) (array : list A) :
  (forall k, draw k <= k)%nat ->
  shuffleArray draw array ≡ₚ array
  /\ length (shuffleArray draw array) = length array
  /\ (forall x, x ∈ shuffleArray draw array <-> x ∈ array)
  /\ (NoDup array -> NoDup (shuffleArray draw array)).
Proof.
  intros Hdraw. pose proof (shuffleArray_rearranges draw array Hdraw) as H.
  split; [exact H|]. split; [now rewrite H|].
  split; [intros x; now rewrite H | now rewrite H].
Qed.

Lemma SUGGESTIONS_NoDup : NoDup SUGGESTIONS.
Proof. apply (bool_decide_unpack _). vm_compute. reflexivity. Qed.

Lemma sliceTo_length {A} (end_ : option Z) (l : list A) :
  length (sliceTo end_ l)
  = Z.to_nat (match end_ with
              | None => 0
              | Some e => if e <? 0 then Z.max (Z.of_nat (length l) + e) 0
                          else Z.min e (Z.of_nat (length l))
              end).
Proof.
  unfold sliceTo. cbv zeta. rewrite length_take.
  destruct end_ as [e|]; [|simpl; lia].
  destruct (e <? 0) eqn:He; [apply Z.ltb_lt in He | apply Z.ltb_ge in He]; lia.
Qed.

(** X27: The suggestions of an answer are distinct members of the curated
    list, at most 10 of them.  Without a [count] parameter (or with an
    empty one) there are 6; a count of [n >= 0] gives [min n 10]; a
    negative count [n] gives [max (10 + n) 0], the slice then counting from
    the end; a count that is not a number gives none. *)
Theorem suggestions_are_distinct_members (httpMethod : string)
  (countParam : option string) (draw : nat -> nat) :
  httpMethod <> "OPTIONS" ->
  (forall k, draw k <= k)%nat ->
  let r := handler httpMethod countParam draw in
  let text := match countParam with
              | Some c => if nonEmpty c then c else "6"
              | None => "6"
              end in
  fst r = 200
  /\ NoDup (suggestionsOf r)
  /\ suggestionsOf r ⊆ SUGGESTIONS
  /\ (length (suggestionsOf r) <= 10)%nat
  /\ length (suggestionsOf r)
     = Z.to_nat (match parseInt text with
                 | None => 0
                 | Some n => if n <? 0 then Z.max (10 + n) 0 else Z.min n 10
                 end).
Proof.
  intros Hmethod Hdraw r text. subst r text.
  apply String.eqb_neq in Hmethod.
  unfold handler. rewrite Hmethod. cbv zeta. unfold suggestionsOf. cbn [fst snd].
  pose proof (shuffleArray_rearranges draw SUGGESTIONS Hdraw) as Hperm.
  assert (Hlen : length (shuffleArray draw SUGGESTIONS) = length SUGGESTIONS)
    by now rewrite Hperm.
  set (text := match countParam with
               | Some c => if nonEmpty c then c else "6"
               | None => "6"
               end).
  assert (Hcount : length (sliceTo (mathMin (parseInt text) (Z.of_nat (length SUGGESTIONS)))
                             (shuffleArray draw SUGGESTIONS))
                   = Z.to_nat (match parseInt text with
                               | None => 0
                               | Some n => if n <? 0 then Z.max (10 + n) 0 else Z.min n 10
                               end)).
  { rewrite sliceTo_length, Hlen.
    change (Z.of_nat (length SUGGESTIONS)) with 10.
    destruct (parseInt text) as [n|]; [|reflexivity]. simpl mathMin. cbv iota.
    destruct (n <? 0) eqn:Hn; [apply Z.ltb_lt in Hn | apply Z.ltb_ge in Hn].
    - replace (Z.min n 10 <? 0) with true by (symmetry; apply Z.ltb_lt; lia).
      f_equal. lia.
    - replace (Z.min n 10 <? 0) with false by (symmetry; apply Z.ltb_ge; lia).
      f_equal. lia. }
  split; [reflexivity|].
  split; [|split; [|split; [|exact Hcount]]].
  - unfold sliceTo. cbv zeta. eapply sublist_NoDup; [|apply sublist_take].
    rewrite Hperm. apply SUGGESTIONS_NoDup.
  - unfold sliceTo. cbv zeta. etransitivity; [apply subseteq_take|].
    now rewrite Hperm.
  - rewrite Hcount. destruct (parseInt text) as [n|]; [|lia].
    destruct (n <? 0) eqn:Hn; [apply Z.ltb_lt in Hn | apply Z.ltb_ge in Hn]; lia.
Qed.

End SuggestionsFacts.

Lemma shuffleArray_permutes_witness :
  (forall k, Nat.div2 k <= k)%nat
  /\ length (SuggestionsFunction.shuffleArray Nat.div2 SuggestionsFunction.SUGGESTIONS)
     = 10%nat.
Proof.
  assert (Hdraw : (forall k, Nat.div2 k <= k)%nat)
    by (intros k; apply Nat.div2_decr; lia).
  split; [exact Hdraw|].
  now destruct (shuffleArray_permutes Nat.div2 SuggestionsFunction.SUGGESTIONS Hdraw)
    as (_ & H & _).
Defined.

Lemma suggestions_are_distinct_members_witness :
  ("GET" <> "OPTIONS" /\ (forall k, Nat.div2 k <= k)%nat)
  /\ length (SuggestionsFunction.suggestionsOf
               (SuggestionsFunction.handler "GET" (Some "-3") Nat.div2)) = 7%nat.
Proof.
  assert (Hdraw : (forall k, Nat.div2 k <= k)%nat)
    by (intros k; apply Nat.div2_decr; lia).
  split; [split; [discriminate | exact Hdraw]|].
  now destruct (suggestions_are_distinct_members "GET" (Some "-3") Nat.div2
                  ltac:(discriminate) Hdraw) as (_ & _ & _ & _ & H).
Defined.

(** ** The DOM utility helpers *)

Section HelperFacts.
Import Js Helpers.

Lemma substring0_length (n : nat) : forall s,
  String.length (substring0 n s) = Nat.min n (String.length s).
Proof.
  induction n as [|n IH]; intros [|c s]; simpl; try reflexivity.
  now rewrite IH.
Qed.

Lemma append_length (s t : string) :
  String.length (s +:+ t) = (String.length s + String.length t)%nat.
Proof. induction s as [|c s IH]; simpl; [reflexivity | now rewrite IH]. Qed.

(** X28: [truncateText] returns a text of at most [maxLength] characters as it
    is.  A longer text is cut so that the result, suffix included, has
    exactly [maxLength] characters, as long as the suffix fits; when the
    suffix alone is longer than [maxLength] the result is the bare suffix,
    and so longer than [maxLength]. *)
Theorem truncateText_lengths (text : string) (maxLength : Z) (suffix : string) :
  let result := truncateText text maxLength suffix in
  let len s := Z.of_nat (String.length s) in
  (len text <= maxLength -> result = text)
  /\ (maxLength < len text -> len suffix <= maxLength ->
      len result = maxLength
      /\ exists kept, result = kept +:+ suffix /\ startsWith text kept = true)
  /\ (maxLength < len text -> maxLength < len suffix -> result = suffix)
  /\ len result <= Z.max maxLength (len suffix).
Proof.
  intros result len. subst result len. unfold truncateText.
  assert (Hprefix : forall n s, startsWith s (substring0 n s) = true).
  { induction n as [|n IH]; intros [|c s]; simpl; try reflexivity.
    now rewrite Ascii.eqb_refl. }
  destruct (Z.of_nat (String.length text) <=? maxLength) eqn:Hshort;
    [apply Z.leb_le in Hshort | apply Z.leb_gt in Hshort].
  - split; [reflexivity|]. repeat split; lia.
  - split; [lia|].
    split; [|split].
    + intros _ Hfits. split.
      * rewrite append_length, substring0_length. lia.
      * eexists. split; [reflexivity | apply Hprefix].
    + intros _ Hlong.
      replace (Z.to_nat (maxLength - Z.of_nat (String.length suffix))) with 0%nat by lia.
      reflexivity.
    + rewrite append_length, substring0_length. lia.
Qed.

Context {Args : Type}.

Lemma debounce_burst (calls : list Args) : forall (armed : option Args) (last : Args),
  invocations debounce_step armed (map Call calls ++ [Call last; Fire]) = [last].
Proof.
  induction calls as [|c calls IH]; intros armed last; simpl; [reflexivity|].
  apply IH.
Qed.

(** X29: A debounced function that is called again and again before its timer
    fires runs once, when the timer of the last call fires, and with the
    arguments of the last call; a timer that was armed before the burst
    never fires. *)
Theorem debounce_runs_the_last_call_once (armed : option Args)
  (earlier : list Args) (last : Args) :
  invocations debounce_step armed (map Call earlier ++ [Call last; Fire]) = [last]
  /\ invocations debounce_step armed (map Call earlier ++ [Call last]) = [].
Proof.
  split; [apply debounce_burst|].
  revert armed. induction earlier as [|c earlier IH]; intros armed; simpl;
    [reflexivity | apply IH].
Qed.

Lemma throttle_ignores_calls (calls : list Args) : forall rest,
  invocations throttle_step true (map Call calls ++ rest)
  = invocations throttle_step true rest.
Proof. induction calls as [|c calls IH]; intros rest; simpl; [reflexivity | apply IH]. Qed.

(** X30: A throttled function that is idle runs the first call of a burst at
    once and drops the calls that follow until its timer fires; the first
    call after that runs again. *)
Theorem throttle_runs_the_first_call_of_a_burst (first : Args) (dropped : list Args)
  (next : Args) (droppedAgain : list Args) :
  invocations throttle_step false (Call first :: map Call dropped) = [first]
  /\ invocations throttle_step false
       (Call first :: map Call dropped ++ Fire :: Call next :: map Call droppedAgain)
     = [first; next].
Proof.
  split; simpl.
  - f_equal. rewrite <- (app_nil_r (map Call dropped)).
    now rewrite throttle_ignores_calls.
  - f_equal. rewrite throttle_ignores_calls. simpl. f_equal.
    rewrite <- (app_nil_r (map Call droppedAgain)).
    now rewrite throttle_ignores_calls.
Qed.

End HelperFacts.

Lemma truncateText_lengths_witness :
  Helpers.truncateText "Velammal College" 2 "..." = "..."
  /\ Helpers.truncateText "Velammal College" 11 "..." = "Velammal...".
Proof.
  split.
  - now apply (truncateText_lengths "Velammal College" 2 "...").
  - reflexivity.
Defined.
